(** * gestion-ov: payroll computation core of the document generators

    A shallow embedding of the computation layer of
    [src/python/generate_document.py] and [src/python/generate_role.py]:
    age-conditioned deduction, period aggregation, amount-to-words
    conversion, the figures each renderer derives before it lays out
    its document, the names of the document files, and the row numbers
    and periods the tables print.

    Python [float] is IEEE binary64, which is the kernel's primitive
    [float]; [int] is [Z]; [str] is [string] (ASCII content);
    exceptions are the [Raise] branch of [result].  The layout engine
    (python-docx) is outside the embedding: each renderer is modelled
    up to the figures it hands to the layout code. *)

From Stdlib Require Import ZArith List String Ascii Bool Lia Floats.
From Stdlib Require Import DecimalString Permutation.
Import ListNotations.

Set Warnings "-inexact-float".

Open Scope string_scope.
Open Scope Z_scope.

(** ** Exceptions *)

Inductive exn : Type :=
| ValueError (msg : string)
| OverflowError (msg : string)
| IndexError (msg : string).

Inductive result (A : Type) : Type :=
| Ok (a : A)
| Raise (e : exn).
Arguments Ok {A} a.
Arguments Raise {A} e.

Definition bind {A B : Type} (r : result A) (k : A -> result B) : result B :=
  match r with
  | Ok a => k a
  | Raise e => Raise e
  end.

Notation "'do' x <- r ; k" := (bind r (fun x => k))
  (at level 10, x name, r at level 100, k at level 200).

(** ** Python floats over the primitive binary64 type *)

Module PyFloat.

(** Exact value of a finite float: [Some (m, e)] stands for [m * 2^e]. *)
Definition exact (x : float) : option (Z * Z) :=
  match Prim2SF x with
  | S754_zero _ => Some (0, 0)
  | S754_finite s m e => Some (if s then Z.neg m else Z.pos m, e)
  | S754_infinity _ | S754_nan => None
  end.

(** Nearest integer to [p / q] for [0 < q], ties to the even integer. *)
Definition rne_div (p q : Z) : Z :=
  let d := p / q in
  let r := p mod q in
  match 2 * r ?= q with
  | Lt => d
  | Gt => d + 1
  | Eq => if Z.even d then d else d + 1
  end.

Definition not_an_integer (x : float) : exn :=
  if PrimFloat.is_nan x
  then ValueError "cannot convert float NaN to integer"
  else OverflowError "cannot convert float infinity to integer".

(** [math.floor(x)], an [int]. *)
Definition floor (x : float) : result Z :=
  match exact x with
  | Some (m, e) => Ok (if 0 <=? e then m * 2 ^ e else m / 2 ^ (- e))
  | None => Raise (not_an_integer x)
  end.

(** [round(x)] with one argument: nearest [int], ties to even. *)
Definition round (x : float) : result Z :=
  match exact x with
  | Some (m, e) => Ok (if 0 <=? e then m * 2 ^ e else rne_div m (2 ^ (- e)))
  | None => Raise (not_an_integer x)
  end.

(** [float(n)] for an [int]: the nearest binary64 value. *)
Definition of_Z (n : Z) : float :=
  SF2Prim (binary_normalize prec emax n 0 false).

(** Nearest binary64 value to [p / q] for [0 <= p] and [0 < q]: the
    quotient is taken with at least 56 significant bits and a sticky
    bit, which no longer changes the rounding to 53 bits. *)
Definition of_ratio (p q : Z) : float :=
  let k := Z.max 0 (56 + Z.log2 q - Z.log2 p) in
  let m := (p * 2 ^ k) / q in
  let sticky := if (p * 2 ^ k) mod q =? 0 then 0 else 1 in
  SF2Prim (binary_normalize prec emax (2 * m + sticky) (- k - 1) false).

(** Digits printed by the format [.2f], as a count of hundredths:
    the nearest integer to [|m * 2^e| * 100], ties to even. *)
Definition hundredths (m e : Z) : Z :=
  let a := Z.abs m * 100 in
  if 0 <=? e then a * 2 ^ e else rne_div a (2 ^ (- e)).

(** [float(n)] where the conversion is checked: an [int] beyond the
    binary64 range raises [OverflowError]. *)
Definition of_Z_checked (n : Z) : result float :=
  match binary_normalize prec emax n 0 false with
  | S754_infinity _ => Raise (OverflowError "int too large to convert to float")
  | sf => Ok (SF2Prim sf)
  end.

(** [float(f"{x:.2f}")]: the text printed is the count of hundredths
    nearest to the exact binary value, and reading it back gives the
    float nearest to that decimal; NaN and the infinities print and
    read back as themselves. *)
Definition round_to_cents (x : float) : float :=
  match exact x with
  | None => x
  | Some (m, e) =>
      let y := of_ratio (hundredths m e) 100 in
      if PrimFloat.get_sign x then (- y)%float else y
  end.

(** Truthiness of a float in [x or d]: zero of either sign is falsy. *)
Definition truthy (x : float) : bool := negb (x =? 0)%float.

(** [float(x or 0)]. *)
Definition or_zero (x : float) : float :=
  if truthy x then x else 0%float.

End PyFloat.

(** ** Python strings *)

Module PyStr.

Definition is_space (c : ascii) : bool :=
  let n := N_of_ascii c in
  ((9 <=? n) && (n <=? 13) || (28 <=? n) && (n <=? 32))%N.

Fixpoint lstrip (s : string) : string :=
  match s with
  | String c r => if is_space c then lstrip r else s
  | EmptyString => EmptyString
  end.

Fixpoint rstrip (s : string) : string :=
  match s with
  | String c r =>
      match rstrip r with
      | EmptyString => if is_space c then EmptyString else String c EmptyString
      | r' => String c r'
      end
  | EmptyString => EmptyString
  end.

Definition strip (s : string) : string := rstrip (lstrip s).

Fixpoint contains (c : ascii) (s : string) : bool :=
  match s with
  | String d r => Ascii.eqb c d || contains c r
  | EmptyString => false
  end.

(** [s.split(sep)] for a one-character separator. *)
Fixpoint split (sep : ascii) (s : string) : list string :=
  match s with
  | EmptyString => [EmptyString]
  | String c r =>
      match split sep r with
      | p :: ps => if Ascii.eqb c sep then EmptyString :: p :: ps
                   else String c p :: ps
      | [] => [String c EmptyString]
      end
  end.

(** [s.replace("Z", "+00:00")]. *)
Fixpoint replace_Z (s : string) : string :=
  match s with
  | String c r =>
      if Ascii.eqb c "Z" then "+00:00" ++ replace_Z r else String c (replace_Z r)
  | EmptyString => EmptyString
  end.

Definition upper_char (c : ascii) : ascii :=
  let n := N_of_ascii c in
  if ((97 <=? n) && (n <=? 122))%N then ascii_of_N (n - 32) else c.

Fixpoint upper (s : string) : string :=
  match s with
  | String c r => String (upper_char c) (upper r)
  | EmptyString => EmptyString
  end.

Fixpoint repeat_char (c : ascii) (n : nat) : string :=
  match n with
  | O => EmptyString
  | S k => String c (repeat_char c k)
  end.

(** [s.rjust(width, fill)]. *)
Definition rjust (width : nat) (fill : ascii) (s : string) : string :=
  repeat_char fill (width - String.length s) ++ s.

(** [str(n)] for an [int]. *)
Definition of_Z (n : Z) : string := NilZero.string_of_int (Z.to_int n).

(** [f"{n:02d}"]: the sign, when there is one, counts in the width. *)
Definition zfill2 (n : Z) : string :=
  if n <? 0
  then "-" ++ rjust 1 "0" (of_Z (- n))
  else rjust 2 "0" (of_Z n).

Definition digit_value (c : ascii) : option Z :=
  let n := N_of_ascii c in
  if ((48 <=? n) && (n <=? 57))%N then Some (Z.of_N (n - 48)) else None.

(** Digits of a decimal literal read left to right; a single underscore
    is accepted between two digits, as [int] does. *)
Fixpoint digits (acc : Z) (after_digit : bool) (s : string) : option Z :=
  match s with
  | EmptyString => if after_digit then Some acc else None
  | String c r =>
      match digit_value c with
      | Some d => digits (10 * acc + d) true r
      | None =>
          if Ascii.eqb c "_" && after_digit
          then match r with
               | String c' _ =>
                   match digit_value c' with
                   | Some _ => digits acc false r
                   | None => None
                   end
               | EmptyString => None
               end
          else None
      end
  end.

(** [int(s)] on a string, base 10; [None] stands for [ValueError]. *)
Definition to_int (s : string) : option Z :=
  match strip s with
  | String "-" r => option_map Z.opp (digits 0 false r)
  | String "+" r => digits 0 false r
  | t => digits 0 false t
  end.

End PyStr.

(** ** Character classes and the regular expressions of the sources *)

Module PyRe.

Definition is_digit (c : ascii) : bool :=
  let n := N_of_ascii c in ((48 <=? n) && (n <=? 57))%N.

Definition is_alnum (c : ascii) : bool :=
  let n := N_of_ascii c in
  ((48 <=? n) && (n <=? 57) || (65 <=? n) && (n <=? 90)
   || (97 <=? n) && (n <=? 122))%N.

(** The characters [strip("._-")] removes. *)
Definition is_edge (c : ascii) : bool :=
  Ascii.eqb c "." || Ascii.eqb c "_" || Ascii.eqb c "-".

(** The class [[0-9A-Za-z._-]]. *)
Definition is_safe (c : ascii) : bool := is_alnum c || is_edge c.

Fixpoint all_chars (p : ascii -> bool) (s : string) : bool :=
  match s with
  | String c r => p c && all_chars p r
  | EmptyString => true
  end.

(** [s.replace(a, b)] for one-character [a] and [b]. *)
Fixpoint replace_char (a b : ascii) (s : string) : string :=
  match s with
  | String c r => String (if Ascii.eqb c a then b else c) (replace_char a b r)
  | EmptyString => EmptyString
  end.

(** [s.replace(a, "")]. *)
Fixpoint remove_char (a : ascii) (s : string) : string :=
  match s with
  | String c r => if Ascii.eqb c a then remove_char a r else String c (remove_char a r)
  | EmptyString => EmptyString
  end.

(** [re.sub(r"[^0-9A-Za-z._-]+", "_", s)]: each maximal run of
    characters outside the class becomes one underscore; [in_run]
    tells that the previous character was outside the class. *)
Fixpoint sub_unsafe_runs (in_run : bool) (s : string) : string :=
  match s with
  | String c r =>
      if is_safe c then String c (sub_unsafe_runs false r)
      else if in_run then sub_unsafe_runs true r
      else String "_" (sub_unsafe_runs true r)
  | EmptyString => EmptyString
  end.

(** [s.strip(chars)] for the characters satisfying [p]. *)
Fixpoint lstrip_by (p : ascii -> bool) (s : string) : string :=
  match s with
  | String c r => if p c then lstrip_by p r else s
  | EmptyString => EmptyString
  end.

Fixpoint rstrip_by (p : ascii -> bool) (s : string) : string :=
  match s with
  | String c r =>
      match rstrip_by p r with
      | EmptyString => if p c then EmptyString else String c EmptyString
      | r' => String c r'
      end
  | EmptyString => EmptyString
  end.

Definition strip_by (p : ascii -> bool) (s : string) : string :=
  rstrip_by p (lstrip_by p s).

(** [s.endswith(suffix)]. *)
Definition endswith (suffix s : string) : bool :=
  let n := String.length s in
  let k := String.length suffix in
  (Nat.leb k n && (String.substring (n - k) k s =? suffix)%string)%bool.

End PyRe.

(** [f"{x:.2f}"]. *)
Definition format_2f (x : float) : string :=
  match PyFloat.exact x with
  | None =>
      if PrimFloat.is_nan x then "nan"
      else if (x <? 0)%float then "-inf" else "inf"
  | Some (m, e) =>
      let n := PyFloat.hundredths m e in
      (if PrimFloat.get_sign x then "-" else "")
      ++ PyStr.of_Z (n / 100) ++ "." ++ PyStr.rjust 2 "0" (PyStr.of_Z (n mod 100))
  end.

(** ** Calendar dates *)

Record date : Type := mkdate { year : Z; month : Z; day : Z }.

Definition is_leap (y : Z) : bool :=
  (y mod 4 =? 0) && (negb (y mod 100 =? 0) || (y mod 400 =? 0)).

(** Length of month [m] of year [y], for [1 <= m <= 12]. *)
Definition days_in_month (y m : Z) : Z :=
  if m =? 2 then (if is_leap y then 29 else 28)
  else if (m =? 4) || (m =? 6) || (m =? 9) || (m =? 11) then 30
  else 31.

(** The constructor [date(y, m, d)], which raises [ValueError] outside
    the proleptic Gregorian calendar of years 1 to 9999. *)
Definition make_date (y m d : Z) : result date :=
  if negb ((1 <=? y) && (y <=? 9999)) then
    Raise (ValueError ("year " ++ PyStr.of_Z y ++ " is out of range"))
  else if negb ((1 <=? m) && (m <=? 12)) then
    Raise (ValueError "month must be in 1..12")
  else if negb ((1 <=? d) && (d <=? days_in_month y m)) then
    Raise (ValueError "day is out of range for month")
  else Ok (mkdate y m d).

(** Tuple order [(m1, d1) < (m2, d2)]. *)
Definition month_day_ltb (m1 d1 m2 d2 : Z) : bool :=
  (m1 <? m2) || ((m1 =? m2) && (d1 <? d2)).

(** ** Input payload

    Fields are typed as the data model gives them: day counts are JSON
    integers, amounts are JSON numbers read as floats, texts are
    strings.  [None] is a key that is absent or [null]. *)

Record MonthlyStat : Type := {
  ms_days_worked : option float;
  ms_amount : option float
}.

Record Worker : Type := {
  nom_prenom : option string;
  cin : option string;
  type_ : option string;
  date_naissance : option string;
  days_worked : option Z;
  total_days : option Z;
  amount : option float;
  total_amount : option float;
  presenceDays : list Z;
  presence_days : list Z;
  salaire_journalier : option float;
  dailySalary : option float;
  daily_salary : option float;
  monthlyStats : list MonthlyStat
}.

Record Options : Type := {
  rcarAgeLimit : option Z;
  decisionNumber : option string;
  decisionDate : option string;
  reportPreviousBordereau : option float;
  admittedAmount : option float
}.

Record Payload : Type := {
  documentType : option string;
  p_year : option Z;
  p_month : option Z;
  report_rows : list Worker;
  quarterEndDate : option string;
  options : Options
}.

(** [a or b] on optional integers and floats: [None] and zero are falsy. *)
Definition or_int (a b : option Z) : option Z :=
  match a with
  | Some z => if z =? 0 then b else a
  | None => b
  end.

Definition or_float (a b : option float) : option float :=
  match a with
  | Some x => if PyFloat.truthy x then a else b
  | None => b
  end.

(** [a or b] on lists: the empty list is falsy. *)
Definition or_list {A : Type} (a b : list A) : list A :=
  match a with
  | [] => b
  | _ => a
  end.

(** [str(s or "")]. *)
Definition or_empty (s : option string) : string :=
  match s with
  | Some t => t
  | None => ""
  end.

(** [int(a or 0)] and [float(a or 0.0)] at the end of an [or] chain. *)
Definition int_or_zero (a : option Z) : Z :=
  match or_int a (Some 0) with
  | Some z => z
  | None => 0
  end.

Definition float_or_zero (a : option float) : float :=
  match or_float a (Some 0%float) with
  | Some x => x
  | None => 0%float
  end.

(** Python list indexing [l[i]], negative indices counting from the end. *)
Definition index (l : list string) (i : Z) : result string :=
  let j := if i <? 0 then Z.of_nat (List.length l) + i else i in
  if j <? 0 then Raise (IndexError "list index out of range")
  else match nth_error l (Z.to_nat j) with
       | Some s => Ok s
       | None => Raise (IndexError "list index out of range")
       end.

(** ** generate_document.py *)

Module GenerateDocument.

Definition RCAR_RATE : float := 0x1.eb851eb851eb8p-5%float.

(** [round2]: [float(f"{float(value or 0):.2f}")]. *)
Definition round2 (value : float) : float :=
  PyFloat.round_to_cents (PyFloat.or_zero value).

Section ParseDate.

(** [datetime.fromisoformat(s).date()] of the standard library, [None]
    when it raises. *)
Variable fromisoformat : string -> option date.

Definition parse_dmy (parts : list string) : option date :=
  match parts with
  | [p0; p1; p2] =>
      match PyStr.to_int p0, PyStr.to_int p1, PyStr.to_int p2 with
      | Some d, Some m, Some y =>
          match make_date y m d with
          | Ok b => Some b
          | Raise _ => None
          end
      | _, _, _ => None
      end
  | _ => None
  end.

Definition parse_date (value : option string) : option date :=
  match value with
  | None => None
  | Some EmptyString => None
  | Some v =>
      let text := PyStr.strip v in
      match text with
      | EmptyString => None
      | _ =>
          let parts := map PyStr.strip (PyStr.split "/" text) in
          if PyStr.contains "/" text && (Nat.eqb (List.length parts) 3)
          then parse_dmy parts
          else if PyStr.contains "T" text
               then fromisoformat (PyStr.replace_Z text)
               else fromisoformat text
      end
  end.

Definition calculate_age_at (birth : option string) (ref : date) : option Z :=
  match parse_date birth with
  | None => None
  | Some b =>
      let age := year ref - year b in
      if month_day_ltb (month ref) (day ref) (month b) (day b)
      then Some (age - 1)
      else Some age
  end.

Definition calculate_igr_deduction
    (date_naissance : option string) (ref_date : date)
    (gross_salary : float) (age_limit : Z) : float :=
  match calculate_age_at date_naissance ref_date with
  | None => round2 (gross_salary * RCAR_RATE)
  | Some age =>
      if age <=? age_limit
      then round2 (gross_salary * RCAR_RATE)
      else 0%float
  end.

Definition calculate_net_salary
    (date_naissance : option string) (ref_date : date)
    (gross_salary : float) (age_limit : Z) : float :=
  round2 (gross_salary
          - calculate_igr_deduction date_naissance ref_date gross_salary age_limit).

End ParseDate.

(** [calendar.monthrange(y, m)[1]]. *)
Definition monthrange (y m : Z) : result Z :=
  if (1 <=? m) && (m <=? 12) then Ok (days_in_month y m)
  else Raise (ValueError ("bad month number " ++ PyStr.of_Z m ++ "; must be 1-12")).

Definition month_start_end (y m : Z) : result (date * date) :=
  do end_day <- monthrange y m;
  do first <- make_date y m 1;
  do last <- make_date y m end_day;
  Ok (first, last).

(** *** number_to_words_fr *)

Definition units : list string :=
  ["Zero"; "Un"; "Deux"; "Trois"; "Quatre"; "Cinq"; "Six"; "Sept"; "Huit";
   "Neuf"; "Dix"; "Onze"; "Douze"; "Treize"; "Quatorze"; "Quinze"; "Seize";
   "Dix Sept"; "Dix Huit"; "Dix Neuf"].

Definition tens : list string :=
  [""; ""; "Vingt"; "Trente"; "Quarante"; "Cinquante"; "Soixante"].

(** The recursion of [two_digits] lowers [n] by 60 or 80 at each call;
    [fuel] bounds the number of calls. *)
Fixpoint two_digits_rec (fuel : nat) (n : Z) : result string :=
  if n <? 20 then index units n
  else if n <? 70 then
    let ten := n / 10 in
    let unit := n mod 10 in
    if unit =? 0 then index tens ten
    else do t <- index tens ten; do u <- index units unit; Ok (t ++ " " ++ u)
  else
    match fuel with
    | O => Raise (IndexError "two_digits: recursion bound reached")
    | S fuel' =>
        if n <? 80 then
          do r <- two_digits_rec fuel' (n - 60); Ok ("Soixante " ++ r)
        else if n =? 80 then Ok "Quatre Vingt"
        else do r <- two_digits_rec fuel' (n - 80); Ok ("Quatre Vingt " ++ r)
    end.

Definition two_digits (n : Z) : result string :=
  two_digits_rec (Z.to_nat n) n.

Definition three_digits (n : Z) : result string :=
  let hundred := n / 100 in
  let rest := n mod 100 in
  do hundred_part <-
    (if hundred =? 0 then Ok ""
     else if hundred =? 1 then Ok "Cent"
     else do u <- index units hundred; Ok (u ++ " Cent"));
  if rest =? 0 then Ok hundred_part
  else match hundred_part with
       | EmptyString => two_digits rest
       | _ => do r <- two_digits rest; Ok (hundred_part ++ " " ++ r)
       end.

(** [" ".join(parts)]. *)
Fixpoint join_space (parts : list string) : string :=
  match parts with
  | [] => ""
  | [p] => p
  | p :: ps => p ++ " " ++ join_space ps
  end.

Definition to_words (n : Z) : result string :=
  if n =? 0 then Ok "Zero"
  else
    let millions := n / 1000000 in
    let thousands := (n mod 1000000) / 1000 in
    let rest := n mod 1000 in
    do p1 <-
      (if 0 <? millions then
         do w <- three_digits millions;
         Ok [w ++ " Million" ++ (if 1 <? millions then "s" else "")]
       else Ok []);
    do p2 <-
      (if 0 <? thousands then
         if thousands =? 1 then Ok ["Mille"]
         else do w <- three_digits thousands; Ok [w ++ " Mille"]
       else Ok []);
    do p3 <-
      (if 0 <? rest then do w <- three_digits rest; Ok [w] else Ok []);
    Ok (join_space (p1 ++ p2 ++ p3)%list).

Definition number_to_words_fr (num : float) : result string :=
  do whole_part <- PyFloat.floor (PyFloat.or_zero num);
  to_words whole_part.

(** *** Period aggregation *)

Record FinancialRow : Type := {
  row_nom_prenom : string;
  row_cin : string;
  row_type : string;
  row_days : Z;
  row_gross : float;
  row_deduction : float;
  row_net : float
}.

Record Totals : Type := {
  days : float;
  gross : float;
  deduction : float;
  net : float
}.

Definition worker_days (w : Worker) : Z :=
  int_or_zero (or_int (days_worked w) (total_days w)).

Definition worker_gross (w : Worker) : float :=
  float_or_zero (or_float (amount w) (total_amount w)).

(** The test guarding [continue] in [build_workers_financial_rows]. *)
Definition skipped (w : Worker) : bool :=
  (worker_days w <=? 0) || (worker_gross w <=? 0)%float.

Section Renderers.

Variable fromisoformat : string -> option date.

Definition worker_deduction (ref_date : date) (age_limit : Z) (w : Worker) : float :=
  calculate_igr_deduction fromisoformat (date_naissance w) ref_date
    (worker_gross w) age_limit.

Definition worker_net (ref_date : date) (age_limit : Z) (w : Worker) : float :=
  round2 (worker_gross w - worker_deduction ref_date age_limit w).

Definition financial_row (ref_date : date) (age_limit : Z) (w : Worker)
  : FinancialRow :=
  {| row_nom_prenom := or_empty (nom_prenom w);
     row_cin := or_empty (cin w);
     row_type := or_empty (type_ w);
     row_days := worker_days w;
     row_gross := round2 (worker_gross w);
     row_deduction := round2 (worker_deduction ref_date age_limit w);
     row_net := round2 (worker_net ref_date age_limit w) |}.

(** One iteration of the loop of [build_workers_financial_rows]. *)
Definition financial_step (ref_date : date) (age_limit : Z)
    (st : list FinancialRow * Totals) (w : Worker)
  : list FinancialRow * Totals :=
  let '(rows_out, totals) := st in
  if skipped w then st
  else
    (rows_out ++ [financial_row ref_date age_limit w],
     {| days := days totals + PyFloat.of_Z (worker_days w);
        gross := gross totals + worker_gross w;
        deduction := deduction totals + worker_deduction ref_date age_limit w;
        net := net totals + worker_net ref_date age_limit w |})%list%float.

Definition round_totals (t : Totals) : Totals :=
  {| days := round2 (days t);
     gross := round2 (gross t);
     deduction := round2 (deduction t);
     net := round2 (net t) |}.

Definition zero_totals : Totals :=
  {| days := 0%float; gross := 0%float; deduction := 0%float; net := 0%float |}.

Definition build_workers_financial_rows
    (report_rows : list Worker) (ref_date : date) (age_limit : Z)
  : list FinancialRow * Totals :=
  let '(rows_out, totals) :=
    fold_left (financial_step ref_date age_limit) report_rows ([], zero_totals) in
  (rows_out, round_totals totals).

(** *** Amounts in words *)

Definition amount_to_words_dhs_cents (amount : float) : result string :=
  let value := PyFloat.or_zero amount in
  do whole_part <- PyFloat.floor value;
  do cents <- PyFloat.round ((value - PyFloat.of_Z whole_part) * 100)%float;
  let cents_str := PyStr.rjust 2 "0" (PyStr.of_Z cents) in
  do words <- number_to_words_fr value;
  Ok (words ++ " dhs " ++ cents_str ++ " Cts").

(** [amount_words_upper], local to [_generate_rcar_docx]. *)
Definition amount_words_upper (amount : float) : result string :=
  let value := PrimFloat.abs (PyFloat.or_zero amount) in
  do whole_part <- PyFloat.floor value;
  do cents <- PyFloat.round ((value - PyFloat.of_Z whole_part) * 100)%float;
  let '(whole_part, cents) :=
    if cents =? 100 then (whole_part + 1, 0) else (whole_part, cents) in
  do f <- PyFloat.of_Z_checked whole_part;
  do words <- number_to_words_fr f;
  Ok (PyStr.upper words ++ " DHS " ++ PyStr.zfill2 cents ++ " CTS").

(** *** Bordereau sub-range total *)

Definition worker_presence (w : Worker) : list Z :=
  or_list (presenceDays w) (presence_days w).

Definition worker_daily_salary (w : Worker) : float :=
  float_or_zero
    (or_float (or_float (salaire_journalier w) (dailySalary w)) (daily_salary w)).

Definition days_in_range (start_day end_day : Z) (w : Worker) : Z :=
  Z.of_nat (List.length
    (filter (fun d => (start_day <=? d) && (d <=? end_day)) (worker_presence w))).

(** Net of one worker over the range, in centimes; [None] when the
    loop skips the worker. *)
Definition range_net_cents (ref_date : date) (start_day end_day age_limit : Z)
    (w : Worker) : option (result Z) :=
  let daily := worker_daily_salary w in
  if (daily <=? 0)%float then None
  else
    let n := days_in_range start_day end_day w in
    if n <=? 0 then None
    else
      let gross := round2 (PyFloat.of_Z n * daily) in
      let deduction :=
        calculate_igr_deduction fromisoformat (date_naissance w) ref_date
          gross age_limit in
      let net := round2 (gross - deduction) in
      Some (PyFloat.round (net * 100)%float).

Fixpoint range_loop (ref_date : date) (start_day end_day age_limit : Z)
    (rows : list Worker) (total_cents : Z) : result Z :=
  match rows with
  | [] => Ok total_cents
  | w :: rest =>
      match range_net_cents ref_date start_day end_day age_limit w with
      | None => range_loop ref_date start_day end_day age_limit rest total_cents
      | Some r =>
          do c <- r;
          range_loop ref_date start_day end_day age_limit rest (total_cents + c)
      end
  end.

Definition calculate_range_net_total
    (report_rows : list Worker) (y m start_day end_day age_limit : Z)
  : result float :=
  do ref_date <- make_date y m end_day;
  do total_cents <- range_loop ref_date start_day end_day age_limit report_rows 0;
  do f <- PyFloat.of_Z_checked total_cents;
  Ok (f / 100)%float.

(** *** Month renderers: the figures computed before layout *)

Record MonthFigures : Type := {
  total_net : float;
  amount_words : string
}.

Definition document_type_of (payload : Payload) : string :=
  PyStr.strip (or_empty (documentType payload)).

(** [int(options.get("rcarAgeLimit") or 60)]. *)
Definition age_limit_of (payload : Payload) : Z :=
  match or_int (rcarAgeLimit (options payload)) (Some 60) with
  | Some z => z
  | None => 60
  end.

(** The block shared, line for line, by the recu, demande-autorisation,
    certificat-paiement, ordre-paiement and mandat-paiement renderers:
    year and month validation, aggregation at the month end, net total
    and its wording. *)
Definition month_figures (label : string) (payload : Payload)
  : result MonthFigures :=
  let y := int_or_zero (p_year payload) in
  let m := int_or_zero (p_month payload) in
  if (y <=? 0) || (m <=? 0) || (12 <? m) then
    Raise (ValueError ("Missing required fields for " ++ label ++ ": year, month"))
  else
    let age_limit := age_limit_of payload in
    do se <- month_start_end y m;
    let '(_, totals) :=
      build_workers_financial_rows (report_rows payload) (snd se) age_limit in
    let total_net := round2 (PyFloat.or_zero (net totals)) in
    do words <- number_to_words_fr total_net;
    do whole_part <- PyFloat.floor (PyFloat.or_zero total_net);
    do cents <-
      PyFloat.round ((PyFloat.or_zero total_net - PyFloat.of_Z whole_part) * 100)%float;
    let cents_str := PyStr.rjust 2 "0" (PyStr.of_Z cents) in
    Ok {| total_net := total_net;
          amount_words := words ++ " dhs " ++ cents_str ++ " Cts" |}.

Definition unsupported (label document_type : string) : exn :=
  ValueError ("Unsupported document type for " ++ label ++ " generator: "
              ++ document_type).

Definition generate_recu_docx (payload : Payload) : result MonthFigures :=
  let document_type := document_type_of payload in
  if negb (document_type =? "recu-combined")%string
  then Raise (unsupported "recu" document_type)
  else month_figures "recu" payload.

Definition generate_demande_autorisation_docx (payload : Payload)
  : result MonthFigures :=
  let document_type := document_type_of payload in
  if negb (document_type =? "demande-autorisation")%string
  then Raise (unsupported "demande-autorisation" document_type)
  else month_figures "demande-autorisation" payload.

Definition generate_certificat_paiement_docx (payload : Payload)
  : result MonthFigures :=
  let document_type := document_type_of payload in
  if negb ((document_type =? "certificat-paiement")%string
           || (document_type =? "certificat-paiement-combined")%string)
  then Raise (unsupported "certificat-paiement" document_type)
  else
    do figures <- month_figures "certificat-paiement" payload;
    let decision_number := PyStr.strip (or_empty (decisionNumber (options payload))) in
    let decision_date := PyStr.strip (or_empty (decisionDate (options payload))) in
    if (decision_number =? "")%string || (decision_date =? "")%string
    then Raise (ValueError
      "Missing CERTIFICAT DE PAIEMENT decision reference in configuration (decision number/date).")
    else Ok figures.

Definition generate_ordre_paiement_docx (payload : Payload)
  : result MonthFigures :=
  let document_type := document_type_of payload in
  if negb (document_type =? "ordre-paiement")%string
  then Raise (unsupported "ordre-paiement" document_type)
  else month_figures "ordre-paiement" payload.

Definition generate_mandat_paiement_docx (payload : Payload)
  : result MonthFigures :=
  let document_type := document_type_of payload in
  if negb (document_type =? "mandat-paiement")%string
  then Raise (unsupported "mandat-paiement" document_type)
  else month_figures "mandat-paiement" payload.

(** *** Bordereau *)

Record BordereauFigures : Type := {
  combined_net : float;
  range_net : float;
  bord_words : string;
  admitted : float;
  total_general : float;
  total_general_words : string
}.

Definition no_payroll_data : exn :=
  ValueError "Aucune donnée de paie pour cette période".

Definition generate_bordereau_docx (payload : Payload)
  : result BordereauFigures :=
  let document_type := document_type_of payload in
  if negb (document_type =? "bordereau")%string
  then Raise (unsupported "bordereau" document_type)
  else
    let y := int_or_zero (p_year payload) in
    let m := int_or_zero (p_month payload) in
    if (y <=? 0) || (m <=? 0) || (12 <? m) then
      Raise (ValueError "Missing required fields for bordereau: year, month")
    else
      let age_limit := age_limit_of payload in
      do last_day <- monthrange y m;
      do combined <-
        calculate_range_net_total (report_rows payload) y m 1 last_day age_limit;
      if (combined <=? 0)%float then Raise no_payroll_data
      else
        let report_previous :=
          float_or_zero (reportPreviousBordereau (options payload)) in
        do range <-
          calculate_range_net_total (report_rows payload) y m 1 last_day age_limit;
        do words <- amount_to_words_dhs_cents range;
        let admitted_v :=
          match admittedAmount (options payload) with
          | None => range
          | Some a => a
          end in
        let admitted_r := round2 admitted_v in
        let general := (report_previous + range)%float in
        do general_words <- amount_to_words_dhs_cents general;
        Ok {| combined_net := combined;
              range_net := range;
              bord_words := words;
              admitted := if (admitted_r <? 0)%float then 0%float else admitted_r;
              total_general := general;
              total_general_words := general_words |}.

End Renderers.

(** *** RCAR statements *)

Record RcarRow : Type := {
  rcar_nom_prenom : string;
  rcar_qualite : string;
  rcar_days : float;
  rcar_price : option float;
  rcar_brut : float;
  rcar_prelev : float;
  rcar_versement : float
}.

Record RcarFigures : Type := {
  table_rows : list RcarRow;
  total_days_r : float;
  total_brut : float;
  total_prelev : float;
  total_versement : float
}.

(** [safe_float(value, 0.0)] on an optional float and on an [int]. *)
Definition safe_float (v : option float) : float :=
  match v with
  | Some x => x
  | None => 0%float
  end.

Definition safe_float_int (z : Z) : float :=
  match PyFloat.of_Z_checked z with
  | Ok x => x
  | Raise _ => 0%float
  end.

(** [sum(...)] of floats, which starts from the integer 0. *)
Definition sum_floats (l : list float) : float :=
  fold_left PrimFloat.add l 0%float.

Definition rcar_worker_days (w : Worker) : float :=
  match total_days w with
  | Some z => safe_float_int z
  | None =>
      match days_worked w with
      | Some z => safe_float_int z
      | None =>
          match monthlyStats w with
          | [] => 0%float
          | ms => sum_floats (map (fun s => safe_float (ms_days_worked s)) ms)
          end
      end
  end.

Definition rcar_worker_brut (w : Worker) : float :=
  round2
    match total_amount w with
    | Some x => x
    | None =>
        match amount w with
        | Some x => x
        | None =>
            match monthlyStats w with
            | [] => 0%float
            | ms => sum_floats (map (fun s => safe_float (ms_amount s)) ms)
            end
        end
    end.

(** The test guarding [continue] in the RCAR loop. *)
Definition rcar_skipped (w : Worker) : bool :=
  (rcar_worker_days w <=? 0)%float && (rcar_worker_brut w <=? 0)%float.

Definition rcar_row (prelevement_rate : float) (w : Worker) : RcarRow :=
  let d := rcar_worker_days w in
  let brut := rcar_worker_brut w in
  let daily_price := worker_daily_salary w in
  let daily_price :=
    if (daily_price <=? 0)%float && (0 <? d)%float && (0 <? brut)%float
    then round2 (brut / d) else daily_price in
  let prelev :=
    if (0 <? brut)%float then round2 (brut * prelevement_rate) else 0%float in
  {| rcar_nom_prenom := or_empty (nom_prenom w);
     rcar_qualite := PyStr.upper (or_empty (type_ w));
     rcar_days := d;
     rcar_price := if (0 <? daily_price)%float then Some daily_price else None;
     rcar_brut := if (0 <? brut)%float then brut else 0%float;
     rcar_prelev := prelev;
     rcar_versement := prelev |}.

Definition rcar_step (prelevement_rate : float) (st : RcarFigures) (w : Worker)
  : RcarFigures :=
  if rcar_skipped w then st
  else
    let r := rcar_row prelevement_rate w in
    {| table_rows := (table_rows st ++ [r])%list;
       total_days_r := (total_days_r st + rcar_worker_days w)%float;
       total_brut := (total_brut st + rcar_worker_brut w)%float;
       total_prelev := (total_prelev st + rcar_prelev r)%float;
       total_versement := (total_versement st + rcar_versement r)%float |}.

Definition rcar_figures (prelevement_rate : float) (rows : list Worker)
  : RcarFigures :=
  let st :=
    fold_left (rcar_step prelevement_rate) rows
      {| table_rows := []; total_days_r := 0%float; total_brut := 0%float;
         total_prelev := 0%float; total_versement := 0%float |} in
  {| table_rows := table_rows st;
     total_days_r := total_days_r st;
     total_brut := round2 (total_brut st);
     total_prelev := round2 (total_prelev st);
     total_versement := round2 (total_versement st) |}.

Definition _generate_rcar_docx (payload : Payload)
    (expected_document_type : string) (prelevement_rate : float)
  : result RcarFigures :=
  let document_type := document_type_of payload in
  if negb (document_type =? expected_document_type)%string
  then Raise (unsupported expected_document_type document_type)
  else Ok (rcar_figures prelevement_rate (report_rows payload)).

Definition generate_rcar_salariale_docx (payload : Payload) : result RcarFigures :=
  _generate_rcar_docx payload "rcar-salariale" 0x1.eb851eb851eb8p-5%float.

Definition generate_rcar_patronale_docx (payload : Payload) : result RcarFigures :=
  _generate_rcar_docx payload "rcar-patronale" 0x1.eb851eb851eb8p-4%float.

(** *** Dispatch on the document type *)

Inductive Figures : Type :=
| MonthDoc (f : MonthFigures)
| BordereauDoc (f : BordereauFigures)
| RcarDoc (f : RcarFigures)
| GenericDoc (f : option (list FinancialRow * Totals)).

Section Dispatch.

Variable fromisoformat : string -> option date.

(** [date.today()], read by the generic layout when the payload names
    no month and no quarter end. *)
Variable today : date.

Definition month_doc (r : result MonthFigures) : result Figures :=
  do f <- r; Ok (MonthDoc f).

Definition generate_generic_docx (payload : Payload) : result Figures :=
  let document_type := document_type_of payload in
  let y := int_or_zero (p_year payload) in
  let age_limit := age_limit_of payload in
  if (document_type =? "recu-combined")%string then
    month_doc (generate_recu_docx fromisoformat payload)
  else if (document_type =? "demande-autorisation")%string then
    month_doc (generate_demande_autorisation_docx fromisoformat payload)
  else if (document_type =? "certificat-paiement")%string
          || (document_type =? "certificat-paiement-combined")%string then
    month_doc (generate_certificat_paiement_docx fromisoformat payload)
  else if (document_type =? "ordre-paiement")%string then
    month_doc (generate_ordre_paiement_docx fromisoformat payload)
  else if (document_type =? "mandat-paiement")%string then
    month_doc (generate_mandat_paiement_docx fromisoformat payload)
  else if (document_type =? "bordereau")%string then
    do f <- generate_bordereau_docx fromisoformat payload; Ok (BordereauDoc f)
  else if (document_type =? "rcar-salariale")%string then
    do f <- generate_rcar_salariale_docx payload; Ok (RcarDoc f)
  else if (document_type =? "rcar-patronale")%string then
    do f <- generate_rcar_patronale_docx payload; Ok (RcarDoc f)
  else
    match report_rows payload with
    | [] => Ok (GenericDoc None)
    | rows =>
        do ref_date <-
          (if negb (y =? 0) && negb (int_or_zero (p_month payload) =? 0) then
             do se <- month_start_end y (int_or_zero (p_month payload));
             Ok (snd se)
           else
             match parse_date fromisoformat (quarterEndDate payload) with
             | Some d => Ok d
             | None => Ok today
             end);
        Ok (GenericDoc
              (Some (build_workers_financial_rows fromisoformat rows ref_date age_limit)))
    end.

End Dispatch.

(** *** File names *)

(** [safe_filename_part] on the text [str(value or "")]. *)
Definition safe_filename_part (value : string) : string :=
  let text := PyStr.strip value in
  let text := PyRe.replace_char "/" "-" (PyRe.replace_char "\" "-" text) in
  let text := PyRe.sub_unsafe_runs false text in
  let text := PyRe.strip_by PyRe.is_edge text in
  match text with
  | EmptyString => "unknown"
  | _ => text
  end.







(** [f"{d.day:02d}/{d.month:02d}/{d.year}"], the form in which the
    renderers print the dates of a period. *)
Definition format_dmy (d : date) : string :=
  PyStr.zfill2 (day d) ++ "/" ++ PyStr.zfill2 (month d) ++ "/" ++ PyStr.of_Z (year d).


(** *** Quarter and period of the quarterly statements *)

Definition quarter_months (q : Z) : list Z :=
  if q =? 1 then [1; 2; 3]
  else if q =? 2 then [4; 5; 6]
  else if q =? 3 then [7; 8; 9]
  else if q =? 4 then [10; 11; 12]
  else [].

(** [quarter in (1, 2, 3, 4)]. *)
Definition is_quarter (q : Z) : bool := (1 <=? q) && (q <=? 4).

Record RcarPeriod : Type := {
  rp_quarter : Z;
  rp_months : list Z;
  period_from_s : string;
  period_to_s : string
}.

(** The block of [_generate_rcar_docx] that settles the quarter, the
    months and the two dates of the period; [year] and [quarter] are
    the values [safe_int] returned. *)
Definition rcar_period (year quarter : Z) (period_months_raw : list Z)
  : RcarPeriod :=
  let period_months :=
    filter (fun m => (1 <=? m) && (m <=? 12)) period_months_raw in
  let period_months :=
    match period_months with
    | [] => if is_quarter quarter then quarter_months quarter else []
    | _ => period_months
    end in
  let quarter :=
    match period_months with
    | m0 :: _ => if is_quarter quarter then quarter else (m0 - 1) / 3 + 1
    | [] => quarter
    end in
  let dates :=
    match period_months with
    | m0 :: rest =>
        if 0 <? year then
          let end_month := last rest m0 in
          match
            (do d_from <- make_date year m0 1;
             do last_day <- monthrange year end_month;
             do d_to <- make_date year end_month last_day;
             Ok (format_dmy d_from, format_dmy d_to))
          with
          | Ok p => p
          | Raise _ => ("", "")
          end
        else ("", "")
    | [] => ("", "")
    end in
  {| rp_quarter := quarter;
     rp_months := period_months;
     period_from_s := fst dates;
     period_to_s := snd dates |}.

End GenerateDocument.

(** ** generate_role.py *)

Module GenerateRole.

(** A JSON field read through [float(...)]: absent or [null]; a
    number [x] (a text that [float] reads as [x] behaves alike, a text
    reading as negative zero apart, which [fmt_amount] prints with its
    sign); or a value on which [float] raises [e], such as a text that
    is no number, [truthy] telling whether [value or 0] keeps it (the
    empty text is falsy and gives 0). *)
Inductive jnum : Type :=
| JAbsent
| JNum (x : float)
| JOther (truthy : bool) (e : exn).

Record RoleWorker : Type := {
  daysWorked : jnum;
  salaire_journalier : jnum;
  grossSalary : jnum;
  deduction : jnum;
  netSalary : jnum
}.

Record RoleSection : Type := {
  workers : list RoleWorker;
  totalDays_in : jnum;
  totalGross_in : jnum;
  totalDeduction_in : jnum;
  totalNet_in : jnum
}.

Record RolePayload : Type := {
  sections : list RoleSection;
  splitIndex : option Z;
  decimalComma : bool
}.

Record RoleTotals : Type := {
  totalDays : float;
  totalGross : float;
  totalDeduction : float;
  totalNet : float
}.

(** *** number_to_words_fr *)

Definition units : list string :=
  [""; "Un"; "Deux"; "Trois"; "Quatre"; "Cinq"; "Six"; "Sept"; "Huit"; "Neuf"].

Definition teens : list string :=
  ["Dix"; "Onze"; "Douze"; "Treize"; "Quatorze"; "Quinze"; "Seize";
   "Dix Sept"; "Dix Huit"; "Dix Neuf"].

Definition tens : list string :=
  [""; ""; "Vingt"; "Trente"; "Quarante"; "Cinquante"; "Soixante";
   "Soixante Dix"; "Quatre Vingt"; "Quatre Vingt Dix"].

Definition convert_below_hundred (n : Z) : result string :=
  if n <? 10 then index units n
  else if n <? 20 then index teens (n - 10)
  else
    let tens_digit := n / 10 in
    let unit_digit := n mod 10 in
    do tens_word <- index tens tens_digit;
    if unit_digit =? 0 then Ok tens_word
    else if (unit_digit =? 1) && (2 <=? tens_digit) && (tens_digit <=? 6) then
      do u <- index units unit_digit;
      Ok (PyStr.strip (tens_word ++ " Et " ++ u))
    else
      do unit_word <- index units unit_digit;
      Ok (PyStr.strip (tens_word ++ " " ++ unit_word)).

Definition convert_below_thousand (n : Z) : result string :=
  let hundreds := n / 100 in
  let remainder := n mod 100 in
  do words <-
    (if 0 <? hundreds then
       do u <- index units hundreds;
       let w := PyStr.strip (u ++ " Cent") in
       Ok (if 0 <? remainder then w ++ " " else w)
     else Ok "");
  do words <-
    (if 0 <? remainder then
       do r <- convert_below_hundred remainder; Ok (words ++ r)
     else Ok words);
  Ok (PyStr.strip words).

(** [convert] on arguments below one million, where it does not recurse. *)
Definition convert_below_million (n : Z) : result string :=
  if n <? 1000 then convert_below_thousand n
  else
    let thousands := n / 1000 in
    let remainder := n mod 1000 in
    do thousand_words <-
      (if thousands =? 1 then Ok "Mille"
       else do w <- convert_below_thousand thousands; Ok (w ++ " Mille"));
    do remainder_words <-
      (if 0 <? remainder then
         do w <- convert_below_thousand remainder; Ok (" " ++ w)
       else Ok "");
    Ok (PyStr.strip (thousand_words ++ remainder_words)).

(** [convert]: its one recursive call is on [n % 1_000_000]. *)
Definition convert (n : Z) : result string :=
  if n <? 1000000 then convert_below_million n
  else
    let millions := n / 1000000 in
    let remainder := n mod 1000000 in
    do million_words <-
      (if millions =? 1 then Ok "Un Million"
       else do w <- convert_below_thousand millions; Ok (w ++ " Millions"));
    do remainder_words <-
      (if 0 <? remainder then
         do w <- convert_below_million remainder; Ok (" " ++ w)
       else Ok "");
    Ok (PyStr.strip (million_words ++ remainder_words)).

(** [number_to_words_fr] once [whole_part] is known. *)
Definition convert_whole (whole_part : Z) : result string :=
  if whole_part =? 0 then Ok "Zero" else convert whole_part.

Definition number_to_words_fr (num : float) : result string :=
  do whole_part <- PyFloat.floor (PyFloat.or_zero num);
  convert_whole whole_part.

(** *** Section totals of the role document *)

Definition to_float (value : jnum) (default : float) : float :=
  match value with
  | JNum x => x
  | JAbsent | JOther _ _ => default
  end.

(** The local [round2]: [float(f"{to_float(value, 0):.2f}")]. *)
Definition round2 (value : jnum) : float :=
  PyFloat.round_to_cents (to_float value 0%float).

Definition sum_step (t : RoleTotals) (row : RoleWorker) : RoleTotals :=
  {| totalDays := totalDays t + to_float (daysWorked row) 0;
     totalGross := totalGross t + to_float (grossSalary row) 0;
     totalDeduction := totalDeduction t + to_float (deduction row) 0;
     totalNet := totalNet t + to_float (netSalary row) 0 |}%float.

Definition sum_workers (rows : list RoleWorker) : RoleTotals :=
  let t :=
    fold_left sum_step rows
      {| totalDays := 0%float; totalGross := 0%float;
         totalDeduction := 0%float; totalNet := 0%float |} in
  {| totalDays := totalDays t;
     totalGross := round2 (JNum (totalGross t));
     totalDeduction := round2 (JNum (totalDeduction t));
     totalNet := round2 (JNum (totalNet t)) |}.

(** [raw.get(k) if raw.get(k) is not None else fallback[k]]. *)
Definition supplied_or (raw : jnum) (fallback : float) : jnum :=
  match raw with
  | JAbsent => JNum fallback
  | _ => raw
  end.

Definition normalize_totals (raw : RoleSection) (fallback : RoleTotals)
  : RoleTotals :=
  {| totalDays := to_float (totalDays_in raw) (totalDays fallback);
     totalGross := round2 (supplied_or (totalGross_in raw) (totalGross fallback));
     totalDeduction :=
       round2 (supplied_or (totalDeduction_in raw) (totalDeduction fallback));
     totalNet := round2 (supplied_or (totalNet_in raw) (totalNet fallback)) |}.

(** [text.replace(".", ",")]. *)
Fixpoint dot_to_comma (s : string) : string :=
  match s with
  | String c r => String (if Ascii.eqb c "." then "," else c) (dot_to_comma r)
  | EmptyString => EmptyString
  end.

(** [float(amount or 0)], which raises on a truthy value that
    [float] rejects. *)
Definition amount_or_zero (amount : jnum) : result float :=
  match amount with
  | JAbsent => Ok 0%float
  | JNum x => Ok (PyFloat.or_zero x)
  | JOther truthy e => if truthy then Raise e else Ok 0%float
  end.

(** [fmt_amount(amount, decimal_comma=...)]. *)
Definition fmt_amount (amount : jnum) (decimal_comma : bool) : result string :=
  do value <- amount_or_zero amount;
  let text := format_2f value in
  Ok (if decimal_comma then dot_to_comma text else text).

(** The cells written by [add_summary_row]. *)
Record SummaryRow : Type := {
  label : string;
  cell_days : string;
  cell_gross : string;
  cell_deduction : string;
  cell_net : string
}.

Definition add_summary_row (lbl : string) (totals_row : RoleTotals)
    (decimal_comma : bool) : result SummaryRow :=
  do d <- PyFloat.round (totalDays totals_row);
  do g <- fmt_amount (JNum (totalGross totals_row)) decimal_comma;
  do de <- fmt_amount (JNum (totalDeduction totals_row)) decimal_comma;
  do n <- fmt_amount (JNum (totalNet totals_row)) decimal_comma;
  Ok {| label := lbl;
        cell_days := PyStr.of_Z d;
        cell_gross := g;
        cell_deduction := de;
        cell_net := n |}.

(** The number cells of a listed worker row. *)
Record WorkerCells : Type := {
  w_days : string;
  w_price : string;
  w_gross : string;
  w_deduction : string;
  w_net : string
}.

(** Each listed worker row prints [str(int(round(to_float(daysWorked,
    0))))], which raises on NaN and on the infinities, then
    [fmt_amount] of [salaire_journalier], [grossSalary], [deduction]
    and [netSalary], which raises on a text that is no number. *)
Fixpoint worker_rows (rows : list RoleWorker) (decimal_comma : bool)
  : result (list WorkerCells) :=
  match rows with
  | [] => Ok []
  | row :: rest =>
      do d <- PyFloat.round (to_float (daysWorked row) 0%float);
      do p <- fmt_amount (salaire_journalier row) decimal_comma;
      do g <- fmt_amount (grossSalary row) decimal_comma;
      do de <- fmt_amount (deduction row) decimal_comma;
      do n <- fmt_amount (netSalary row) decimal_comma;
      do cells <- worker_rows rest decimal_comma;
      Ok ({| w_days := PyStr.of_Z d; w_price := p; w_gross := g;
             w_deduction := de; w_net := n |} :: cells)
  end.

(** One table of [add_role_table]: the REPORT row that opens a
    continuation table, the listed worker rows, and the TOTAL row that
    closes the table. *)
Record RoleTable : Type := {
  tbl_report : option SummaryRow;
  tbl_rows : list WorkerCells;
  tbl_total : SummaryRow
}.

(** [add_role_table]; [report_totals] is given on a continuation
    table. *)
Definition add_role_table (rows : list RoleWorker) (totals : RoleTotals)
    (report_totals : option RoleTotals) (decimal_comma : bool)
  : result RoleTable :=
  do rep <-
    match report_totals with
    | Some r => do s <- add_summary_row "REPORT :" r decimal_comma; Ok (Some s)
    | None => Ok None
    end;
  do cells <- worker_rows rows decimal_comma;
  do tot <- add_summary_row "TOTAL :" totals decimal_comma;
  Ok {| tbl_report := rep; tbl_rows := cells; tbl_total := tot |}.

(** What [draw_role_docx] prints for one section: the page-1 table,
    closed by a TOTAL row of the sums of the page-1 rows; the
    continuation table, opened by a REPORT row of the same sums and
    closed by the TOTAL row of the section totals; and the amount in
    words. *)
Record SectionFigures : Type := {
  page1_table : RoleTable;
  continuation_table : RoleTable;
  section_totals : RoleTotals;
  totals_words : string
}.

Definition page1_worker_rows (payload : RolePayload) : Z :=
  Z.max 1 (match or_int (splitIndex payload) (Some 8) with
           | Some z => z
           | None => 8
           end).

Definition draw_section (payload : RolePayload) (sec : RoleSection)
  : result SectionFigures :=
  let prepared_rows := workers sec in
  let k := Z.to_nat (page1_worker_rows payload) in
  let page1_rows := firstn k prepared_rows in
  let page2_rows := skipn k prepared_rows in
  let page1_partial := sum_workers page1_rows in
  let totals := normalize_totals sec (sum_workers prepared_rows) in
  do t1 <- add_role_table page1_rows page1_partial None (decimalComma payload);
  do t2 <-
    add_role_table page2_rows totals (Some page1_partial) (decimalComma payload);
  let total_net := round2 (JNum (totalNet totals)) in
  do w <- number_to_words_fr total_net;
  let words := PyStr.upper w in
  do fl <- PyFloat.floor total_net;
  do cents <- PyFloat.round ((total_net - PyFloat.of_Z fl) * 100)%float;
  Ok {| page1_table := t1;
        continuation_table := t2;
        section_totals := totals;
        totals_words :=
          words ++ " DHS " ++ PyStr.rjust 2 "0" (PyStr.of_Z cents) ++ " CTS." |}.

Fixpoint draw_sections (payload : RolePayload) (secs : list RoleSection)
  : result (list SectionFigures) :=
  match secs with
  | [] => Ok []
  | sec :: rest =>
      do f <- draw_section payload sec;
      do fs <- draw_sections payload rest;
      Ok (f :: fs)
  end.

Definition draw_role_docx (payload : RolePayload)
  : result (list SectionFigures) :=
  match sections payload with
  | [] => Raise (ValueError "Missing required data: sections")
  | secs => draw_sections payload secs
  end.

(** *** File name of the role document *)

(** [safe_filename_part], the same text as in [generate_document.py]. *)
Definition safe_filename_part (value : string) : string :=
  GenerateDocument.safe_filename_part value.

(** [docx_name] of [main]: [safeStart or periodStart or ""] and
    [safeEnd or periodEnd or ""] are the two texts. *)
Definition docx_name (start_text end_text : string) : string :=
  "role_journees_" ++ safe_filename_part start_text ++ "_"
  ++ safe_filename_part end_text ++ ".docx".

(** *** Row numbers of the two tables of a section *)

(** [max(1, int(payload.get("continuationRows") or 6))], the layout
    giving 6 rows to a continuation table. *)
Definition continuation_worker_rows (continuationRows : option Z) : Z :=
  Z.max 1 (match or_int continuationRows (Some 6) with
           | Some z => z
           | None => 6
           end).

(** A row of the table body: a listed worker under its [rowNo], or a
    blank row that carries a number only. *)
Inductive TableRow : Type :=
| Listed (rowNo : Z) (w : RoleWorker)
| BlankRow (rowNo : Z).

Definition row_no (r : TableRow) : Z :=
  match r with
  | Listed n _ => n
  | BlankRow n => n
  end.

(** [prepared_rows]: the workers in order, [rowNo] being [i + 1]. *)
Fixpoint prepare_from (i : Z) (ws : list RoleWorker) : list TableRow :=
  match ws with
  | [] => []
  | w :: rest => Listed (i + 1) w :: prepare_from (i + 1) rest
  end.

Definition prepared_rows (ws : list RoleWorker) : list TableRow :=
  prepare_from 0 ws.

(** The loop [while len(rendered_rows) < slot_count: append a blank
    row numbered base_start + len(rendered_rows)]; [fuel] bounds the
    number of turns. *)
Fixpoint pad_blank (fuel : nat) (base_start slot_count : Z)
    (rendered : list TableRow) : list TableRow :=
  match fuel with
  | O => rendered
  | S fuel' =>
      if Z.of_nat (List.length rendered) <? slot_count then
        pad_blank fuel' base_start slot_count
          (rendered
           ++ [BlankRow (base_start + Z.of_nat (List.length rendered))])%list
      else rendered
  end.

(** [rendered_rows] of [add_role_table], blank rows being forced. *)
Definition rendered_rows (page1_rows continuation_rows : Z)
    (is_continuation : bool) (rows : list TableRow) : list TableRow :=
  let slot_count := if is_continuation then continuation_rows else page1_rows in
  let slot_count := Z.max slot_count (Z.of_nat (List.length rows)) in
  let base_start := if is_continuation then page1_rows + 1 else 1 in
  let base_start :=
    match rows with
    | r :: _ => if row_no r =? 0 then base_start else row_no r
    | [] => base_start
    end in
  pad_blank (Z.to_nat slot_count) base_start slot_count rows.

(** The bodies of the page-1 table and of the continuation table that
    [draw_role_docx] lays out for a section. *)
Definition section_tables (payload : RolePayload) (continuationRows : option Z)
    (sec : RoleSection) : list TableRow * list TableRow :=
  let prepared := prepared_rows (workers sec) in
  let k := page1_worker_rows payload in
  let c := continuation_worker_rows continuationRows in
  (rendered_rows k c false (firstn (Z.to_nat k) prepared),
   rendered_rows k c true (skipn (Z.to_nat k) prepared)).

End GenerateRole.

(** ** Specification vocabulary *)

(** Order on calendar triples, year first. *)
Definition date_leb (a b : date) : bool :=
  (year a <? year b)
  || ((year a =? year b)
      && ((month a <? month b) || ((month a =? month b) && (day a <=? day b)))).

(** The [k]-th anniversary of [b] as a calendar triple. *)
Definition anniversary (b : date) (k : Z) : date :=
  mkdate (year b + k) (month b) (day b).

(** A reading of the plain calendar form YYYY-MM-DD, which
    [datetime.fromisoformat] accepts in every Python version; it
    instantiates the library function in the closed examples. *)
Definition iso_calendar (s : string) : option date :=
  match PyStr.split "-" s with
  | [y; m; d] =>
      if Nat.eqb (String.length y) 4 && Nat.eqb (String.length m) 2
         && Nat.eqb (String.length d) 2 && negb (PyStr.contains "_" s)
      then
        match PyStr.digits 0 false y, PyStr.digits 0 false m, PyStr.digits 0 false d with
        | Some yy, Some mm, Some dd =>
            match make_date yy mm dd with
            | Ok b => Some b
            | Raise _ => None
            end
        | _, _, _ => None
        end
      else None
  | _ => None
  end.

(** The same request addressed to another renderer. *)
Definition with_type (t : string) (p : Payload) : Payload :=
  {| documentType := Some t;
     p_year := p_year p;
     p_month := p_month p;
     report_rows := report_rows p;
     quarterEndDate := quarterEndDate p;
     options := options p |}.

(** Two payloads that differ at most by their document type. *)
Definition same_request (p q : Payload) : Prop :=
  p_year p = p_year q /\ p_month p = p_month q
  /\ report_rows p = report_rows q /\ options p = options q.

(** A worker record in the pre-aggregated shape (days and amount). *)
Definition month_worker (name : string) (birth : option string)
    (d : option Z) (a : option float) : Worker :=
  {| nom_prenom := Some name; cin := None; type_ := None;
     date_naissance := birth;
     days_worked := d; total_days := None;
     amount := a; total_amount := None;
     presenceDays := []; presence_days := [];
     salaire_journalier := None; dailySalary := None; daily_salary := None;
     monthlyStats := [] |}.

(** A worker record in the presence-list shape, carrying the month
    totals as well when [d] and [a] are given. *)
Definition presence_worker (name : string) (birth : option string)
    (d : option Z) (a : option float) (present : list Z) (rate : float)
  : Worker :=
  {| nom_prenom := Some name; cin := None; type_ := None;
     date_naissance := birth;
     days_worked := d; total_days := None;
     amount := a; total_amount := None;
     presenceDays := present; presence_days := [];
     salaire_journalier := Some rate; dailySalary := None; daily_salary := None;
     monthlyStats := [] |}.

(** A worker record as the quarterly statements read it. *)
Definition quarter_worker (name : string) (birth : option string)
    (d : option Z) (a : option float) : Worker :=
  {| nom_prenom := Some name; cin := None; type_ := None;
     date_naissance := birth;
     days_worked := None; total_days := d;
     amount := None; total_amount := a;
     presenceDays := []; presence_days := [];
     salaire_journalier := None; dailySalary := None; daily_salary := None;
     monthlyStats := [] |}.

Definition plain_options : Options :=
  {| rcarAgeLimit := None; decisionNumber := Some "12";
     decisionDate := Some "01/03/2024";
     reportPreviousBordereau := None; admittedAmount := None |}.

(** A request for March 2024 over [rows]. *)
Definition march_2024 (t : string) (rows : list Worker) (o : Options) : Payload :=
  {| documentType := Some t; p_year := Some 2024; p_month := Some 3;
     report_rows := rows; quarterEndDate := None; options := o |}.

(** The five month renderers that share [month_figures]. *)
Definition month_renderers (iso : string -> option date)
  : list (Payload -> result GenerateDocument.MonthFigures) :=
  [GenerateDocument.generate_recu_docx iso;
   GenerateDocument.generate_demande_autorisation_docx iso;
   GenerateDocument.generate_certificat_paiement_docx iso;
   GenerateDocument.generate_ordre_paiement_docx iso;
   GenerateDocument.generate_mandat_paiement_docx iso].

(** A worker of 54 with both shapes filled in: 20 days for 4000.00 in
    the month totals, and two presence days at 100.00 a day. *)
Definition worker_two_shapes : Worker :=
  presence_worker "A B" (Some "01/01/1970") (Some 20) (Some 4000%float)
    [1; 2] 100%float.

(** A worker of 74 at the end of March 2024. *)
Definition worker_aged_74 : Worker :=
  month_worker "C D" (Some "01/01/1950") (Some 10) (Some 1000%float).

Definition quarter_worker_aged_74 : Worker :=
  quarter_worker "C D" (Some "01/01/1950") (Some 10) (Some 1000%float).

(** The same worker with two presence days at 100.00. *)
Definition presence_worker_aged_74 : Worker :=
  presence_worker "C D" (Some "01/01/1950") None None [4; 5] 100%float.

(** Options that set the age limit of 60 explicitly. *)
Definition options_age_limit_60 : Options :=
  {| rcarAgeLimit := Some 60; decisionNumber := Some "12";
     decisionDate := Some "01/03/2024";
     reportPreviousBordereau := None; admittedAmount := None |}.

(** A record with an amount and no day worked. *)
Definition worker_without_days : Worker :=
  quarter_worker "Z" None (Some 0) (Some 100%float).

Definition end_of_march_2024 : date := mkdate 2024 3 31.

(** The workers the month aggregation keeps. *)
Definition kept (w : Worker) : bool := negb (GenerateDocument.skipped w).

(** One presence day at 100.00, and 5.996 carried over from the
    previous bordereau. *)
Definition worker_one_day : Worker :=
  presence_worker "E F" None None None [5] 100%float.

Definition options_with_report : Options :=
  {| rcarAgeLimit := None; decisionNumber := None; decisionDate := None;
     reportPreviousBordereau := Some 5.996%float; admittedAmount := None |}.

(** Two records whose amounts carry a third decimal. *)
Definition workers_third_decimal : list Worker :=
  [month_worker "A" None (Some 1) (Some 100.004%float);
   month_worker "B" None (Some 1) (Some 200.004%float)].

(** Three records and a reordering of them. *)
Definition worker_b1 : Worker := month_worker "A" None (Some 9) (Some 118.125%float).
Definition worker_b2 : Worker := month_worker "B" None (Some 8) (Some 99.1%float).
Definition worker_b3 : Worker := month_worker "C" None (Some 9) (Some 119.7%float).

(** Three records of which one is beyond 2^53 centimes. *)
Definition worker_c1 : Worker := month_worker "A" None (Some 1) (Some 1e16%float).
Definition worker_c2 : Worker := month_worker "B" None (Some 1) (Some 1%float).
Definition worker_c3 : Worker := month_worker "C" None (Some 1) (Some 1%float).

(** The loop of [calculate_range_net_total] leaves this worker out. *)
Definition range_excluded (s e : Z) (w : Worker) : bool :=
  (GenerateDocument.worker_daily_salary w <=? 0)%float
  || (GenerateDocument.days_in_range s e w <=? 0).

Definition zero_month_figures : GenerateDocument.MonthFigures :=
  {| GenerateDocument.total_net := 0%float;
     GenerateDocument.amount_words := "Zero dhs 00 Cts" |}.

Definition zero_rcar_figures : GenerateDocument.RcarFigures :=
  {| GenerateDocument.table_rows := [];
     GenerateDocument.total_days_r := 0%float;
     GenerateDocument.total_brut := 0%float;
     GenerateDocument.total_prelev := 0%float;
     GenerateDocument.total_versement := 0%float |}.

(** The check of the decision reference in the certificate renderer. *)
Definition decision_reference_present (o : Options) : bool :=
  negb ((PyStr.strip (or_empty (decisionNumber o)) =? "")%string
        || (PyStr.strip (or_empty (decisionDate o)) =? "")%string).

(** A record with neither a day nor an amount nor a presence list. *)
Definition idle_worker : Worker := month_worker "N" None (Some 0) None.

(** A listed worker of 20 days at 200.00: 4000.00 gross, 240.00
    deduction, 3760.00 net. *)
Definition role_worker_20_days : GenerateRole.RoleWorker :=
  {| GenerateRole.daysWorked := GenerateRole.JNum 20%float;
     GenerateRole.salaire_journalier := GenerateRole.JNum 200%float;
     GenerateRole.grossSalary := GenerateRole.JNum 4000%float;
     GenerateRole.deduction := GenerateRole.JNum 240%float;
     GenerateRole.netSalary := GenerateRole.JNum 3760%float |}.

(** A role section with that one worker whose payload supplies other
    totals: 22 days, 5000.556 gross, 4760.50 net, no deduction. *)
Definition section_with_supplied_totals : GenerateRole.RoleSection :=
  {| GenerateRole.workers := [role_worker_20_days];
     GenerateRole.totalDays_in := GenerateRole.JNum 22%float;
     GenerateRole.totalGross_in := GenerateRole.JNum 5000.556%float;
     GenerateRole.totalDeduction_in := GenerateRole.JAbsent;
     GenerateRole.totalNet_in := GenerateRole.JNum 4760.5%float |}.

Definition role_payload_example : GenerateRole.RolePayload :=
  {| GenerateRole.sections := [section_with_supplied_totals];
     GenerateRole.splitIndex := None;
     GenerateRole.decimalComma := false |}.

(** What [float] raises on the text [vingt]. *)
Definition not_a_number : exn :=
  ValueError "could not convert string to float: 'vingt'".

(** The same worker under totals given as texts that are no numbers:
    the days as [vingt], the gross likewise, the rest omitted. *)
Definition section_with_text_totals : GenerateRole.RoleSection :=
  {| GenerateRole.workers := [role_worker_20_days];
     GenerateRole.totalDays_in := GenerateRole.JOther true not_a_number;
     GenerateRole.totalGross_in := GenerateRole.JOther true not_a_number;
     GenerateRole.totalDeduction_in := GenerateRole.JAbsent;
     GenerateRole.totalNet_in := GenerateRole.JAbsent |}.

Definition role_payload_two_sections : GenerateRole.RolePayload :=
  {| GenerateRole.sections :=
       [section_with_supplied_totals; section_with_text_totals];
     GenerateRole.splitIndex := None;
     GenerateRole.decimalComma := false |}.

(** The figures printed for [section_with_supplied_totals]. *)
Definition figures_with_supplied_totals : GenerateRole.SectionFigures :=
  let cells :=
    {| GenerateRole.w_days := "20"; GenerateRole.w_price := "200.00";
       GenerateRole.w_gross := "4000.00"; GenerateRole.w_deduction := "240.00";
       GenerateRole.w_net := "3760.00" |} in
  let page1 lbl :=
    {| GenerateRole.label := lbl; GenerateRole.cell_days := "20";
       GenerateRole.cell_gross := "4000.00";
       GenerateRole.cell_deduction := "240.00";
       GenerateRole.cell_net := "3760.00" |} in
  {| GenerateRole.page1_table :=
       {| GenerateRole.tbl_report := None;
          GenerateRole.tbl_rows := [cells];
          GenerateRole.tbl_total := page1 "TOTAL :" |};
     GenerateRole.continuation_table :=
       {| GenerateRole.tbl_report := Some (page1 "REPORT :");
          GenerateRole.tbl_rows := [];
          GenerateRole.tbl_total :=
            {| GenerateRole.label := "TOTAL :"; GenerateRole.cell_days := "22";
               GenerateRole.cell_gross := "5000.56";
               GenerateRole.cell_deduction := "240.00";
               GenerateRole.cell_net := "4760.50" |} |};
     GenerateRole.section_totals :=
       {| GenerateRole.totalDays := 22%float;
          GenerateRole.totalGross := 5000.56%float;
          GenerateRole.totalDeduction := 240%float;
          GenerateRole.totalNet := 4760.5%float |};
     GenerateRole.totals_words :=
       "QUATRE MILLE SEPT CENT SOIXANTE DHS 50 CTS." |}.

(** The figures printed for [section_with_text_totals]. *)
Definition figures_with_text_totals : GenerateRole.SectionFigures :=
  let cells :=
    {| GenerateRole.w_days := "20"; GenerateRole.w_price := "200.00";
       GenerateRole.w_gross := "4000.00"; GenerateRole.w_deduction := "240.00";
       GenerateRole.w_net := "3760.00" |} in
  let page1 lbl :=
    {| GenerateRole.label := lbl; GenerateRole.cell_days := "20";
       GenerateRole.cell_gross := "4000.00";
       GenerateRole.cell_deduction := "240.00";
       GenerateRole.cell_net := "3760.00" |} in
  {| GenerateRole.page1_table :=
       {| GenerateRole.tbl_report := None;
          GenerateRole.tbl_rows := [cells];
          GenerateRole.tbl_total := page1 "TOTAL :" |};
     GenerateRole.continuation_table :=
       {| GenerateRole.tbl_report := Some (page1 "REPORT :");
          GenerateRole.tbl_rows := [];
          GenerateRole.tbl_total :=
            {| GenerateRole.label := "TOTAL :"; GenerateRole.cell_days := "20";
               GenerateRole.cell_gross := "0.00";
               GenerateRole.cell_deduction := "240.00";
               GenerateRole.cell_net := "3760.00" |} |};
     GenerateRole.section_totals :=
       {| GenerateRole.totalDays := 20%float;
          GenerateRole.totalGross := 0%float;
          GenerateRole.totalDeduction := 240%float;
          GenerateRole.totalNet := 3760%float |};
     GenerateRole.totals_words :=
       "TROIS MILLE SEPT CENT SOIXANTE DHS 00 CTS." |}.

(** The same cells under another label. *)
Definition relabel (lbl : string) (r : GenerateRole.SummaryRow)
  : GenerateRole.SummaryRow :=
  {| GenerateRole.label := lbl;
     GenerateRole.cell_days := GenerateRole.cell_days r;
     GenerateRole.cell_gross := GenerateRole.cell_gross r;
     GenerateRole.cell_deduction := GenerateRole.cell_deduction r;
     GenerateRole.cell_net := GenerateRole.cell_net r |}.

(** A role worker whose gross is the text [vingt]. *)
Definition role_worker_text_gross : GenerateRole.RoleWorker :=
  {| GenerateRole.daysWorked := GenerateRole.JNum 20%float;
     GenerateRole.salaire_journalier := GenerateRole.JNum 200%float;
     GenerateRole.grossSalary := GenerateRole.JOther true not_a_number;
     GenerateRole.deduction := GenerateRole.JNum 240%float;
     GenerateRole.netSalary := GenerateRole.JNum 3760%float |}.

Definition role_payload_text_gross : GenerateRole.RolePayload :=
  {| GenerateRole.sections :=
       [{| GenerateRole.workers := [role_worker_text_gross];
           GenerateRole.totalDays_in := GenerateRole.JAbsent;
           GenerateRole.totalGross_in := GenerateRole.JAbsent;
           GenerateRole.totalDeduction_in := GenerateRole.JAbsent;
           GenerateRole.totalNet_in := GenerateRole.JAbsent |}];
     GenerateRole.splitIndex := None;
     GenerateRole.decimalComma := false |}.

(** *** Where the two number-to-words implementations agree *)

(** Two-digit remainders on which the implementations differ: the
    "Et" positions of the role module, and 71-76, 91-96. *)
Definition irregular_rest (r : Z) : bool :=
  (r =? 21) || (r =? 31) || (r =? 41) || (r =? 51) || (r =? 61)
  || ((71 <=? r) && (r <=? 76)) || ((91 <=? r) && (r <=? 96)).

(** A three-digit group on which they agree: the hundreds digit is not
    1 and the remainder is regular. *)
Definition regular_group (g : Z) : bool :=
  negb (g / 100 =? 1) && negb (irregular_rest (g mod 100)).

Definition regular (n : Z) : bool :=
  regular_group (n / 1000000)
  && regular_group ((n mod 1000000) / 1000)
  && regular_group (n mod 1000).

(** The text starts, and ends, with a character [strip] keeps. *)
Definition first_ok (s : string) : bool :=
  match s with
  | String c _ => negb (PyStr.is_space c)
  | EmptyString => false
  end.

Fixpoint last_ok (s : string) : bool :=
  match s with
  | EmptyString => false
  | String c EmptyString => negb (PyStr.is_space c)
  | String _ r => last_ok r
  end.

(** Both implementations give the same clean text for the group. *)
Definition group_agrees (g : Z) : bool :=
  match GenerateDocument.three_digits g, GenerateRole.convert_below_thousand g with
  | Ok a, Ok b => (a =? b)%string && first_ok a && last_ok a
  | _, _ => false
  end.

(** Both results are texts, and the same text. *)
Definition same_words (a b : result string) : bool :=
  match a, b with
  | Ok x, Ok y => (x =? y)%string
  | _, _ => false
  end.

(** The thousands and units parts that [to_words] appends. *)
Definition thousands_part (t : Z) : result (list string) :=
  if 0 <? t then
    if t =? 1 then Ok ["Mille"]
    else do w <- GenerateDocument.three_digits t; Ok [w ++ " Mille"]
  else Ok [].

Definition rest_part (r : Z) : result (list string) :=
  if 0 <? r then do w <- GenerateDocument.three_digits r; Ok [w] else Ok [].

(** *** File names *)

(** The first, and the last, character of a text satisfies [p]. *)
Definition first_is (p : ascii -> bool) (s : string) : bool :=
  match s with
  | String c _ => p c
  | EmptyString => false
  end.

Fixpoint last_is (p : ascii -> bool) (s : string) : bool :=
  match s with
  | EmptyString => false
  | String c EmptyString => p c
  | String _ r => last_is p r
  end.

(** A character that [strip("._-")], respectively [strip()], keeps. *)
Definition not_edge (c : ascii) : bool := negb (PyRe.is_edge c).
Definition not_space (c : ascii) : bool := negb (PyStr.is_space c).

(** A usable part of a file name: only characters of the class
    [[0-9A-Za-z._-]], a letter or a digit at both ends (so not empty). *)
Definition clean_part (s : string) : bool :=
  PyRe.all_chars PyRe.is_safe s && first_is PyRe.is_alnum s && last_is PyRe.is_alnum s.

(** A file name of a document: only characters of the class, a
    letter or a digit first, and the extension [.docx]. *)
Definition safe_name (s : string) : bool :=
  PyRe.all_chars PyRe.is_safe s && first_is PyRe.is_alnum s && PyRe.endswith ".docx" s.


(** [1 <= m <= 12]. *)
Definition month_in_year (m : Z) : bool := (1 <=? m) && (m <=? 12).


(** *** Domain of the number-to-words functions *)

(** What indexing a list beyond its end raises. *)
Definition out_of_range : exn := IndexError "list index out of range".

(** A text: returned, and with no blank at either end. *)
Definition clean_words (r : result string) : bool :=
  match r with
  | Ok s => first_ok s && last_ok s
  | Raise _ => false
  end.

(** *** Dates as the documents print them *)

(** A decimal text that [parse_date] reads back as [k]: no slash, no
    blank at either end, and [int] gives [k]. *)
Definition reads_as (k : Z) (s : string) : bool :=
  negb (PyStr.contains "/" s) && first_ok s && last_ok s
  && match PyStr.to_int s with
     | Some z => z =? k
     | None => false
     end.

(** *** Errors of the dispatcher *)

(** The error each renderer raises when it is handed another
    renderer's document type. *)
Definition is_unsupported (e : exn) : bool :=
  match e with
  | ValueError msg => String.prefix "Unsupported document type" msg
  | _ => false
  end.

(** The call returns, or fails for another reason than the document
    type. *)
Definition type_accepted {A : Type} (r : result A) : bool :=
  match r with
  | Ok _ => true
  | Raise e => negb (is_unsupported e)
  end.

(** *** Table rows of the role document *)

(** [a, a + 1, ...], [n] numbers. *)
Fixpoint count_from (a : Z) (n : nat) : list Z :=
  match n with
  | O => []
  | S m => a :: count_from (a + 1) m
  end.

(** The workers listed in a table body, in order. *)
Fixpoint listed_workers (rows : list GenerateRole.TableRow) : list GenerateRole.RoleWorker :=
  match rows with
  | [] => []
  | GenerateRole.Listed _ w :: rest => w :: listed_workers rest
  | GenerateRole.BlankRow _ :: rest => listed_workers rest
  end.

(** [not l]. *)
Definition is_empty {A : Type} (l : list A) : bool :=
  match l with
  | [] => true
  | _ => false
  end.

(** * Properties *)

Import GenerateDocument.

Lemma age_brackets_reference (b ref : date) :
  let age :=
    year ref - year b
    - (if month_day_ltb (month ref) (day ref) (month b) (day b) then 1 else 0) in
  date_leb (anniversary b age) ref = true
  /\ date_leb (anniversary b (age + 1)) ref = false.
Proof.
  unfold date_leb, anniversary, month_day_ltb; simpl.
  destruct (month ref <? month b) eqn:Hm; simpl.
  - apply Z.ltb_lt in Hm. split.
    + apply orb_true_iff; left. apply Z.ltb_lt. lia.
    + replace (year b + (year ref - year b - 1 + 1)) with (year ref) by lia.
      rewrite Z.ltb_irrefl, Z.eqb_refl. simpl.
      apply orb_false_iff; split.
      * apply Z.ltb_ge. lia.
      * apply andb_false_iff; left. apply Z.eqb_neq. lia.
  - apply Z.ltb_ge in Hm.
    destruct (month ref =? month b) eqn:He; simpl.
    + apply Z.eqb_eq in He.
      destruct (day ref <? day b) eqn:Hd.
      * apply Z.ltb_lt in Hd. split.
        -- apply orb_true_iff; left. apply Z.ltb_lt. lia.
        -- replace (year b + (year ref - year b - 1 + 1)) with (year ref) by lia.
           rewrite Z.ltb_irrefl, Z.eqb_refl. simpl.
           apply orb_false_iff; split.
           ++ apply Z.ltb_ge. lia.
           ++ apply andb_false_iff; right. apply Z.leb_gt. lia.
      * apply Z.ltb_ge in Hd. split.
        -- replace (year b + (year ref - year b - 0)) with (year ref) by lia.
           rewrite Z.ltb_irrefl, Z.eqb_refl. simpl.
           apply orb_true_iff; right.
           apply andb_true_iff; split.
           ++ apply Z.eqb_eq. lia.
           ++ apply Z.leb_le. lia.
        -- apply orb_false_iff; split.
           ++ apply Z.ltb_ge. lia.
           ++ apply andb_false_iff; left. apply Z.eqb_neq. lia.
    + apply Z.eqb_neq in He. split.
      * replace (year b + (year ref - year b - 0)) with (year ref) by lia.
        rewrite Z.ltb_irrefl, Z.eqb_refl. simpl.
        apply orb_true_iff; left. apply Z.ltb_lt. lia.
      * apply orb_false_iff; split.
        -- apply Z.ltb_ge. lia.
        -- apply andb_false_iff; left. apply Z.eqb_neq. lia.
Qed.

(** C4. [calculate_age_at] gives no age when [parse_date] gives no birth
    date (absent, empty, or unparseable text) and otherwise the
    reference year minus the birth year, less one exactly when the
    reference (month, day) precedes the birth (month, day); that age is
    calendar-accurate: the birthday of rank [age] is on or before the
    reference date and the next one is after it.
    [calculate_igr_deduction] is [round2 (gross * RCAR_RATE)] when the
    age is unknown or at most the threshold, and zero otherwise. *)
Theorem calculate_age_at_and_deduction_spec :
  forall (iso : string -> option date) (birth : option string) (ref : date)
         (gross_salary : float) (age_limit : Z),
    match parse_date iso birth with
    | None => calculate_age_at iso birth ref = None
    | Some b =>
        exists age,
          calculate_age_at iso birth ref = Some age
          /\ age = year ref - year b
                   - (if month_day_ltb (month ref) (day ref) (month b) (day b)
                      then 1 else 0)
          /\ date_leb (anniversary b age) ref = true
          /\ date_leb (anniversary b (age + 1)) ref = false
    end
    /\ parse_date iso None = None
    /\ parse_date iso (Some "") = None
    /\ parse_date iso (Some "31/02/2000") = None
    /\ parse_date iso (Some " 15/08/1970 ") = Some (mkdate 1970 8 15)
    /\ calculate_igr_deduction iso birth ref gross_salary age_limit =
         match calculate_age_at iso birth ref with
         | None => round2 (gross_salary * RCAR_RATE)
         | Some age =>
             if age <=? age_limit then round2 (gross_salary * RCAR_RATE)
             else 0%float
         end.
Proof.
  intros iso birth ref gross_salary age_limit.
  split; [|repeat split].
  unfold calculate_age_at.
  destruct (parse_date iso birth) as [b|]; [|reflexivity].
  pose proof (age_brackets_reference b ref) as [Hle Hgt].
  destruct (month_day_ltb (month ref) (day ref) (month b) (day b)).
  - exists (year ref - year b - 1). repeat split; auto.
  - exists (year ref - year b).
    replace (year ref - year b - 0) with (year ref - year b) in * by lia.
    repeat split; auto; lia.
Qed.

(** ** The aggregation loop as a filter and a map *)

Lemma financial_step_skipped iso ref age_limit st w :
  skipped w = true -> financial_step iso ref age_limit st w = st.
Proof.
  intros H. unfold financial_step. destruct st as [rows_out totals].
  rewrite H. reflexivity.
Qed.

Lemma fold_financial_rows iso ref age_limit rows :
  forall st,
    fst (fold_left (financial_step iso ref age_limit) rows st)
    = (fst st ++ map (financial_row iso ref age_limit) (filter kept rows))%list.
Proof.
  induction rows as [|w rows IH]; intros [rows_out totals]; simpl.
  - now rewrite app_nil_r.
  - unfold kept at 1. destruct (skipped w) eqn:Hs; simpl.
    + rewrite IH. reflexivity.
    + rewrite IH. simpl. now rewrite <- app_assoc.
Qed.

Lemma fold_financial_filter iso ref age_limit rows :
  forall st,
    fold_left (financial_step iso ref age_limit) rows st
    = fold_left (financial_step iso ref age_limit) (filter kept rows) st.
Proof.
  induction rows as [|w rows IH]; intros st; simpl; [reflexivity|].
  unfold kept at 1. destruct (skipped w) eqn:Hs; simpl.
  - rewrite financial_step_skipped by assumption. apply IH.
  - apply IH.
Qed.

Lemma build_rows_spec iso rows ref age_limit :
  fst (build_workers_financial_rows iso rows ref age_limit)
  = map (financial_row iso ref age_limit) (filter kept rows).
Proof.
  unfold build_workers_financial_rows.
  pose proof (fold_financial_rows iso ref age_limit rows ([], zero_totals)) as H.
  destruct (fold_left _ rows _) as [rows_out totals]. simpl in *. exact H.
Qed.

Lemma build_filter iso rows ref age_limit :
  build_workers_financial_rows iso rows ref age_limit
  = build_workers_financial_rows iso (filter kept rows) ref age_limit.
Proof.
  unfold build_workers_financial_rows.
  now rewrite fold_financial_filter.
Qed.

Lemma kept_positive w :
  kept w = true -> 0 < worker_days w /\ (worker_gross w <=? 0)%float = false.
Proof.
  unfold kept, skipped. intros H.
  apply negb_true_iff in H. apply orb_false_iff in H as [Hd Hg].
  apply Z.leb_gt in Hd. split; assumption.
Qed.

Lemma fold_rcar_rows rate rows :
  forall st,
    table_rows (fold_left (rcar_step rate) rows st)
    = (table_rows st
       ++ map (rcar_row rate) (filter (fun w => negb (rcar_skipped w)) rows))%list.
Proof.
  induction rows as [|w rows IH]; intros st; simpl.
  - now rewrite app_nil_r.
  - unfold rcar_step at 2. destruct (rcar_skipped w) eqn:Hs; simpl.
    + apply IH.
    + rewrite IH. simpl. now rewrite <- app_assoc.
Qed.

Lemma range_loop_filter iso ref s e age_limit rows :
  forall acc,
    range_loop iso ref s e age_limit rows acc
    = range_loop iso ref s e age_limit
        (filter (fun w => negb ((worker_daily_salary w <=? 0)%float
                                || (days_in_range s e w <=? 0))) rows) acc.
Proof.
  induction rows as [|w rows IH]; intros acc; simpl; [reflexivity|].
  unfold range_net_cents at 1.
  destruct (worker_daily_salary w <=? 0)%float eqn:Hd; simpl.
  - apply IH.
  - destruct (days_in_range s e w <=? 0) eqn:Hn; simpl.
    + apply IH.
    + unfold range_net_cents. rewrite Hd, Hn.
      destruct (PyFloat.round _); simpl; [apply IH | reflexivity].
Qed.

(** ** C5: which records the aggregations leave out *)

(** C5 (as amended). In [build_workers_financial_rows] a record whose
    days are non-positive or whose gross is non-positive is left out of
    the rows and of the totals: the rows are those of the kept workers,
    in order, the totals are those of the kept workers alone, and every
    emitted row has strictly positive days and comes from a record
    whose gross passed the test.  [calculate_range_net_total] likewise
    counts only workers with a positive daily rate and a presence day
    in range.  The RCAR statements leave out a record only when days and
    gross are both non-positive. *)
Theorem skipped_workers_are_excluded :
  forall (iso : string -> option date) (rows : list Worker) (ref : date)
         (age_limit : Z),
    fst (build_workers_financial_rows iso rows ref age_limit)
    = map (financial_row iso ref age_limit) (filter kept rows)
    /\ build_workers_financial_rows iso rows ref age_limit
       = build_workers_financial_rows iso (filter kept rows) ref age_limit
    /\ (forall r,
          In r (fst (build_workers_financial_rows iso rows ref age_limit)) ->
          exists w,
            In w rows /\ r = financial_row iso ref age_limit w
            /\ 0 < row_days r /\ 0 < worker_days w
            /\ (worker_gross w <=? 0)%float = false)
    /\ (forall s e acc,
          range_loop iso ref s e age_limit rows acc
          = range_loop iso ref s e age_limit
              (filter (fun w => negb ((worker_daily_salary w <=? 0)%float
                                      || (days_in_range s e w <=? 0))) rows) acc)
    /\ (forall rate,
          table_rows (rcar_figures rate rows)
          = map (rcar_row rate) (filter (fun w => negb (rcar_skipped w)) rows)).
Proof.
  intros iso rows ref age_limit.
  split; [apply build_rows_spec|].
  split; [apply build_filter|].
  split.
  - intros r Hr. rewrite build_rows_spec in Hr.
    apply in_map_iff in Hr as [w [Hw Hin]].
    apply filter_In in Hin as [Hin Hk].
    destruct (kept_positive w Hk) as [Hd Hg].
    exists w. subst r. simpl. repeat split; assumption.
  - split.
    + intros s e acc. apply range_loop_filter.
    + intros rate. unfold rcar_figures. simpl.
      rewrite fold_rcar_rows. reflexivity.
Qed.

(** Of a worker with 10 days and one with none, only the first has a
    row. *)
Lemma skipped_workers_are_excluded_witness :
  let rows := [worker_aged_74; worker_without_days] in
  let r := financial_row iso_calendar end_of_march_2024 60 worker_aged_74 in
  fst (build_workers_financial_rows iso_calendar rows end_of_march_2024 60) = [r]
  /\ exists w,
       In w rows /\ r = financial_row iso_calendar end_of_march_2024 60 w
       /\ 0 < row_days r /\ 0 < worker_days w
       /\ (worker_gross w <=? 0)%float = false.
Proof.
  intros rows r.
  assert (H : fst (build_workers_financial_rows iso_calendar rows
                     end_of_march_2024 60) = [r]) by (vm_compute; reflexivity).
  split; [exact H|].
  apply (proj1 (proj2 (proj2
           (skipped_workers_are_excluded iso_calendar rows end_of_march_2024 60)))).
  rewrite H. now left.
Defined.

(** C5, the claim as stated fails on the RCAR statement: a record with
    no day worked and a gross of 100.00 is left out by the month
    aggregation and listed by the statement, with 0 days. *)
Lemma rcar_lists_worker_without_days :
  skipped worker_without_days = true
  /\ fst (build_workers_financial_rows iso_calendar [worker_without_days]
            end_of_march_2024 60) = []
  /\ map (fun r => (rcar_days r, rcar_brut r, rcar_prelev r))
       (table_rows (rcar_figures 0x1.eb851eb851eb8p-5%float [worker_without_days]))
     = [(0%float, 100%float, 6%float)].
Proof. repeat split. Qed.

(** ** C1: the month renderers report the same figures *)

Lemma month_figures_label_free iso l1 l2 p1 p2 f1 f2 :
  same_request p1 p2 ->
  month_figures iso l1 p1 = Ok f1 ->
  month_figures iso l2 p2 = Ok f2 ->
  f1 = f2.
Proof.
  intros (Hy & Hm & Hr & Ho) H1 H2.
  unfold month_figures, age_limit_of in *.
  rewrite <- Hy, <- Hm, <- Hr, <- Ho in H2.
  destruct ((int_or_zero (p_year p1) <=? 0) || (int_or_zero (p_month p1) <=? 0)
            || (12 <? int_or_zero (p_month p1))); [discriminate|].
  rewrite H1 in H2. now inversion H2.
Qed.

Lemma month_renderer_figures iso r p f :
  In r (month_renderers iso) -> r p = Ok f ->
  exists l, month_figures iso l p = Ok f.
Proof.
  unfold month_renderers. simpl.
  intros [H|[H|[H|[H|[H|[]]]]]] Hf; subst r.
  - unfold generate_recu_docx in Hf.
    destruct (negb _); [discriminate|]. eauto.
  - unfold generate_demande_autorisation_docx in Hf.
    destruct (negb _); [discriminate|]. eauto.
  - unfold generate_certificat_paiement_docx in Hf.
    destruct (negb _); [discriminate|].
    destruct (month_figures iso "certificat-paiement" p) as [g|] eqn:Hg;
      simpl in Hf; [|discriminate].
    destruct (_ || _) in Hf; [discriminate|].
    inversion Hf; subst. eauto.
  - unfold generate_ordre_paiement_docx in Hf.
    destruct (negb _); [discriminate|]. eauto.
  - unfold generate_mandat_paiement_docx in Hf.
    destruct (negb _); [discriminate|]. eauto.
Qed.

Lemma month_figures_total_net iso l p f :
  month_figures iso l p = Ok f ->
  exists se,
    month_start_end (int_or_zero (p_year p)) (int_or_zero (p_month p)) = Ok se
    /\ total_net f
       = round2 (PyFloat.or_zero
           (net (snd (build_workers_financial_rows iso (report_rows p) (snd se)
                        (age_limit_of p))))).
Proof.
  unfold month_figures. intros H.
  destruct (_ || _) in H; [discriminate|].
  destruct (month_start_end _ _) as [se|] eqn:Hse; simpl in H; [|discriminate].
  exists se. split; [reflexivity|].
  destruct (build_workers_financial_rows iso (report_rows p) (snd se) (age_limit_of p))
    as [rows_out totals].
  destruct (number_to_words_fr _); simpl in H; [|discriminate].
  destruct (PyFloat.floor _); simpl in H; [|discriminate].
  destruct (PyFloat.round _); simpl in H; [|discriminate].
  inversion H. reflexivity.
Qed.

(** C1 (as amended). For one payload and one month, the recu-combined,
    demande-autorisation, certificat-paiement, ordre-paiement and
    mandat-paiement renderers, whenever they succeed, report the same
    figures: the same net total and the same amount in words, the net
    total being [round2] of the net of [build_workers_financial_rows]
    at the last day of the month with the payload's age limit.  The
    bordereau is not among them: it derives its total from presence
    days and the daily rate. *)
Theorem month_renderers_report_same_totals :
  forall (iso : string -> option date)
         (r1 r2 : Payload -> result MonthFigures) (p1 p2 : Payload)
         (f1 f2 : MonthFigures),
    In r1 (month_renderers iso) ->
    In r2 (month_renderers iso) ->
    same_request p1 p2 ->
    r1 p1 = Ok f1 ->
    r2 p2 = Ok f2 ->
    f1 = f2
    /\ exists se,
         month_start_end (int_or_zero (p_year p1)) (int_or_zero (p_month p1)) = Ok se
         /\ total_net f1
            = round2 (PyFloat.or_zero
                (net (snd (build_workers_financial_rows iso (report_rows p1)
                             (snd se) (age_limit_of p1))))).
Proof.
  intros iso r1 r2 p1 p2 f1 f2 Hr1 Hr2 Hsame H1 H2.
  destruct (month_renderer_figures iso r1 p1 f1 Hr1 H1) as [l1 Hl1].
  destruct (month_renderer_figures iso r2 p2 f2 Hr2 H2) as [l2 Hl2].
  split.
  - eapply month_figures_label_free; eassumption.
  - eapply month_figures_total_net; eassumption.
Qed.

(** A certificate and a mandate for March 2024 over the same rows. *)
Lemma month_renderers_report_same_totals_witness :
  let p1 := march_2024 "certificat-paiement" [worker_two_shapes] plain_options in
  let p2 := march_2024 "mandat-paiement" [worker_two_shapes] plain_options in
  let f := {| total_net := 3760%float;
              amount_words := "Trois Mille Sept Cent Soixante dhs 00 Cts" |} in
  generate_certificat_paiement_docx iso_calendar p1 = Ok f
  /\ generate_mandat_paiement_docx iso_calendar p2 = Ok f
  /\ f = f
  /\ exists se,
       month_start_end (int_or_zero (p_year p1)) (int_or_zero (p_month p1)) = Ok se
       /\ total_net f
          = round2 (PyFloat.or_zero
              (net (snd (build_workers_financial_rows iso_calendar (report_rows p1)
                           (snd se) (age_limit_of p1))))).
Proof.
  intros p1 p2 f.
  assert (H1 : generate_certificat_paiement_docx iso_calendar p1 = Ok f)
    by (vm_compute; reflexivity).
  assert (H2 : generate_mandat_paiement_docx iso_calendar p2 = Ok f)
    by (vm_compute; reflexivity).
  split; [exact H1|]. split; [exact H2|].
  apply (month_renderers_report_same_totals iso_calendar
           (generate_certificat_paiement_docx iso_calendar)
           (generate_mandat_paiement_docx iso_calendar) p1 p2 f f).
  - simpl. auto.
  - simpl. auto 6.
  - repeat split.
  - exact H1.
  - exact H2.
Defined.

(** C1, the claim as stated fails on the bordereau: for the same rows
    and month the certificate reports 3760.00, from 20 days for 4000.00,
    and the bordereau 188.00, from two presence days at 100.00. *)
Lemma bordereau_total_differs_from_certificat :
  generate_certificat_paiement_docx iso_calendar
    (march_2024 "certificat-paiement" [worker_two_shapes] plain_options)
  = Ok {| total_net := 3760%float;
          amount_words := "Trois Mille Sept Cent Soixante dhs 00 Cts" |}
  /\ generate_bordereau_docx iso_calendar
       (march_2024 "bordereau" [worker_two_shapes] plain_options)
     = Ok {| combined_net := 188%float;
             range_net := 188%float;
             bord_words := "Cent Quatre Vingt Huit dhs 00 Cts";
             admitted := 188%float;
             total_general := 188%float;
             total_general_words := "Cent Quatre Vingt Huit dhs 00 Cts" |}.
Proof. split; vm_compute; reflexivity. Qed.

(** ** C2: no deduction above the age threshold *)

Lemma deduction_above_threshold iso birth ref gross age_limit age :
  calculate_age_at iso birth ref = Some age ->
  age_limit < age ->
  calculate_igr_deduction iso birth ref gross age_limit = 0%float.
Proof.
  intros Ha Hlt. unfold calculate_igr_deduction. rewrite Ha.
  destruct (age <=? age_limit) eqn:Hle; [|reflexivity].
  apply Z.leb_le in Hle. lia.
Qed.

(** C2, evaluated on the code.  A worker born on 01/01/1950 is 74 at
    the end of March 2024, above the threshold of 60.  The month
    aggregation, which goes through [calculate_igr_deduction], shows
    the worker a deduction of 0.00 on 1000.00, and the bordereau range
    total counts the full 200.00 of two presence days.  The RCAR
    statements never read the birth date or the age limit: for the
    same worker rcar-salariale charges 60.00 and rcar-patronale 120.00
    on 1000.00, also when [rcarAgeLimit] is set to 60 in the
    options. *)
Lemma rcar_charges_worker_above_threshold :
  calculate_age_at iso_calendar (date_naissance quarter_worker_aged_74)
    end_of_march_2024 = Some 74
  /\ build_workers_financial_rows iso_calendar [worker_aged_74] end_of_march_2024 60
     = ([{| row_nom_prenom := "C D"; row_cin := ""; row_type := "";
            row_days := 10; row_gross := 1000%float;
            row_deduction := 0%float; row_net := 1000%float |}],
        {| days := 10%float; gross := 1000%float;
           deduction := 0%float; net := 1000%float |})
  /\ calculate_range_net_total iso_calendar [presence_worker_aged_74] 2024 3 1 31 60
     = Ok 200%float
  /\ generate_rcar_salariale_docx
       (march_2024 "rcar-salariale" [quarter_worker_aged_74] plain_options)
     = Ok {| table_rows :=
               [{| rcar_nom_prenom := "C D"; rcar_qualite := "";
                   rcar_days := 10%float; rcar_price := Some 100%float;
                   rcar_brut := 1000%float; rcar_prelev := 60%float;
                   rcar_versement := 60%float |}];
             total_days_r := 10%float; total_brut := 1000%float;
             total_prelev := 60%float; total_versement := 60%float |}
  /\ generate_rcar_patronale_docx
       (march_2024 "rcar-patronale" [quarter_worker_aged_74] options_age_limit_60)
     = Ok {| table_rows :=
               [{| rcar_nom_prenom := "C D"; rcar_qualite := "";
                   rcar_days := 10%float; rcar_price := Some 100%float;
                   rcar_brut := 1000%float; rcar_prelev := 120%float;
                   rcar_versement := 120%float |}];
             total_days_r := 10%float; total_brut := 1000%float;
             total_prelev := 120%float; total_versement := 120%float |}.
Proof. repeat split; vm_compute; reflexivity. Qed.

(** ** C3: cents in the amount in words *)

(** C3, evaluated on the code.  [amount_to_words_dhs_cents] has no
    carry: 12.996 gives 100 cents, where [amount_words_upper] of the
    RCAR statement carries into the integer part.  The bordereau
    reaches the first with [total_general], here 5.996 + 94.00.  The
    binary64 value of 12.995 lies below the tie and gives 99 cents on
    both paths. *)
Lemma amount_to_words_emits_100_cts :
  amount_to_words_dhs_cents 12.996%float = Ok "Douze dhs 100 Cts"
  /\ amount_words_upper 12.996%float = Ok "TREIZE DHS 00 CTS"
  /\ amount_to_words_dhs_cents 12.995%float = Ok "Douze dhs 99 Cts"
  /\ amount_words_upper 12.995%float = Ok "DOUZE DHS 99 CTS"
  /\ match generate_bordereau_docx iso_calendar
             (march_2024 "bordereau" [worker_one_day] options_with_report) with
     | Ok f => (range_net f, total_general_words f)
     | Raise _ => (0%float, "")
     end = (94%float, "Quatre Vingt Dix Neuf dhs 100 Cts").
Proof. repeat split; vm_compute; reflexivity. Qed.

(** ** C6: additivity of the totals *)

(** C6, evaluated on the code.  The gross is accumulated unrounded
    while net and deduction are rounded per worker: for 100.004 and
    200.004 the rows show 100.00 and 200.00, the totals 300.01 gross,
    18.00 deduction and 282.00 net, and gross less deduction is not
    the net. *)
Lemma totals_net_is_not_gross_minus_deduction :
  let '(rows_out, totals) :=
    build_workers_financial_rows iso_calendar workers_third_decimal
      end_of_march_2024 60 in
  map (fun r => (row_gross r, row_deduction r, row_net r)) rows_out
  = [(100%float, 6%float, 94%float); (200%float, 12%float, 188%float)]
  /\ totals = {| days := 2%float; gross := 300.01%float;
                 deduction := 18%float; net := 282%float |}
  /\ round2 (gross totals - deduction totals) = 282.01%float
  /\ (net totals =? gross totals - deduction totals)%float = false.
Proof. vm_compute. repeat split. Qed.

(** ** C7: reordering the worker list *)

Lemma range_loop_permutation iso ref s e age_limit rows rows' :
  Permutation rows rows' ->
  forall acc t,
    range_loop iso ref s e age_limit rows acc = Ok t ->
    range_loop iso ref s e age_limit rows' acc = Ok t.
Proof.
  induction 1 as [|x l l' Hp IH|x y l|l l' l'' Hp1 IH1 Hp2 IH2];
    intros acc t H; simpl in *.
  - exact H.
  - destruct (range_net_cents iso ref s e age_limit x) as [[c|err]|]; simpl in *.
    + now apply IH.
    + discriminate.
    + now apply IH.
  - destruct (range_net_cents iso ref s e age_limit x) as [[cx|ex]|];
      destruct (range_net_cents iso ref s e age_limit y) as [[cy|ey]|];
      simpl in *; try discriminate; try exact H.
    replace (acc + cx + cy) with (acc + cy + cx) by lia. exact H.
  - apply IH2, IH1, H.
Qed.

Lemma filter_permutation {A : Type} (f : A -> bool) (l l' : list A) :
  Permutation l l' -> Permutation (filter f l) (filter f l').
Proof.
  induction 1 as [|x l l' Hp IH|x y l|l l' l'' Hp1 IH1 Hp2 IH2]; simpl.
  - constructor.
  - destruct (f x); [now constructor | assumption].
  - destruct (f x), (f y); try reflexivity. constructor.
  - now transitivity (filter f l').
Qed.

(** C7 (as amended). Reordering the worker list reorders the emitted
    rows and changes none of them, and it leaves the bordereau range
    total unchanged, since that total is a sum of whole centimes.  The
    four totals of [build_workers_financial_rows] are floating-point
    sums taken in list order; their equality across orders is not
    part of the statement. *)
Theorem reordering_workers_keeps_rows_and_range_total :
  forall (iso : string -> option date) (rows rows' : list Worker)
         (ref : date) (age_limit : Z),
    Permutation rows rows' ->
    Permutation (fst (build_workers_financial_rows iso rows ref age_limit))
                (fst (build_workers_financial_rows iso rows' ref age_limit))
    /\ forall y m start_day end_day v,
         calculate_range_net_total iso rows y m start_day end_day age_limit = Ok v ->
         calculate_range_net_total iso rows' y m start_day end_day age_limit = Ok v.
Proof.
  intros iso rows rows' ref age_limit Hp. split.
  - rewrite !build_rows_spec.
    apply Permutation_map, filter_permutation, Hp.
  - intros y m s e v. unfold calculate_range_net_total.
    destruct (make_date y m e) as [d|]; simpl; [|discriminate].
    destruct (range_loop iso d s e age_limit rows 0) as [t|] eqn:Ht; simpl;
      [|discriminate].
    rewrite (range_loop_permutation iso d s e age_limit rows rows' Hp 0 t Ht).
    simpl. auto.
Qed.

(** Two workers with presence days, in both orders: 94.00 + 188.00. *)
Lemma reordering_workers_keeps_rows_and_range_total_witness :
  let a := presence_worker "A" None None None [1] 100%float in
  let b := presence_worker "B" None None None [2; 3] 100%float in
  Permutation [a; b] [b; a]
  /\ calculate_range_net_total iso_calendar [a; b] 2024 3 1 31 60 = Ok 282%float
  /\ calculate_range_net_total iso_calendar [b; a] 2024 3 1 31 60 = Ok 282%float.
Proof.
  intros a b.
  assert (Hp : Permutation [a; b] [b; a]) by apply perm_swap.
  assert (H : calculate_range_net_total iso_calendar [a; b] 2024 3 1 31 60
              = Ok 282%float) by (vm_compute; reflexivity).
  split; [exact Hp|]. split; [exact H|].
  exact (proj2 (reordering_workers_keeps_rows_and_range_total iso_calendar
                  [a; b] [b; a] end_of_march_2024 60 Hp)
               2024 3 1 31 282%float H).
Defined.

(** C7, the claim as stated fails on the float totals: the same three
    records give a total gross of 336.93 in one order and 336.92 in
    another; and with one amount of 1e16 the total net, a sum of
    amounts already rounded to 2 decimals, changes with the order
    too. *)
Lemma totals_depend_on_worker_order :
  Permutation [worker_b1; worker_b2; worker_b3] [worker_b1; worker_b3; worker_b2]
  /\ gross (snd (build_workers_financial_rows iso_calendar
                   [worker_b1; worker_b2; worker_b3] end_of_march_2024 60))
     = 336.93%float
  /\ gross (snd (build_workers_financial_rows iso_calendar
                   [worker_b1; worker_b3; worker_b2] end_of_march_2024 60))
     = 336.92%float
  /\ Permutation [worker_c1; worker_c2; worker_c3] [worker_c2; worker_c3; worker_c1]
  /\ net (snd (build_workers_financial_rows iso_calendar
                 [worker_c1; worker_c2; worker_c3] end_of_march_2024 60))
     = 9400000000000000%float
  /\ net (snd (build_workers_financial_rows iso_calendar
                 [worker_c2; worker_c3; worker_c1] end_of_march_2024 60))
     = 9400000000000002%float.
Proof.
  split; [apply perm_skip, perm_swap|].
  split; [vm_compute; reflexivity|].
  split; [vm_compute; reflexivity|].
  split.
  - exact (Permutation_cons_append [worker_c2; worker_c3] worker_c1).
  - split; vm_compute; reflexivity.
Qed.

(** ** C9: the bordereau refuses an empty ledger *)

Lemma int_or_zero_some z : int_or_zero (Some z) = z.
Proof.
  unfold int_or_zero, or_int. destruct (z =? 0) eqn:H; [|reflexivity].
  apply Z.eqb_eq in H. now subst.
Qed.

Lemma days_in_month_bounds y m : 28 <= days_in_month y m <= 31.
Proof.
  unfold days_in_month.
  destruct (m =? 2); [destruct (is_leap y); lia|].
  destruct (_ || _); lia.
Qed.

Lemma make_date_valid y m d :
  1 <= y <= 9999 -> 1 <= m <= 12 -> 1 <= d <= days_in_month y m ->
  make_date y m d = Ok (mkdate y m d).
Proof.
  intros Hy Hm Hd. unfold make_date.
  replace ((1 <=? y) && (y <=? 9999)) with true
    by (symmetry; apply andb_true_iff; split; apply Z.leb_le; lia).
  replace ((1 <=? m) && (m <=? 12)) with true
    by (symmetry; apply andb_true_iff; split; apply Z.leb_le; lia).
  replace ((1 <=? d) && (d <=? days_in_month y m)) with true
    by (symmetry; apply andb_true_iff; split; apply Z.leb_le; lia).
  reflexivity.
Qed.

Lemma monthrange_valid y m :
  1 <= m <= 12 -> monthrange y m = Ok (days_in_month y m).
Proof.
  intros Hm. unfold monthrange.
  replace ((1 <=? m) && (m <=? 12)) with true
    by (symmetry; apply andb_true_iff; split; apply Z.leb_le; lia).
  reflexivity.
Qed.

Lemma month_start_end_valid y m :
  1 <= y <= 9999 -> 1 <= m <= 12 ->
  month_start_end y m = Ok (mkdate y m 1, mkdate y m (days_in_month y m)).
Proof.
  intros Hy Hm. unfold month_start_end.
  pose proof (days_in_month_bounds y m).
  rewrite monthrange_valid by assumption. simpl.
  rewrite !make_date_valid by lia. reflexivity.
Qed.

Lemma valid_month_passes y m :
  1 <= y <= 9999 -> 1 <= m <= 12 ->
  (y <=? 0) || (m <=? 0) || (12 <? m) = false.
Proof.
  intros Hy Hm.
  replace (y <=? 0) with false by (symmetry; apply Z.leb_gt; lia).
  replace (m <=? 0) with false by (symmetry; apply Z.leb_gt; lia).
  replace (12 <? m) with false by (symmetry; apply Z.ltb_ge; lia).
  reflexivity.
Qed.

Lemma fold_financial_all_skipped iso ref age_limit rows :
  (forall w, In w rows -> skipped w = true) ->
  forall st, fold_left (financial_step iso ref age_limit) rows st = st.
Proof.
  induction rows as [|w rows IH]; intros Hall st; simpl; [reflexivity|].
  rewrite financial_step_skipped by (apply Hall; now left).
  apply IH. intros w' Hw'. apply Hall. now right.
Qed.

Lemma build_all_skipped iso ref age_limit rows :
  (forall w, In w rows -> skipped w = true) ->
  build_workers_financial_rows iso rows ref age_limit = ([], zero_totals).
Proof.
  intros Hall. unfold build_workers_financial_rows.
  rewrite fold_financial_all_skipped by assumption. reflexivity.
Qed.

Lemma range_loop_all_excluded iso ref s e age_limit rows :
  (forall w, In w rows -> range_excluded s e w = true) ->
  forall acc, range_loop iso ref s e age_limit rows acc = Ok acc.
Proof.
  induction rows as [|w rows IH]; intros Hall acc; simpl; [reflexivity|].
  assert (Hw : range_excluded s e w = true) by (apply Hall; now left).
  unfold range_excluded in Hw. unfold range_net_cents.
  destruct (worker_daily_salary w <=? 0)%float; simpl in *.
  - apply IH. intros w' Hw'. apply Hall. now right.
  - rewrite Hw. apply IH. intros w' Hw'. apply Hall. now right.
Qed.

Lemma fold_rcar_all_skipped rate rows :
  (forall w, In w rows -> rcar_skipped w = true) ->
  forall st, fold_left (rcar_step rate) rows st = st.
Proof.
  induction rows as [|w rows IH]; intros Hall st; simpl; [reflexivity|].
  unfold rcar_step at 2. rewrite (Hall w) by now left.
  apply IH. intros w' Hw'. apply Hall. now right.
Qed.

Lemma month_figures_all_skipped iso l p y m :
  p_year p = Some y -> p_month p = Some m ->
  1 <= y <= 9999 -> 1 <= m <= 12 ->
  (forall w, In w (report_rows p) -> skipped w = true) ->
  month_figures iso l p = Ok zero_month_figures.
Proof.
  intros Hy Hm Hyr Hmr Hall. unfold month_figures.
  rewrite Hy, Hm, !int_or_zero_some, valid_month_passes by assumption.
  rewrite month_start_end_valid by assumption. simpl.
  rewrite build_all_skipped by assumption.
  reflexivity.
Qed.

Lemma empty_period_figures :
  forall (iso : string -> option date) (p : Payload) (y m : Z),
    p_year p = Some y -> p_month p = Some m ->
    1 <= y <= 9999 -> 1 <= m <= 12 ->
    (forall w, In w (report_rows p) ->
       skipped w = true /\ range_excluded 1 (days_in_month y m) w = true) ->
    generate_bordereau_docx iso (with_type "bordereau" p) = Raise no_payroll_data
    /\ generate_recu_docx iso (with_type "recu-combined" p) = Ok zero_month_figures
    /\ generate_demande_autorisation_docx iso (with_type "demande-autorisation" p)
       = Ok zero_month_figures
    /\ generate_ordre_paiement_docx iso (with_type "ordre-paiement" p)
       = Ok zero_month_figures
    /\ generate_mandat_paiement_docx iso (with_type "mandat-paiement" p)
       = Ok zero_month_figures
    /\ generate_certificat_paiement_docx iso (with_type "certificat-paiement" p)
       = (if decision_reference_present (options p) then Ok zero_month_figures
          else Raise (ValueError
            "Missing CERTIFICAT DE PAIEMENT decision reference in configuration (decision number/date)."))
    /\ ((forall w, In w (report_rows p) -> rcar_skipped w = true) ->
        generate_rcar_salariale_docx (with_type "rcar-salariale" p)
        = Ok zero_rcar_figures
        /\ generate_rcar_patronale_docx (with_type "rcar-patronale" p)
           = Ok zero_rcar_figures).
Proof.
  intros iso p y m Hy Hm Hyr Hmr Hall.
  assert (Hskip : forall w, In w (report_rows p) -> skipped w = true)
    by (intros w Hw; apply (Hall w Hw)).
  assert (Hexcl : forall w, In w (report_rows p) ->
                    range_excluded 1 (days_in_month y m) w = true)
    by (intros w Hw; apply (Hall w Hw)).
  assert (Hfig : forall l t, month_figures iso l (with_type t p)
                             = Ok zero_month_figures).
  { intros l t. apply (month_figures_all_skipped iso l (with_type t p) y m);
      assumption. }
  pose proof (days_in_month_bounds y m) as Hdim.
  repeat split.
  - unfold generate_bordereau_docx. simpl negb. cbv iota.
    change (p_year (with_type "bordereau" p)) with (p_year p).
    change (p_month (with_type "bordereau" p)) with (p_month p).
    change (report_rows (with_type "bordereau" p)) with (report_rows p).
    rewrite Hy, Hm, !int_or_zero_some, valid_month_passes by assumption.
    rewrite monthrange_valid by assumption. simpl bind.
    unfold calculate_range_net_total.
    rewrite make_date_valid by lia. simpl bind.
    rewrite range_loop_all_excluded by assumption.
    reflexivity.
  - unfold generate_recu_docx. simpl negb. cbv iota. apply Hfig.
  - unfold generate_demande_autorisation_docx. simpl negb. cbv iota. apply Hfig.
  - unfold generate_ordre_paiement_docx. simpl negb. cbv iota. apply Hfig.
  - unfold generate_mandat_paiement_docx. simpl negb. cbv iota. apply Hfig.
  - unfold generate_certificat_paiement_docx. simpl negb. cbv iota.
    rewrite Hfig. simpl bind.
    change (options (with_type "certificat-paiement" p)) with (options p).
    unfold decision_reference_present.
    destruct (_ || _); reflexivity.
  - unfold generate_rcar_salariale_docx, _generate_rcar_docx. simpl negb. cbv iota.
    change (report_rows (with_type "rcar-salariale" p)) with (report_rows p).
    unfold rcar_figures. rewrite fold_rcar_all_skipped by assumption. reflexivity.
  - unfold generate_rcar_patronale_docx, _generate_rcar_docx. simpl negb. cbv iota.
    change (report_rows (with_type "rcar-patronale" p)) with (report_rows p).
    unfold rcar_figures. rewrite fold_rcar_all_skipped by assumption. reflexivity.
Qed.

Lemma rcar_table_empty_iff rate rows :
  table_rows (rcar_figures rate rows) = []
  <-> forall w, In w rows -> rcar_skipped w = true.
Proof.
  unfold rcar_figures. cbn [table_rows]. rewrite fold_rcar_rows. cbn [table_rows app].
  split.
  - intros H w Hw. apply map_eq_nil in H.
    destruct (rcar_skipped w) eqn:E; [reflexivity|].
    assert (Hin : In w (filter (fun w => negb (rcar_skipped w)) rows))
      by (apply filter_In; rewrite E; auto).
    rewrite H in Hin. contradiction.
  - intros Hall.
    assert (Hf : filter (fun w => negb (rcar_skipped w)) rows = []).
    { induction rows as [|w rows IH]; simpl; [reflexivity|].
      rewrite (Hall w) by now left. simpl.
      apply IH. intros w' Hw'. apply Hall. now right. }
    now rewrite Hf.
Qed.

(** C9 (as amended). For a payload with a valid year and month whose
    workers are all left out by both aggregations (the empty list
    included), the bordereau fails with the data error on the combined
    total over days 1 to the last day of the month, before any
    document content exists.  With the same payload the recu,
    demande-autorisation, ordre-paiement and mandat-paiement renderers
    report a zero total, and so does the certificat when the decision
    reference is configured (it raises otherwise).  The RCAR
    statements follow another rule: they leave a record out when its
    days and its gross are both non-positive, so their table is empty
    exactly when every record is such, and their totals are then
    zero; any other record is listed. *)
Theorem bordereau_refuses_empty_period :
  forall (iso : string -> option date) (p : Payload) (y m : Z),
    p_year p = Some y -> p_month p = Some m ->
    1 <= y <= 9999 -> 1 <= m <= 12 ->
    (forall w, In w (report_rows p) ->
       skipped w = true /\ range_excluded 1 (days_in_month y m) w = true) ->
    generate_bordereau_docx iso (with_type "bordereau" p) = Raise no_payroll_data
    /\ generate_recu_docx iso (with_type "recu-combined" p) = Ok zero_month_figures
    /\ generate_demande_autorisation_docx iso (with_type "demande-autorisation" p)
       = Ok zero_month_figures
    /\ generate_ordre_paiement_docx iso (with_type "ordre-paiement" p)
       = Ok zero_month_figures
    /\ generate_mandat_paiement_docx iso (with_type "mandat-paiement" p)
       = Ok zero_month_figures
    /\ generate_certificat_paiement_docx iso (with_type "certificat-paiement" p)
       = (if decision_reference_present (options p) then Ok zero_month_figures
          else Raise (ValueError
            "Missing CERTIFICAT DE PAIEMENT decision reference in configuration (decision number/date)."))
    /\ ((forall w, In w (report_rows p) -> rcar_skipped w = true) ->
        generate_rcar_salariale_docx (with_type "rcar-salariale" p)
        = Ok zero_rcar_figures
        /\ generate_rcar_patronale_docx (with_type "rcar-patronale" p)
           = Ok zero_rcar_figures)
    /\ (forall f,
          generate_rcar_salariale_docx (with_type "rcar-salariale" p) = Ok f
          \/ generate_rcar_patronale_docx (with_type "rcar-patronale" p) = Ok f ->
          (table_rows f = []
           <-> forall w, In w (report_rows p) -> rcar_skipped w = true)).
Proof.
  intros iso p y m Hy Hm Hyr Hmr Hall.
  destruct (empty_period_figures iso p y m Hy Hm Hyr Hmr Hall)
    as (H1 & H2 & H3 & H4 & H5 & H6 & H7).
  repeat (split; [assumption|]).
  intros f [Hf|Hf];
    unfold generate_rcar_salariale_docx, generate_rcar_patronale_docx,
      _generate_rcar_docx in Hf;
    simpl negb in Hf; cbv iota in Hf; inversion Hf;
    apply rcar_table_empty_iff.
Qed.

(** March 2024 with one idle record. *)
Lemma bordereau_refuses_empty_period_witness :
  let p := march_2024 "bordereau" [idle_worker] plain_options in
  generate_bordereau_docx iso_calendar (with_type "bordereau" p)
  = Raise no_payroll_data
  /\ generate_recu_docx iso_calendar (with_type "recu-combined" p)
     = Ok zero_month_figures.
Proof.
  intros p.
  assert (H : forall w, In w (report_rows p) ->
                skipped w = true /\ range_excluded 1 (days_in_month 2024 3) w = true).
  { intros w [Hw|[]]. subst w. split; vm_compute; reflexivity. }
  pose proof (bordereau_refuses_empty_period iso_calendar p 2024 3
                eq_refl eq_refl ltac:(lia) ltac:(lia) H) as (Hb & Hr & _).
  split; assumption.
Defined.

(** C9, the claim as stated fails on the RCAR statement: with one
    record of 0 days and 100.00, which both aggregations leave out, the
    bordereau refuses, the certificate reports 0.00, and the RCAR
    statement reports 100.00 gross and 6.00 deduction. *)
Lemma rcar_totals_not_zero_when_month_is_empty :
  let p := march_2024 "bordereau" [worker_without_days] plain_options in
  skipped worker_without_days = true
  /\ range_excluded 1 31 worker_without_days = true
  /\ generate_bordereau_docx iso_calendar (with_type "bordereau" p)
     = Raise no_payroll_data
  /\ generate_certificat_paiement_docx iso_calendar
       (with_type "certificat-paiement" p) = Ok zero_month_figures
  /\ generate_rcar_salariale_docx (with_type "rcar-salariale" p)
     = Ok {| table_rows :=
               [{| rcar_nom_prenom := "Z"; rcar_qualite := "";
                   rcar_days := 0%float; rcar_price := None;
                   rcar_brut := 100%float; rcar_prelev := 6%float;
                   rcar_versement := 6%float |}];
             total_days_r := 0%float; total_brut := 100%float;
             total_prelev := 6%float; total_versement := 6%float |}.
Proof. repeat split; vm_compute; reflexivity. Qed.

(** ** C10: section totals of the role document *)

Lemma summary_row_relabel l1 l2 t dc r :
  GenerateRole.add_summary_row l1 t dc = Ok r ->
  GenerateRole.add_summary_row l2 t dc = Ok (relabel l2 r).
Proof.
  unfold GenerateRole.add_summary_row.
  destruct (PyFloat.round _) as [d|]; [|discriminate].
  cbv beta iota delta [bind GenerateRole.fmt_amount GenerateRole.amount_or_zero].
  intros H. inversion H. reflexivity.
Qed.

Lemma add_role_table_spec rows totals report dc t :
  GenerateRole.add_role_table rows totals report dc = Ok t ->
  GenerateRole.add_summary_row "TOTAL :" totals dc = Ok (GenerateRole.tbl_total t)
  /\ GenerateRole.worker_rows rows dc = Ok (GenerateRole.tbl_rows t)
  /\ match report with
     | Some r =>
         exists s, GenerateRole.add_summary_row "REPORT :" r dc = Ok s
                   /\ GenerateRole.tbl_report t = Some s
     | None => GenerateRole.tbl_report t = None
     end.
Proof.
  unfold GenerateRole.add_role_table. intros H.
  destruct report as [r|].
  - destruct (GenerateRole.add_summary_row "REPORT :" r dc) as [s|]; [|discriminate].
    cbv beta iota delta [bind] in H.
    destruct (GenerateRole.worker_rows rows dc); [|discriminate].
    cbv beta iota delta [bind] in H.
    destruct (GenerateRole.add_summary_row "TOTAL :" totals dc); [|discriminate].
    inversion H. cbn. repeat split. exists s. auto.
  - cbv beta iota delta [bind] in H.
    destruct (GenerateRole.worker_rows rows dc); [|discriminate].
    cbv beta iota delta [bind] in H.
    destruct (GenerateRole.add_summary_row "TOTAL :" totals dc); [|discriminate].
    inversion H. cbn. auto.
Qed.

Lemma draw_section_spec payload sec f :
  GenerateRole.draw_section payload sec = Ok f ->
  let dc := GenerateRole.decimalComma payload in
  let k := Z.to_nat (GenerateRole.page1_worker_rows payload) in
  let page1_rows := firstn k (GenerateRole.workers sec) in
  let page2_rows := skipn k (GenerateRole.workers sec) in
  let recomputed := GenerateRole.sum_workers (GenerateRole.workers sec) in
  let page1_partial := GenerateRole.sum_workers page1_rows in
  let totals := GenerateRole.section_totals f in
  totals = GenerateRole.normalize_totals sec recomputed
  /\ GenerateRole.totalDays totals
     = match GenerateRole.totalDays_in sec with
       | GenerateRole.JNum x => x
       | _ => GenerateRole.totalDays recomputed
       end
  /\ GenerateRole.totalGross totals
     = match GenerateRole.totalGross_in sec with
       | GenerateRole.JNum x => PyFloat.round_to_cents x
       | GenerateRole.JAbsent =>
           PyFloat.round_to_cents (GenerateRole.totalGross recomputed)
       | GenerateRole.JOther _ _ => 0%float
       end
  /\ GenerateRole.totalDeduction totals
     = match GenerateRole.totalDeduction_in sec with
       | GenerateRole.JNum x => PyFloat.round_to_cents x
       | GenerateRole.JAbsent =>
           PyFloat.round_to_cents (GenerateRole.totalDeduction recomputed)
       | GenerateRole.JOther _ _ => 0%float
       end
  /\ GenerateRole.totalNet totals
     = match GenerateRole.totalNet_in sec with
       | GenerateRole.JNum x => PyFloat.round_to_cents x
       | GenerateRole.JAbsent =>
           PyFloat.round_to_cents (GenerateRole.totalNet recomputed)
       | GenerateRole.JOther _ _ => 0%float
       end
  /\ GenerateRole.add_summary_row "TOTAL :" totals dc
     = Ok (GenerateRole.tbl_total (GenerateRole.continuation_table f))
  /\ GenerateRole.add_summary_row "TOTAL :" page1_partial dc
     = Ok (GenerateRole.tbl_total (GenerateRole.page1_table f))
  /\ GenerateRole.tbl_report (GenerateRole.page1_table f) = None
  /\ GenerateRole.tbl_report (GenerateRole.continuation_table f)
     = Some (relabel "REPORT :"
               (GenerateRole.tbl_total (GenerateRole.page1_table f)))
  /\ GenerateRole.worker_rows page1_rows dc
     = Ok (GenerateRole.tbl_rows (GenerateRole.page1_table f))
  /\ GenerateRole.worker_rows page2_rows dc
     = Ok (GenerateRole.tbl_rows (GenerateRole.continuation_table f))
  /\ exists w fl cents,
       let total_net := PyFloat.round_to_cents (GenerateRole.totalNet totals) in
       GenerateRole.number_to_words_fr total_net = Ok w
       /\ PyFloat.floor total_net = Ok fl
       /\ PyFloat.round ((total_net - PyFloat.of_Z fl) * 100)%float = Ok cents
       /\ GenerateRole.totals_words f
          = PyStr.upper w ++ " DHS " ++ PyStr.rjust 2 "0" (PyStr.of_Z cents)
            ++ " CTS.".
Proof.
  intros H dc k page1_rows page2_rows recomputed page1_partial totals.
  unfold GenerateRole.draw_section in H.
  fold k page1_rows page2_rows recomputed page1_partial dc in H.
  destruct (GenerateRole.add_role_table page1_rows page1_partial None dc)
    as [t1|] eqn:E1; [|discriminate].
  cbv beta iota delta [bind] in H.
  destruct (GenerateRole.add_role_table page2_rows _ (Some page1_partial) dc)
    as [t2|] eqn:E2; [|discriminate].
  cbv beta iota delta [bind] in H.
  destruct (GenerateRole.number_to_words_fr _) as [w|] eqn:Hw; [|discriminate].
  cbv beta iota delta [bind] in H.
  destruct (PyFloat.floor _) as [fl|] eqn:Hfl; [|discriminate].
  cbv beta iota delta [bind] in H.
  destruct (PyFloat.round _) as [cents|] eqn:Hc; [|discriminate].
  inversion H; subst f; clear H. subst totals.
  cbn [GenerateRole.section_totals GenerateRole.page1_table
       GenerateRole.continuation_table GenerateRole.totals_words].
  apply add_role_table_spec in E1 as (T1 & R1 & P1).
  apply add_role_table_spec in E2 as (T2 & R2 & (s & S2 & P2)).
  rewrite (summary_row_relabel _ "REPORT :" _ _ _ T1) in S2.
  inversion S2; subst s.
  split; [reflexivity|].
  split; [unfold GenerateRole.normalize_totals; simpl;
          destruct (GenerateRole.totalDays_in sec); reflexivity|].
  split; [unfold GenerateRole.normalize_totals; simpl;
          destruct (GenerateRole.totalGross_in sec); reflexivity|].
  split; [unfold GenerateRole.normalize_totals; simpl;
          destruct (GenerateRole.totalDeduction_in sec); reflexivity|].
  split; [unfold GenerateRole.normalize_totals; simpl;
          destruct (GenerateRole.totalNet_in sec); reflexivity|].
  repeat (split; [assumption|]).
  exists w, fl, cents. repeat split; assumption.
Qed.

Lemma draw_sections_length payload secs :
  forall figs, GenerateRole.draw_sections payload secs = Ok figs ->
  Forall2 (fun sec f => GenerateRole.draw_section payload sec = Ok f) secs figs.
Proof.
  induction secs as [|sec secs IH]; intros figs H; simpl in H.
  - inversion H. constructor.
  - destruct (GenerateRole.draw_section payload sec) as [f|] eqn:E; [|discriminate].
    cbv beta iota delta [bind] in H.
    destruct (GenerateRole.draw_sections payload secs) as [fs|]; [|discriminate].
    cbv beta iota delta [bind] in H. inversion H.
    constructor; [exact E | now apply IH].
Qed.

Lemma draw_role_docx_sections payload figs :
  GenerateRole.draw_role_docx payload = Ok figs ->
  Forall2 (fun sec f => GenerateRole.draw_section payload sec = Ok f)
    (GenerateRole.sections payload) figs.
Proof.
  unfold GenerateRole.draw_role_docx. intros H.
  destruct (GenerateRole.sections payload) as [|sec secs]; [discriminate|].
  now apply draw_sections_length.
Qed.

(** A listed worker whose gross is a text that is no number counts
    for 0 in the sums and stops the layout at its row, where
    [fmt_amount] raises what [float] raises. *)
Lemma role_row_with_text_amount_raises :
  GenerateRole.sum_workers [role_worker_text_gross]
  = {| GenerateRole.totalDays := 20%float;
       GenerateRole.totalGross := 0%float;
       GenerateRole.totalDeduction := 240%float;
       GenerateRole.totalNet := 3760%float |}
  /\ GenerateRole.draw_role_docx role_payload_text_gross = Raise not_a_number.
Proof. split; vm_compute; reflexivity. Qed.

(** C10 (as amended). When [draw_role_docx] succeeds it has laid out
    the sections of the payload in order, one set of figures for each.
    For every section the section totals are [normalize_totals] of the
    section payload over the sums recomputed from all its listed
    workers:
    - [totalDays] is the supplied number as given (it is printed as a
      rounded integer, not to 2 decimals), and the recomputed sum when
      the field is omitted or is a value [float] rejects;
    - [totalGross], [totalDeduction] and [totalNet] are the supplied
      number rounded to 2 decimals, the recomputed sum when the field
      is omitted, and 0.00 when the field is a value [float] rejects.
    The TOTAL row that closes the continuation table and the amount in
    words are printed from these totals, so they can differ from the
    sum of the listed rows.  The TOTAL row that closes the page-1
    table never uses a supplied total: it prints the sums of the rows
    listed on page 1, and the REPORT row that opens the continuation
    table repeats its cells.  The listed rows print the workers' own
    values. *)
Theorem role_totals_follow_normalize_totals :
  forall (payload : GenerateRole.RolePayload)
         (figs : list GenerateRole.SectionFigures),
    GenerateRole.draw_role_docx payload = Ok figs ->
    GenerateRole.sections payload <> []
    /\ Forall2
         (fun sec f =>
            let dc := GenerateRole.decimalComma payload in
            let k := Z.to_nat (GenerateRole.page1_worker_rows payload) in
            let page1_rows := firstn k (GenerateRole.workers sec) in
            let page2_rows := skipn k (GenerateRole.workers sec) in
            let recomputed := GenerateRole.sum_workers (GenerateRole.workers sec) in
            let page1_partial := GenerateRole.sum_workers page1_rows in
            let totals := GenerateRole.section_totals f in
            totals = GenerateRole.normalize_totals sec recomputed
            /\ GenerateRole.totalDays totals
               = match GenerateRole.totalDays_in sec with
                 | GenerateRole.JNum x => x
                 | _ => GenerateRole.totalDays recomputed
                 end
            /\ GenerateRole.totalGross totals
               = match GenerateRole.totalGross_in sec with
                 | GenerateRole.JNum x => PyFloat.round_to_cents x
                 | GenerateRole.JAbsent =>
                     PyFloat.round_to_cents (GenerateRole.totalGross recomputed)
                 | GenerateRole.JOther _ _ => 0%float
                 end
            /\ GenerateRole.totalDeduction totals
               = match GenerateRole.totalDeduction_in sec with
                 | GenerateRole.JNum x => PyFloat.round_to_cents x
                 | GenerateRole.JAbsent =>
                     PyFloat.round_to_cents (GenerateRole.totalDeduction recomputed)
                 | GenerateRole.JOther _ _ => 0%float
                 end
            /\ GenerateRole.totalNet totals
               = match GenerateRole.totalNet_in sec with
                 | GenerateRole.JNum x => PyFloat.round_to_cents x
                 | GenerateRole.JAbsent =>
                     PyFloat.round_to_cents (GenerateRole.totalNet recomputed)
                 | GenerateRole.JOther _ _ => 0%float
                 end
            /\ GenerateRole.add_summary_row "TOTAL :" totals dc
               = Ok (GenerateRole.tbl_total (GenerateRole.continuation_table f))
            /\ GenerateRole.add_summary_row "TOTAL :" page1_partial dc
               = Ok (GenerateRole.tbl_total (GenerateRole.page1_table f))
            /\ GenerateRole.tbl_report (GenerateRole.page1_table f) = None
            /\ GenerateRole.tbl_report (GenerateRole.continuation_table f)
               = Some (relabel "REPORT :"
                         (GenerateRole.tbl_total (GenerateRole.page1_table f)))
            /\ GenerateRole.worker_rows page1_rows dc
               = Ok (GenerateRole.tbl_rows (GenerateRole.page1_table f))
            /\ GenerateRole.worker_rows page2_rows dc
               = Ok (GenerateRole.tbl_rows (GenerateRole.continuation_table f))
            /\ exists w fl cents,
                 let total_net :=
                   PyFloat.round_to_cents (GenerateRole.totalNet totals) in
                 GenerateRole.number_to_words_fr total_net = Ok w
                 /\ PyFloat.floor total_net = Ok fl
                 /\ PyFloat.round ((total_net - PyFloat.of_Z fl) * 100)%float
                    = Ok cents
                 /\ GenerateRole.totals_words f
                    = PyStr.upper w ++ " DHS "
                      ++ PyStr.rjust 2 "0" (PyStr.of_Z cents) ++ " CTS.")
         (GenerateRole.sections payload) figs.
Proof.
  intros payload figs H. split.
  - unfold GenerateRole.draw_role_docx in H.
    destruct (GenerateRole.sections payload); [discriminate | discriminate].
  - apply draw_role_docx_sections in H.
    induction H as [|sec f secs fs Hd _ IH]; constructor; [|exact IH].
    exact (draw_section_spec payload sec f Hd).
Qed.

(** The payload of the example has two sections over the same listed
    worker (20 days, 4000.00 gross, 240.00 deduction, 3760.00 net).
    The first supplies 22 days, 5000.556 gross and 4760.50 net: its
    closing TOTAL row prints 22, 5000.56, 240.00 (the omitted
    deduction) and 4760.50.  The second supplies the days and the
    gross as the text [vingt]: its closing TOTAL row prints 20 days
    and a gross of 0.00. *)
Lemma role_totals_follow_normalize_totals_witness :
  GenerateRole.draw_role_docx role_payload_two_sections
  = Ok [figures_with_supplied_totals; figures_with_text_totals]
  /\ GenerateRole.section_totals figures_with_supplied_totals
     = GenerateRole.normalize_totals section_with_supplied_totals
         (GenerateRole.sum_workers [role_worker_20_days])
  /\ GenerateRole.section_totals figures_with_text_totals
     = GenerateRole.normalize_totals section_with_text_totals
         (GenerateRole.sum_workers [role_worker_20_days]).
Proof.
  assert (H : GenerateRole.draw_role_docx role_payload_two_sections
              = Ok [figures_with_supplied_totals; figures_with_text_totals])
    by (vm_compute; reflexivity).
  split; [exact H|].
  destruct (role_totals_follow_normalize_totals role_payload_two_sections _ H)
    as [_ HF].
  inversion HF as [|sec1 f1 secs1 fs1 H1 HF1]; subst.
  inversion HF1 as [|sec2 f2 secs2 fs2 H2 _]; subst.
  split; [exact (proj1 H1) | exact (proj1 H2)].
Defined.

(** C10, the claim as stated fails in two ways.  The section supplies
    22 days, 5000.556 gross and 4760.50 net, and the TOTAL row that
    closes the page-1 table prints 20, 4000.00, 240.00 and 3760.00, the
    sums of the listed rows.  And a section that supplies its days and
    gross as the text [vingt] has not omitted them, yet the days
    printed are the recomputed 20 and the gross printed is 0.00,
    neither a supplied value nor the recomputed 4000.00. *)
Lemma role_page1_total_ignores_supplied_totals :
  GenerateRole.draw_role_docx role_payload_two_sections
  = Ok [figures_with_supplied_totals; figures_with_text_totals]
  /\ GenerateRole.totalGross_in section_with_supplied_totals
     = GenerateRole.JNum 5000.556%float
  /\ GenerateRole.tbl_total (GenerateRole.page1_table figures_with_supplied_totals)
     = {| GenerateRole.label := "TOTAL :"; GenerateRole.cell_days := "20";
          GenerateRole.cell_gross := "4000.00";
          GenerateRole.cell_deduction := "240.00";
          GenerateRole.cell_net := "3760.00" |}
  /\ GenerateRole.tbl_total
       (GenerateRole.continuation_table figures_with_supplied_totals)
     = {| GenerateRole.label := "TOTAL :"; GenerateRole.cell_days := "22";
          GenerateRole.cell_gross := "5000.56";
          GenerateRole.cell_deduction := "240.00";
          GenerateRole.cell_net := "4760.50" |}
  /\ GenerateRole.totalDays_in section_with_text_totals
     = GenerateRole.JOther true not_a_number
  /\ GenerateRole.totalGross_in section_with_text_totals
     = GenerateRole.JOther true not_a_number
  /\ GenerateRole.sum_workers (GenerateRole.workers section_with_text_totals)
     = {| GenerateRole.totalDays := 20%float;
          GenerateRole.totalGross := 4000%float;
          GenerateRole.totalDeduction := 240%float;
          GenerateRole.totalNet := 3760%float |}
  /\ GenerateRole.tbl_total
       (GenerateRole.continuation_table figures_with_text_totals)
     = {| GenerateRole.label := "TOTAL :"; GenerateRole.cell_days := "20";
          GenerateRole.cell_gross := "0.00";
          GenerateRole.cell_deduction := "240.00";
          GenerateRole.cell_net := "3760.00" |}.
Proof. repeat split; vm_compute; reflexivity. Qed.

(** ** C8: the two number-to-words implementations *)

Lemma lstrip_first_ok s : first_ok s = true -> PyStr.lstrip s = s.
Proof.
  destruct s as [|c r]; simpl; [discriminate|].
  intros H. apply negb_true_iff in H. now rewrite H.
Qed.

Lemma rstrip_last_ok s : last_ok s = true -> PyStr.rstrip s = s.
Proof.
  induction s as [|c r IH]; [discriminate|].
  destruct r as [|c' r'].
  - simpl. intros H. apply negb_true_iff in H. now rewrite H.
  - intros H. change (last_ok (String c (String c' r'))) with (last_ok (String c' r')) in H.
    specialize (IH H).
    change (PyStr.rstrip (String c (String c' r')))
      with (match PyStr.rstrip (String c' r') with
            | EmptyString =>
                if PyStr.is_space c then EmptyString else String c EmptyString
            | r'' => String c r''
            end).
    rewrite IH. reflexivity.
Qed.

Lemma strip_clean s : first_ok s = true -> last_ok s = true -> PyStr.strip s = s.
Proof.
  intros Hf Hl. unfold PyStr.strip.
  rewrite lstrip_first_ok by assumption. now apply rstrip_last_ok.
Qed.

Lemma first_ok_app a b : first_ok a = true -> first_ok (a ++ b) = true.
Proof. destruct a; simpl; [discriminate | auto]. Qed.

Lemma last_ok_app a b : last_ok b = true -> last_ok (a ++ b) = true.
Proof.
  intros Hb. induction a as [|c a IH]; simpl; [assumption|].
  destruct (a ++ b)%string eqn:E; [discriminate IH | exact IH].
Qed.

Lemma append_empty_r (s : string) : (s ++ "")%string = s.
Proof. induction s; simpl; congruence. Qed.

Lemma groups_checked :
  forallb (fun g => implb (regular_group g) (group_agrees g))
    (map Z.of_nat (seq 1 999)) = true.
Proof. vm_compute. reflexivity. Qed.

Lemma group_agreement g :
  0 < g < 1000 -> regular_group g = true ->
  exists a,
    GenerateDocument.three_digits g = Ok a
    /\ GenerateRole.convert_below_thousand g = Ok a
    /\ first_ok a = true /\ last_ok a = true.
Proof.
  intros Hg Hreg.
  pose proof groups_checked as H.
  rewrite forallb_forall in H.
  specialize (H g).
  assert (Hin : In g (map Z.of_nat (seq 1 999))).
  { apply in_map_iff. exists (Z.to_nat g). split; [lia|].
    apply in_seq. lia. }
  specialize (H Hin). rewrite Hreg in H. simpl in H.
  unfold group_agrees in H.
  destruct (GenerateDocument.three_digits g) as [a|]; [|discriminate].
  destruct (GenerateRole.convert_below_thousand g) as [b|]; [|discriminate].
  apply andb_true_iff in H as [H Hl]. apply andb_true_iff in H as [He Hf].
  apply String.eqb_eq in He. subst b.
  exists a. auto.
Qed.

(** On the groups 1 to 999 the two implementations give the same text
    exactly on the regular groups. *)
Lemma groups_differ_checked :
  forallb (fun g =>
             Bool.eqb (regular_group g)
               (same_words (GenerateDocument.three_digits g)
                           (GenerateRole.convert_below_thousand g)))
    (map Z.of_nat (seq 1 999)) = true.
Proof. vm_compute. reflexivity. Qed.

Lemma to_words_unfold n :
  GenerateDocument.to_words n =
  if n =? 0 then Ok "Zero"
  else
    do p1 <-
      (if 0 <? n / 1000000 then
         do w <- GenerateDocument.three_digits (n / 1000000);
         Ok [w ++ " Million" ++ (if 1 <? n / 1000000 then "s" else "")]
       else Ok []);
    do p2 <- thousands_part ((n mod 1000000) / 1000);
    do p3 <- rest_part (n mod 1000);
    Ok (GenerateDocument.join_space (p1 ++ p2 ++ p3)%list).
Proof. reflexivity. Qed.

Lemma join_space_cons x l :
  l <> [] ->
  GenerateDocument.join_space (x :: l)
  = (x ++ " " ++ GenerateDocument.join_space l)%string.
Proof. destruct l; [congruence | reflexivity]. Qed.

Lemma tail_agreement t r :
  0 <= t < 1000 -> 0 <= r < 1000 -> 0 < t * 1000 + r ->
  regular_group t = true -> regular_group r = true ->
  exists l2 l3,
    thousands_part t = Ok l2
    /\ rest_part r = Ok l3
    /\ GenerateRole.convert_below_million (t * 1000 + r)
       = Ok (GenerateDocument.join_space (l2 ++ l3)%list)
    /\ first_ok (GenerateDocument.join_space (l2 ++ l3)%list) = true
    /\ last_ok (GenerateDocument.join_space (l2 ++ l3)%list) = true.
Proof.
  intros Ht Hr Hpos Hrt Hrr.
  assert (Hdiv : (t * 1000 + r) / 1000 = t)
    by (symmetry; apply (Z.div_unique _ 1000 t r); lia).
  assert (Hmod : (t * 1000 + r) mod 1000 = r)
    by (symmetry; apply (Z.mod_unique _ 1000 t r); lia).
  unfold GenerateRole.convert_below_million, thousands_part, rest_part.
  rewrite Hdiv, Hmod.
  destruct (Z.eq_dec t 0) as [Ht0|Ht0].
  - subst t. simpl (0 * 1000 + r). 
    replace (r <? 1000) with true by (symmetry; apply Z.ltb_lt; lia).
    replace (0 <? r) with true by (symmetry; apply Z.ltb_lt; lia).
    destruct (group_agreement r ltac:(lia) Hrr) as (a & Ha & Hb & Hf & Hl).
    rewrite Ha, Hb. simpl.
    exists [], [a]. simpl. auto.
  - replace (t * 1000 + r <? 1000) with false by (symmetry; apply Z.ltb_ge; lia).
    replace (0 <? t) with true by (symmetry; apply Z.ltb_lt; lia).
    destruct (Z.eq_dec r 0) as [Hr0|Hr0].
    + subst r. simpl (0 <? 0). cbv iota.
      destruct (Z.eq_dec t 1) as [Ht1|Ht1].
      * subst t. simpl. exists ["Mille"], []. simpl. auto.
      * replace (t =? 1) with false by (symmetry; apply Z.eqb_neq; lia).
        destruct (group_agreement t ltac:(lia) Hrt) as (b & Ha & Hb & Hf & Hl).
        rewrite Ha, Hb. simpl. rewrite append_empty_r.
        exists [(b ++ " Mille")%string], []. simpl.
        assert (Hf' : first_ok (b ++ " Mille") = true) by now apply first_ok_app.
        assert (Hl' : last_ok (b ++ " Mille") = true) by now apply last_ok_app.
        rewrite strip_clean by assumption. auto.
    + replace (0 <? r) with true by (symmetry; apply Z.ltb_lt; lia).
      destruct (group_agreement r ltac:(lia) Hrr) as (a & Ha & Hb & Hf & Hl).
      rewrite Ha, Hb.
      destruct (Z.eq_dec t 1) as [Ht1|Ht1].
      * subst t. simpl Z.eqb. cbv iota. simpl bind.
        exists ["Mille"], [a].
        assert (Hl' : last_ok ("Mille" ++ " " ++ a) = true)
          by (apply last_ok_app, last_ok_app; assumption).
        rewrite strip_clean by (try reflexivity; assumption).
        simpl. auto.
      * replace (t =? 1) with false by (symmetry; apply Z.eqb_neq; lia).
        destruct (group_agreement t ltac:(lia) Hrt) as (b & Ha' & Hb' & Hf' & Hl').
        rewrite Ha', Hb'. simpl bind.
        exists [(b ++ " Mille")%string], [a].
        assert (Hf2 : first_ok ((b ++ " Mille") ++ " " ++ a) = true)
          by (apply first_ok_app, first_ok_app; assumption).
        assert (Hl2 : last_ok ((b ++ " Mille") ++ " " ++ a) = true)
          by (apply last_ok_app, last_ok_app; assumption).
        rewrite strip_clean by assumption.
        simpl. auto.
Qed.

Lemma words_agree_on_regular n :
  0 <= n < 1000000000 -> regular n = true ->
  exists s,
    GenerateDocument.to_words n = Ok s /\ GenerateRole.convert_whole n = Ok s.
Proof.
  intros Hn Hreg.
  unfold regular in Hreg.
  apply andb_true_iff in Hreg as [Hreg HR].
  apply andb_true_iff in Hreg as [HM HT].
  destruct (Z.eq_dec n 0) as [Hn0|Hn0]; [subst n; exists "Zero"; split; reflexivity|].
  set (M := n / 1000000) in *.
  set (T := (n mod 1000000) / 1000) in *.
  set (R := n mod 1000) in *.
  assert (HMr : 0 <= M < 1000) by (subst M; split;
    [apply Z.div_pos; lia | apply Z.div_lt_upper_bound; lia]).
  assert (Hrem : 0 <= n mod 1000000 < 1000000) by (apply Z.mod_pos_bound; lia).
  assert (HTr : 0 <= T < 1000) by (subst T; split;
    [apply Z.div_pos; lia | apply Z.div_lt_upper_bound; lia]).
  assert (HRr : 0 <= R < 1000) by (subst R; apply Z.mod_pos_bound; lia).
  assert (Hsplit : n mod 1000000 = T * 1000 + R).
  { subst T R. clear. Z.to_euclidean_division_equations. lia. }
  assert (Hn_eq : n = M * 1000000 + (T * 1000 + R)).
  { rewrite <- Hsplit. subst M. clear. Z.to_euclidean_division_equations. lia. }
  rewrite to_words_unfold.
  replace (n =? 0) with false by (symmetry; apply Z.eqb_neq; assumption).
  fold M T R.
  unfold GenerateRole.convert_whole.
  replace (n =? 0) with false by (symmetry; apply Z.eqb_neq; assumption).
  unfold GenerateRole.convert. fold M. rewrite Hsplit.
  destruct (Z.eq_dec M 0) as [HM0|HM0].
  - rewrite HM0 in *. simpl (0 <? 0). cbv iota.
    replace (n <? 1000000) with true by (symmetry; apply Z.ltb_lt; lia).
    assert (Hpos : 0 < T * 1000 + R) by lia.
    destruct (tail_agreement T R HTr HRr Hpos HT HR)
      as (l2 & l3 & H2 & H3 & Hc & _ & _).
    rewrite H2, H3. simpl bind.
    replace n with (T * 1000 + R) by lia.
    exists (GenerateDocument.join_space (l2 ++ l3)%list). split; [reflexivity|exact Hc].
  - replace (n <? 1000000) with false by (symmetry; apply Z.ltb_ge; lia).
    replace (0 <? M) with true by (symmetry; apply Z.ltb_lt; lia).
    assert (Hhead : exists x,
              (do w <- GenerateDocument.three_digits M;
               Ok [w ++ " Million" ++ (if 1 <? M then "s" else "")])
              = Ok [x]
              /\ (if M =? 1 then Ok "Un Million"
                  else do w <- GenerateRole.convert_below_thousand M;
                       Ok (w ++ " Millions")) = Ok x
              /\ first_ok x = true /\ last_ok x = true).
    { destruct (Z.eq_dec M 1) as [HM1|HM1].
      - rewrite HM1. exists "Un Million". repeat split.
      - replace (M =? 1) with false by (symmetry; apply Z.eqb_neq; lia).
        replace (1 <? M) with true by (symmetry; apply Z.ltb_lt; lia).
        destruct (group_agreement M ltac:(lia) HM) as (c & Ha & Hb & Hf & Hl).
        rewrite Ha, Hb. simpl bind.
        exists (c ++ " Millions")%string. repeat split.
        + now apply first_ok_app.
        + now apply last_ok_app. }
    destruct Hhead as (x & Hd & Hr & Hfx & Hlx).
    rewrite Hd, Hr. cbv beta iota delta [bind].
    destruct (Z.eq_dec (T * 1000 + R) 0) as [Hz|Hz].
    + assert (T = 0) by lia. assert (R = 0) by lia.
      replace (0 <? T * 1000 + R) with false by (symmetry; apply Z.ltb_ge; lia).
      rewrite H, H0. simpl. rewrite append_empty_r.
      rewrite strip_clean by assumption.
      exists x. split; reflexivity.
    + assert (Hpos : 0 < T * 1000 + R) by lia.
      replace (0 <? T * 1000 + R) with true by (symmetry; apply Z.ltb_lt; lia).
      destruct (tail_agreement T R HTr HRr Hpos HT HR)
        as (l2 & l3 & H2 & H3 & Hc & Hf & Hl).
      rewrite H2, H3, Hc. cbv beta iota delta [bind].
      assert (Hne : (l2 ++ l3)%list <> []).
      { intros E. rewrite E in Hf. discriminate. }
      change ([x] ++ l2 ++ l3)%list with (x :: (l2 ++ l3))%list.
      rewrite join_space_cons by assumption.
      assert (Hf2 : first_ok (x ++ " " ++ GenerateDocument.join_space (l2 ++ l3)%list)
                    = true) by now apply first_ok_app.
      assert (Hl2 : last_ok (x ++ " " ++ GenerateDocument.join_space (l2 ++ l3)%list)
                    = true) by (apply last_ok_app, last_ok_app; assumption).
      rewrite strip_clean by assumption.
      eexists. split; reflexivity.
Qed.

(** C8 (as amended). The two implementations give the same words for
    every integer from 0 to 999 999 999 whose three-digit groups
    (millions, thousands, units) are regular, that is, have a hundreds
    digit other than 1 and a two-digit remainder outside 21, 31, 41,
    51, 61, 71-76 and 91-96.  Both give "Zero" for 0, "Quatre Vingt"
    for 80, "Un Million" for 1 000 000 and "Deux Millions" for
    2 000 000.  The "Et" connector exists in [generate_role.py] only,
    for 21, 31, 41, 51 and 61: [generate_document.py] writes the tens
    word followed by the unit, and writes 91 as the 80-pattern followed
    by "Onze". *)
Theorem number_words_agree_on_regular_numbers :
  (forall n, 0 <= n < 1000000000 -> regular n = true ->
     exists s,
       GenerateDocument.to_words n = Ok s /\ GenerateRole.convert_whole n = Ok s)
  /\ GenerateDocument.to_words 0 = Ok "Zero"
  /\ GenerateRole.convert_whole 0 = Ok "Zero"
  /\ GenerateDocument.to_words 80 = Ok "Quatre Vingt"
  /\ GenerateRole.convert_whole 80 = Ok "Quatre Vingt"
  /\ GenerateDocument.to_words 1000000 = Ok "Un Million"
  /\ GenerateRole.convert_whole 1000000 = Ok "Un Million"
  /\ GenerateDocument.to_words 2000000 = Ok "Deux Millions"
  /\ GenerateRole.convert_whole 2000000 = Ok "Deux Millions"
  /\ map GenerateRole.convert_whole [21; 31; 41; 51; 61]
     = [Ok "Vingt Et Un"; Ok "Trente Et Un"; Ok "Quarante Et Un";
        Ok "Cinquante Et Un"; Ok "Soixante Et Un"]
  /\ map GenerateDocument.to_words [21; 31; 41; 51; 61]
     = [Ok "Vingt Un"; Ok "Trente Un"; Ok "Quarante Un";
        Ok "Cinquante Un"; Ok "Soixante Un"]
  /\ GenerateDocument.to_words 91 = Ok "Quatre Vingt Onze".
Proof.
  split; [exact words_agree_on_regular|].
  repeat split.
Qed.

(** 1 234 567 has the regular groups 1, 234 and 567. *)
Lemma number_words_agree_on_regular_numbers_witness :
  regular 1234567 = true
  /\ exists s,
       GenerateDocument.to_words 1234567 = Ok s
       /\ GenerateRole.convert_whole 1234567 = Ok s.
Proof.
  split; [reflexivity|].
  apply (proj1 number_words_agree_on_regular_numbers 1234567); [lia | reflexivity].
Defined.

(** C8, the claim as stated fails: 21 is "Vingt Un" in one module and
    "Vingt Et Un" in the other, and the two also part on 71, 91 and
    100. *)
Lemma number_words_differ :
  GenerateDocument.to_words 21 = Ok "Vingt Un"
  /\ GenerateRole.convert_whole 21 = Ok "Vingt Et Un"
  /\ GenerateDocument.to_words 71 = Ok "Soixante Onze"
  /\ GenerateRole.convert_whole 71 = Ok "Soixante Dix Un"
  /\ GenerateDocument.to_words 91 = Ok "Quatre Vingt Onze"
  /\ GenerateRole.convert_whole 91 = Ok "Quatre Vingt Dix Un"
  /\ GenerateDocument.to_words 100 = Ok "Cent"
  /\ GenerateRole.convert_whole 100 = Ok "Un Cent".
Proof. repeat split. Qed.

(** * Further properties of the code *)

(** ** Parts of file names *)

Lemma alnum_not_space c : PyRe.is_alnum c = true -> not_space c = true.
Proof. destruct c as [[] [] [] [] [] [] [] []]; vm_compute; congruence. Qed.

Lemma alnum_not_edge c : PyRe.is_alnum c = true -> not_edge c = true.
Proof. destruct c as [[] [] [] [] [] [] [] []]; vm_compute; congruence. Qed.

Lemma safe_not_backslash c : PyRe.is_safe c = true -> Ascii.eqb c "\" = false.
Proof. destruct c as [[] [] [] [] [] [] [] []]; vm_compute; congruence. Qed.

Lemma safe_not_slash c : PyRe.is_safe c = true -> Ascii.eqb c "/" = false.
Proof. destruct c as [[] [] [] [] [] [] [] []]; vm_compute; congruence. Qed.

Lemma all_chars_app p a b :
  PyRe.all_chars p (a ++ b) = PyRe.all_chars p a && PyRe.all_chars p b.
Proof. induction a as [|c a IH]; simpl; [reflexivity|]. now rewrite IH, andb_assoc. Qed.

Lemma sub_unsafe_runs_safe s :
  forall b, PyRe.all_chars PyRe.is_safe (PyRe.sub_unsafe_runs b s) = true.
Proof.
  induction s as [|c s IH]; intros b; simpl; [reflexivity|].
  destruct (PyRe.is_safe c) eqn:Hc.
  - simpl. now rewrite Hc, IH.
  - destruct b; [apply IH|]. simpl. now rewrite IH.
Qed.

Lemma all_lstrip_by p q s :
  PyRe.all_chars q s = true -> PyRe.all_chars q (PyRe.lstrip_by p s) = true.
Proof.
  induction s as [|c s IH]; simpl; [reflexivity|].
  intros H. destruct (p c); [|exact H].
  apply andb_true_iff in H as [_ H]. auto.
Qed.

Lemma all_rstrip_by p q s :
  PyRe.all_chars q s = true -> PyRe.all_chars q (PyRe.rstrip_by p s) = true.
Proof.
  induction s as [|c s IH]; simpl; [reflexivity|].
  intros H. apply andb_true_iff in H as [Hc H]. specialize (IH H).
  destruct (PyRe.rstrip_by p s) as [|c' r'].
  - destruct (p c); simpl; [reflexivity | now rewrite Hc].
  - change (PyRe.all_chars q (String c (String c' r')))
      with (q c && PyRe.all_chars q (String c' r')).
    now rewrite Hc, IH.
Qed.

Lemma lstrip_by_first p s :
  first_is (fun c => negb (p c)) (PyRe.lstrip_by p s)
  = negb (PyRe.lstrip_by p s =? "")%string.
Proof.
  induction s as [|c s IH]; simpl; [reflexivity|].
  destruct (p c) eqn:Hc; [exact IH|]. simpl. now rewrite Hc.
Qed.

Lemma rstrip_by_first p s :
  first_is (fun c => negb (p c)) s = true ->
  first_is (fun c => negb (p c)) (PyRe.rstrip_by p s) = true.
Proof.
  destruct s as [|c s]; simpl; [discriminate|].
  intros Hc. destruct (PyRe.rstrip_by p s).
  - apply negb_true_iff in Hc. rewrite Hc. simpl. now rewrite Hc.
  - exact Hc.
Qed.

Lemma rstrip_by_last p s :
  last_is (fun c => negb (p c)) (PyRe.rstrip_by p s)
  = negb (PyRe.rstrip_by p s =? "")%string.
Proof.
  induction s as [|c s IH]; simpl; [reflexivity|].
  destruct (PyRe.rstrip_by p s) as [|c' r'].
  - destruct (p c) eqn:Hc; simpl; [reflexivity | now rewrite Hc].
  - exact IH.
Qed.

Lemma first_is_weaken (p q : ascii -> bool) s :
  (forall c, p c = true -> q c = true) -> first_is p s = true -> first_is q s = true.
Proof. destruct s; simpl; auto. Qed.

Lemma last_is_weaken (p q : ascii -> bool) s :
  (forall c, p c = true -> q c = true) -> last_is p s = true -> last_is q s = true.
Proof.
  intros Hpq. induction s as [|c s IH]; simpl; [auto|].
  destruct s; auto.
Qed.

Lemma first_is_and (p q : ascii -> bool) s :
  PyRe.all_chars p s = true -> first_is q s = true ->
  first_is (fun c => p c && q c) s = true.
Proof.
  destruct s; simpl; [discriminate|].
  intros H Hq. apply andb_true_iff in H as [Hp _]. now rewrite Hp, Hq.
Qed.

Lemma last_is_and (p q : ascii -> bool) s :
  PyRe.all_chars p s = true -> last_is q s = true ->
  last_is (fun c => p c && q c) s = true.
Proof.
  induction s as [|c s IH]; [discriminate|].
  intros H Hq. simpl in H. apply andb_true_iff in H as [Hp H].
  destruct s as [|c' s'].
  - simpl in *. now rewrite Hp, Hq.
  - apply IH; assumption.
Qed.

Lemma safe_inner_alnum c :
  PyRe.is_safe c && negb (PyRe.is_edge c) = true -> PyRe.is_alnum c = true.
Proof.
  unfold PyRe.is_safe. destruct (PyRe.is_alnum c), (PyRe.is_edge c); simpl; congruence.
Qed.

Lemma strip_by_edge_clean s :
  PyRe.all_chars PyRe.is_safe s = true ->
  PyRe.strip_by PyRe.is_edge s = "" \/ clean_part (PyRe.strip_by PyRe.is_edge s) = true.
Proof.
  intros Hs. unfold PyRe.strip_by.
  set (l := PyRe.lstrip_by PyRe.is_edge s).
  assert (Hl : PyRe.all_chars PyRe.is_safe l = true) by now apply all_lstrip_by.
  assert (Hr : PyRe.all_chars PyRe.is_safe (PyRe.rstrip_by PyRe.is_edge l) = true)
    by now apply all_rstrip_by.
  destruct (PyRe.rstrip_by PyRe.is_edge l) as [|c r] eqn:E; [now left|right].
  assert (Hlast : last_is (fun c => negb (PyRe.is_edge c)) (String c r) = true).
  { rewrite <- E, rstrip_by_last, E. reflexivity. }
  assert (Hfirst : first_is (fun c => negb (PyRe.is_edge c)) (String c r) = true).
  { rewrite <- E. apply rstrip_by_first.
    subst l. rewrite lstrip_by_first.
    destruct (PyRe.lstrip_by PyRe.is_edge s); [discriminate E | reflexivity]. }
  unfold clean_part. rewrite Hr.
  rewrite (first_is_weaken _ _ _ safe_inner_alnum (first_is_and _ _ _ Hr Hfirst)).
  rewrite (last_is_weaken _ _ _ safe_inner_alnum (last_is_and _ _ _ Hr Hlast)).
  reflexivity.
Qed.

Lemma safe_filename_part_is_clean v : clean_part (safe_filename_part v) = true.
Proof.
  unfold safe_filename_part.
  destruct (strip_by_edge_clean _ (sub_unsafe_runs_safe
    (PyRe.replace_char "/" "-" (PyRe.replace_char "\" "-" (PyStr.strip v))) false))
    as [E|H].
  - rewrite E. reflexivity.
  - destruct (PyRe.strip_by _ _); [reflexivity | exact H].
Qed.

Lemma replace_char_fixed p a b s :
  (forall c, p c = true -> Ascii.eqb c a = false) ->
  PyRe.all_chars p s = true -> PyRe.replace_char a b s = s.
Proof.
  intros Ha. induction s as [|c s IH]; simpl; [reflexivity|].
  intros H. apply andb_true_iff in H as [Hc H].
  rewrite (Ha c Hc), IH by assumption. reflexivity.
Qed.

Lemma sub_unsafe_runs_fixed s :
  PyRe.all_chars PyRe.is_safe s = true -> PyRe.sub_unsafe_runs false s = s.
Proof.
  induction s as [|c s IH]; simpl; [reflexivity|].
  intros H. apply andb_true_iff in H as [Hc H].
  now rewrite Hc, IH.
Qed.

Lemma lstrip_by_fixed p s :
  first_is (fun c => negb (p c)) s = true -> PyRe.lstrip_by p s = s.
Proof.
  destruct s; simpl; [reflexivity|]. intros H. apply negb_true_iff in H. now rewrite H.
Qed.

Lemma rstrip_by_fixed p s :
  last_is (fun c => negb (p c)) s = true -> PyRe.rstrip_by p s = s.
Proof.
  induction s as [|c r IH]; [discriminate|].
  destruct r as [|c' r'].
  - simpl. intros H. apply negb_true_iff in H. now rewrite H.
  - intros H.
    change (last_is (fun c => negb (p c)) (String c (String c' r')))
      with (last_is (fun c => negb (p c)) (String c' r')) in H.
    specialize (IH H).
    change (PyRe.rstrip_by p (String c (String c' r')))
      with (match PyRe.rstrip_by p (String c' r') with
            | EmptyString => if p c then EmptyString else String c EmptyString
            | r'' => String c r''
            end).
    rewrite IH. reflexivity.
Qed.

Lemma first_ok_is s : first_ok s = first_is not_space s.
Proof. destruct s; reflexivity. Qed.

Lemma last_ok_is s : last_ok s = last_is not_space s.
Proof.
  induction s as [|c s IH]; [reflexivity|].
  destruct s; [reflexivity|]. exact IH.
Qed.

Lemma clean_part_fixed s : clean_part s = true -> safe_filename_part s = s.
Proof.
  unfold clean_part. intros H.
  apply andb_true_iff in H as [H Hl]. apply andb_true_iff in H as [Ha Hf].
  unfold safe_filename_part.
  rewrite strip_clean.
  2:{ rewrite first_ok_is. exact (first_is_weaken _ _ _ alnum_not_space Hf). }
  2:{ rewrite last_ok_is. exact (last_is_weaken _ _ _ alnum_not_space Hl). }
  rewrite (replace_char_fixed PyRe.is_safe "\" "-" s safe_not_backslash Ha).
  rewrite (replace_char_fixed PyRe.is_safe "/" "-" s safe_not_slash Ha).
  rewrite sub_unsafe_runs_fixed by assumption.
  unfold PyRe.strip_by.
  rewrite lstrip_by_fixed by exact (first_is_weaken _ _ _ alnum_not_edge Hf).
  rewrite rstrip_by_fixed by exact (last_is_weaken _ _ _ alnum_not_edge Hl).
  destruct s; [discriminate Hf | reflexivity].
Qed.

(** X1. [safe_filename_part] returns a usable part of a file name
    whatever it is given: the result is never empty, holds only
    letters, digits, [.], [_] and [-] (so no path separator), and
    begins and ends with a letter or a digit. *)
Theorem safe_filename_part_clean :
  forall v, clean_part (safe_filename_part v) = true.
Proof. exact safe_filename_part_is_clean. Qed.

(** X2. The texts [safe_filename_part] returns unchanged are exactly
    the clean ones, and cleaning a second time changes nothing. *)
Theorem safe_filename_part_fixed_points :
  (forall s, safe_filename_part s = s <-> clean_part s = true)
  /\ (forall v,
        safe_filename_part (safe_filename_part v) = safe_filename_part v).
Proof.
  split.
  - intros s. split.
    + intros E. rewrite <- E. apply safe_filename_part_is_clean.
    + apply clean_part_fixed.
  - intros v. apply clean_part_fixed, safe_filename_part_is_clean.
Qed.

(** ** Names of the document files *)



Lemma uint_digits u : PyRe.all_chars PyRe.is_digit (NilEmpty.string_of_uint u) = true.
Proof. induction u; simpl; auto. Qed.

Lemma nilzero_uint_digits u :
  PyRe.all_chars PyRe.is_digit (NilZero.string_of_uint u) = true.
Proof. destruct u; try reflexivity; apply (uint_digits (_ u)). Qed.

Lemma of_Z_nonneg_digits n :
  0 <= n -> PyRe.all_chars PyRe.is_digit (PyStr.of_Z n) = true.
Proof.
  intros Hn. unfold PyStr.of_Z.
  destruct n as [|p|p]; [reflexivity| |lia].
  apply nilzero_uint_digits.
Qed.









Lemma endswith_cons suf c b :
  PyRe.endswith suf b = true -> PyRe.endswith suf (String c b) = true.
Proof.
  unfold PyRe.endswith. intros H.
  apply andb_true_iff in H as [Hk Hs]. apply Nat.leb_le in Hk.
  apply andb_true_iff. split.
  - apply Nat.leb_le. simpl. lia.
  - simpl String.length.
    replace (S (String.length b) - String.length suf)%nat
      with (S (String.length b - String.length suf)) by lia.
    exact Hs.
Qed.

Lemma endswith_app suf a b :
  PyRe.endswith suf b = true -> PyRe.endswith suf (a ++ b) = true.
Proof.
  intros Hb. induction a as [|c a IH]; simpl; [exact Hb|].
  now apply endswith_cons.
Qed.


Lemma clean_part_safe s : clean_part s = true -> PyRe.all_chars PyRe.is_safe s = true.
Proof.
  unfold clean_part. intros H.
  apply andb_true_iff in H as [H _]. now apply andb_true_iff in H as [H _].
Qed.







(** X4. The file name of the role document, built from the period
    start and end given in the payload, holds only letters, digits,
    [.], [_] and [-], begins with a letter and ends in [.docx],
    whatever the two texts are. *)
Theorem role_docx_name_safe a b : safe_name (GenerateRole.docx_name a b) = true.
Proof.
  unfold GenerateRole.docx_name, GenerateRole.safe_filename_part.
  pose proof (clean_part_safe _ (safe_filename_part_is_clean a)) as Ha.
  pose proof (clean_part_safe _ (safe_filename_part_is_clean b)) as Hb.
  unfold safe_name.
  rewrite !all_chars_app, Ha, Hb.
  replace (PyRe.endswith ".docx" _) with true
    by (symmetry; repeat (apply endswith_app); reflexivity).
  reflexivity.
Qed.

(** ** Domain of the number-to-words functions *)

Lemma index_beyond l i :
  Z.of_nat (List.length l) <= i -> index l i = Raise out_of_range.
Proof.
  intros Hi. unfold index.
  replace (i <? 0) with false by (symmetry; apply Z.ltb_ge; lia).
  replace (i <? 0) with false by (symmetry; apply Z.ltb_ge; lia).
  assert (H : nth_error l (Z.to_nat i) = None) by (apply nth_error_None; lia).
  now rewrite H.
Qed.

Lemma three_digits_checked :
  forallb (fun g => clean_words (three_digits g)) (map Z.of_nat (seq 1 1999)) = true.
Proof. vm_compute. reflexivity. Qed.

Lemma three_digits_clean g :
  0 < g < 2000 ->
  exists a, three_digits g = Ok a /\ first_ok a = true /\ last_ok a = true.
Proof.
  intros Hg. pose proof three_digits_checked as H.
  rewrite forallb_forall in H.
  assert (Hin : In g (map Z.of_nat (seq 1 1999))).
  { apply in_map_iff. exists (Z.to_nat g). split; [lia|]. apply in_seq. lia. }
  specialize (H g Hin). unfold clean_words in H.
  destruct (three_digits g) as [a|]; [|discriminate].
  apply andb_true_iff in H. exists a. intuition.
Qed.

Lemma three_digits_beyond g :
  2000 <= g -> three_digits g = Raise out_of_range.
Proof.
  intros Hg. unfold three_digits.
  assert (Hh : 20 <= g / 100) by (apply Z.div_le_lower_bound; lia).
  replace (g / 100 =? 0) with false by (symmetry; apply Z.eqb_neq; lia).
  replace (g / 100 =? 1) with false by (symmetry; apply Z.eqb_neq; lia).
  rewrite index_beyond by (simpl; lia). reflexivity.
Qed.

Lemma join_space_clean l :
  l <> [] ->
  (forall s, In s l -> first_ok s = true /\ last_ok s = true) ->
  first_ok (join_space l) = true /\ last_ok (join_space l) = true.
Proof.
  induction l as [|x l IH]; [congruence|].
  intros _ Hall.
  destruct (Hall x (or_introl eq_refl)) as [Hfx Hlx].
  destruct l as [|y l']; [simpl; auto|].
  rewrite join_space_cons by discriminate.
  destruct IH as [Hf Hl]; [discriminate | intros s Hs; apply Hall; now right |].
  split; [now apply first_ok_app | apply last_ok_app, last_ok_app; exact Hl].
Qed.

Lemma thousands_part_clean t :
  0 <= t < 1000 ->
  exists l, thousands_part t = Ok l
            /\ (0 < t -> l <> [])
            /\ forall s, In s l -> first_ok s = true /\ last_ok s = true.
Proof.
  intros Ht. unfold thousands_part.
  destruct (Z.eq_dec t 0) as [E|E].
  - subst t. exists []. simpl. repeat split; [lia | contradiction | contradiction].
  - replace (0 <? t) with true by (symmetry; apply Z.ltb_lt; lia).
    destruct (Z.eq_dec t 1) as [E1|E1].
    + subst t. exists ["Mille"]. simpl. repeat split; try discriminate;
        destruct H as [<-|[]]; reflexivity.
    + replace (t =? 1) with false by (symmetry; apply Z.eqb_neq; lia).
      destruct (three_digits_clean t ltac:(lia)) as (a & Ha & Hf & Hl).
      rewrite Ha. simpl. exists [a ++ " Mille"]. repeat split; try discriminate;
        destruct H as [<-|[]]; [now apply first_ok_app | now apply last_ok_app].
Qed.

Lemma rest_part_clean r :
  0 <= r < 1000 ->
  exists l, rest_part r = Ok l
            /\ (0 < r -> l <> [])
            /\ forall s, In s l -> first_ok s = true /\ last_ok s = true.
Proof.
  intros Hr. unfold rest_part.
  destruct (Z.eq_dec r 0) as [E|E].
  - subst r. exists []. simpl. repeat split; [lia | contradiction | contradiction].
  - replace (0 <? r) with true by (symmetry; apply Z.ltb_lt; lia).
    destruct (three_digits_clean r ltac:(lia)) as (a & Ha & Hf & Hl).
    rewrite Ha. simpl. exists [a]. repeat split; try discriminate;
      destruct H as [<-|[]]; assumption.
Qed.

Lemma to_words_within n :
  0 <= n < 2000000000 -> clean_words (to_words n) = true.
Proof.
  intros Hn.
  destruct (Z.eq_dec n 0) as [E|E]; [subst n; reflexivity|].
  rewrite to_words_unfold.
  replace (n =? 0) with false by (symmetry; apply Z.eqb_neq; assumption).
  set (M := n / 1000000). set (T := (n mod 1000000) / 1000). set (R := n mod 1000).
  assert (HM : 0 <= M < 2000) by (subst M; split;
    [apply Z.div_pos; lia | apply Z.div_lt_upper_bound; lia]).
  assert (Hrem : 0 <= n mod 1000000 < 1000000) by (apply Z.mod_pos_bound; lia).
  assert (HT : 0 <= T < 1000) by (subst T; split;
    [apply Z.div_pos; lia | apply Z.div_lt_upper_bound; lia]).
  assert (HR : 0 <= R < 1000) by (subst R; apply Z.mod_pos_bound; lia).
  assert (Hsum : n = M * 1000000 + T * 1000 + R).
  { subst M T R. clear. Z.to_euclidean_division_equations. lia. }
  assert (H1 : exists l1,
             (if 0 <? M then
                do w <- three_digits M;
                Ok [w ++ " Million" ++ (if 1 <? M then "s" else "")]
              else Ok []) = Ok l1
             /\ (0 < M -> l1 <> [])
             /\ forall s, In s l1 -> first_ok s = true /\ last_ok s = true).
  { destruct (Z.eq_dec M 0) as [E0|E0].
    - rewrite E0. exists []. simpl. repeat split; [lia | contradiction | contradiction].
    - replace (0 <? M) with true by (symmetry; apply Z.ltb_lt; lia).
      destruct (three_digits_clean M ltac:(lia)) as (a & Ha & Hf & Hl).
      rewrite Ha. cbv beta iota delta [bind]. eexists. split; [reflexivity|].
      split; [discriminate|].
      intros s [<-|[]]. split; [now apply first_ok_app|].
      apply last_ok_app. destruct (1 <? M); reflexivity. }
  destruct H1 as (l1 & E1 & N1 & C1).
  destruct (thousands_part_clean T HT) as (l2 & E2 & N2 & C2).
  destruct (rest_part_clean R HR) as (l3 & E3 & N3 & C3).
  rewrite E1, E2, E3. cbv beta iota delta [bind]. unfold clean_words.
  destruct (join_space_clean (l1 ++ l2 ++ l3)%list) as [Hf Hl].
  - intros Hnil. apply app_eq_nil in Hnil as [Hn1 Hnil].
    apply app_eq_nil in Hnil as [Hn2 Hn3].
    assert (M = 0) by (destruct (Z.eq_dec M 0); [assumption | exfalso; apply N1; [lia | assumption]]).
    assert (T = 0) by (destruct (Z.eq_dec T 0); [assumption | exfalso; apply N2; [lia | assumption]]).
    assert (R = 0) by (destruct (Z.eq_dec R 0); [assumption | exfalso; apply N3; [lia | assumption]]).
    lia.
  - intros s Hs. apply in_app_or in Hs as [Hs|Hs]; [now apply C1|].
    apply in_app_or in Hs as [Hs|Hs]; [now apply C2 | now apply C3].
  - now rewrite Hf, Hl.
Qed.

Lemma to_words_beyond n :
  2000000000 <= n -> to_words n = Raise out_of_range.
Proof.
  intros Hn. rewrite to_words_unfold.
  replace (n =? 0) with false by (symmetry; apply Z.eqb_neq; lia).
  assert (HM : 2000 <= n / 1000000) by (apply Z.div_le_lower_bound; lia).
  replace (0 <? n / 1000000) with true by (symmetry; apply Z.ltb_lt; lia).
  rewrite three_digits_beyond by assumption. reflexivity.
Qed.

(** X5. [to_words] of [generate_document.py] on a whole part that is
    not negative: below 2 000 000 000 it returns a text with no blank
    at either end (so not empty); from 2 000 000 000 on it raises
    [IndexError], the millions group reaching beyond the 20 entries of
    [units]. *)
Theorem to_words_domain n :
  0 <= n ->
  if n <? 2000000000 then clean_words (to_words n) = true
  else to_words n = Raise out_of_range.
Proof.
  intros Hn. destruct (n <? 2000000000) eqn:E.
  - apply Z.ltb_lt in E. apply to_words_within. lia.
  - apply Z.ltb_ge in E. now apply to_words_beyond.
Qed.

(** 1 999 999 999 is the last whole part put in words, 2 000 000 000
    the first refused. *)
Lemma to_words_domain_witness :
  0 <= 1999999999
  /\ clean_words (to_words 1999999999) = true
  /\ to_words 2000000000 = Raise out_of_range.
Proof.
  split; [lia|]. split.
  - exact (to_words_domain 1999999999 ltac:(lia)).
  - exact (to_words_domain 2000000000 ltac:(lia)).
Defined.

(** X7. [to_words] of [generate_document.py] on a negative whole
    part: the sign and the millions are dropped without an error, and
    the words are those of the remainder modulo 1 000 000 (floor
    division), the empty text when that remainder is 0. *)
Theorem to_words_negative_wraps n :
  n < 0 ->
  to_words n = if n mod 1000000 =? 0 then Ok "" else to_words (n mod 1000000).
Proof.
  intros Hn.
  assert (Hr : 0 <= n mod 1000000 < 1000000) by (apply Z.mod_pos_bound; lia).
  rewrite (to_words_unfold n).
  replace (n =? 0) with false by (symmetry; apply Z.eqb_neq; lia).
  assert (HM : n / 1000000 < 0) by (apply Z.div_lt_upper_bound; lia).
  replace (0 <? n / 1000000) with false by (symmetry; apply Z.ltb_ge; lia).
  cbv beta iota delta [bind].
  destruct (n mod 1000000 =? 0) eqn:E.
  - apply Z.eqb_eq in E.
    assert (E3 : n mod 1000 = 0).
    { clear - E. Z.to_euclidean_division_equations. lia. }
    rewrite E, E3. reflexivity.
  - rewrite (to_words_unfold (n mod 1000000)), E.
    replace (n mod 1000000 / 1000000) with 0 by (symmetry; apply Z.div_small; lia).
    replace ((n mod 1000000) mod 1000000) with (n mod 1000000)
      by (symmetry; apply Z.mod_small; lia).
    replace ((n mod 1000000) mod 1000) with (n mod 1000).
    2:{ clear. Z.to_euclidean_division_equations. lia. }
    reflexivity.
Qed.

(** For -1 the words are those of 999 999. *)
Lemma to_words_negative_wraps_witness :
  -1 < 0
  /\ to_words (-1)
     = Ok "Neuf Cent Quatre Vingt Dix Neuf Mille Neuf Cent Quatre Vingt Dix Neuf".
Proof.
  split; [lia|].
  rewrite (to_words_negative_wraps (-1)) by lia. vm_compute. reflexivity.
Defined.

Lemma below_thousand_checked :
  forallb (fun g => clean_words (GenerateRole.convert_below_thousand g))
    (map Z.of_nat (seq 1 999)) = true.
Proof. vm_compute. reflexivity. Qed.

Lemma below_thousand_clean g :
  0 < g < 1000 ->
  exists a, GenerateRole.convert_below_thousand g = Ok a
            /\ first_ok a = true /\ last_ok a = true.
Proof.
  intros Hg. pose proof below_thousand_checked as H.
  rewrite forallb_forall in H.
  assert (Hin : In g (map Z.of_nat (seq 1 999))).
  { apply in_map_iff. exists (Z.to_nat g). split; [lia|]. apply in_seq. lia. }
  specialize (H g Hin). unfold clean_words in H.
  destruct (GenerateRole.convert_below_thousand g) as [a|]; [|discriminate].
  apply andb_true_iff in H. exists a. intuition.
Qed.

Lemma below_thousand_beyond g :
  1000 <= g -> GenerateRole.convert_below_thousand g = Raise out_of_range.
Proof.
  intros Hg. unfold GenerateRole.convert_below_thousand.
  assert (Hh : 10 <= g / 100) by (apply Z.div_le_lower_bound; lia).
  replace (0 <? g / 100) with true by (symmetry; apply Z.ltb_lt; lia).
  rewrite index_beyond by (simpl; lia). reflexivity.
Qed.

Lemma below_million_clean n :
  0 < n < 1000000 ->
  exists a, GenerateRole.convert_below_million n = Ok a
            /\ first_ok a = true /\ last_ok a = true.
Proof.
  intros Hn. unfold GenerateRole.convert_below_million.
  destruct (n <? 1000) eqn:E.
  - apply Z.ltb_lt in E. apply below_thousand_clean. lia.
  - apply Z.ltb_ge in E.
    assert (HT : 1 <= n / 1000 < 1000) by (split;
      [apply Z.div_le_lower_bound; lia | apply Z.div_lt_upper_bound; lia]).
    assert (HR : 0 <= n mod 1000 < 1000) by (apply Z.mod_pos_bound; lia).
    assert (H1 : exists x,
      (if n / 1000 =? 1 then Ok "Mille"
       else do w <- GenerateRole.convert_below_thousand (n / 1000); Ok (w ++ " Mille"))
      = Ok x /\ first_ok x = true /\ last_ok x = true).
    { destruct (n / 1000 =? 1) eqn:E1; [exists "Mille"; auto|].
      apply Z.eqb_neq in E1.
      destruct (below_thousand_clean (n / 1000) ltac:(lia)) as (a & Ha & Hf & Hl).
      rewrite Ha. eexists. split; [reflexivity|].
      split; [now apply first_ok_app | now apply last_ok_app]. }
    destruct H1 as (x & Ex & Hfx & Hlx). rewrite Ex. cbv beta iota delta [bind].
    destruct (0 <? n mod 1000) eqn:ER.
    + apply Z.ltb_lt in ER.
      destruct (below_thousand_clean (n mod 1000) ltac:(lia)) as (a & Ha & Hf & Hl).
      rewrite Ha. cbv beta iota delta [bind].
      assert (Hf2 : first_ok (x ++ " " ++ a) = true) by now apply first_ok_app.
      assert (Hl2 : last_ok (x ++ " " ++ a) = true) by (apply last_ok_app, last_ok_app; assumption).
      rewrite strip_clean by assumption. eauto.
    + rewrite append_empty_r, strip_clean by assumption. eauto.
Qed.

Lemma convert_whole_within n :
  0 <= n < 1000000000 -> clean_words (GenerateRole.convert_whole n) = true.
Proof.
  intros Hn. unfold GenerateRole.convert_whole.
  destruct (n =? 0) eqn:E0; [reflexivity|]. apply Z.eqb_neq in E0.
  unfold GenerateRole.convert.
  destruct (n <? 1000000) eqn:E.
  - apply Z.ltb_lt in E.
    destruct (below_million_clean n ltac:(lia)) as (a & Ha & Hf & Hl).
    rewrite Ha. simpl. now rewrite Hf, Hl.
  - apply Z.ltb_ge in E.
    assert (HM : 1 <= n / 1000000 < 1000) by (split;
      [apply Z.div_le_lower_bound; lia | apply Z.div_lt_upper_bound; lia]).
    assert (HR : 0 <= n mod 1000000 < 1000000) by (apply Z.mod_pos_bound; lia).
    assert (H1 : exists x,
      (if n / 1000000 =? 1 then Ok "Un Million"
       else do w <- GenerateRole.convert_below_thousand (n / 1000000);
            Ok (w ++ " Millions"))
      = Ok x /\ first_ok x = true /\ last_ok x = true).
    { destruct (n / 1000000 =? 1) eqn:E1; [exists "Un Million"; auto|].
      apply Z.eqb_neq in E1.
      destruct (below_thousand_clean (n / 1000000) ltac:(lia)) as (a & Ha & Hf & Hl).
      rewrite Ha. eexists. split; [reflexivity|].
      split; [now apply first_ok_app | now apply last_ok_app]. }
    destruct H1 as (x & Ex & Hfx & Hlx). rewrite Ex. cbv beta iota delta [bind].
    destruct (0 <? n mod 1000000) eqn:ER.
    + apply Z.ltb_lt in ER.
      destruct (below_million_clean (n mod 1000000) ltac:(lia)) as (a & Ha & Hf & Hl).
      rewrite Ha. cbv beta iota delta [bind].
      assert (Hf2 : first_ok (x ++ " " ++ a) = true) by now apply first_ok_app.
      assert (Hl2 : last_ok (x ++ " " ++ a) = true) by (apply last_ok_app, last_ok_app; assumption).
      rewrite strip_clean by assumption. unfold clean_words. now rewrite Hf2, Hl2.
    + rewrite append_empty_r, strip_clean by assumption.
      unfold clean_words. now rewrite Hfx, Hlx.
Qed.

Lemma convert_whole_beyond n :
  1000000000 <= n -> GenerateRole.convert_whole n = Raise out_of_range.
Proof.
  intros Hn. unfold GenerateRole.convert_whole, GenerateRole.convert.
  replace (n =? 0) with false by (symmetry; apply Z.eqb_neq; lia).
  replace (n <? 1000000) with false by (symmetry; apply Z.ltb_ge; lia).
  assert (HM : 1000 <= n / 1000000) by (apply Z.div_le_lower_bound; lia).
  replace (n / 1000000 =? 1) with false by (symmetry; apply Z.eqb_neq; lia).
  rewrite below_thousand_beyond by assumption. reflexivity.
Qed.

(** X6. [number_to_words_fr] of [generate_role.py] on a whole part
    that is not negative: below 1 000 000 000 it returns a text with
    no blank at either end; from 1 000 000 000 on it raises
    [IndexError], the millions group reaching beyond the 10 entries of
    [units]. *)
Theorem convert_whole_domain n :
  0 <= n ->
  if n <? 1000000000 then clean_words (GenerateRole.convert_whole n) = true
  else GenerateRole.convert_whole n = Raise out_of_range.
Proof.
  intros Hn. destruct (n <? 1000000000) eqn:E.
  - apply Z.ltb_lt in E. apply convert_whole_within. lia.
  - apply Z.ltb_ge in E. now apply convert_whole_beyond.
Qed.

Lemma convert_whole_domain_witness :
  0 <= 999999999
  /\ clean_words (GenerateRole.convert_whole 999999999) = true
  /\ GenerateRole.convert_whole 1000000000 = Raise out_of_range.
Proof.
  split; [lia|]. split.
  - exact (convert_whole_domain 999999999 ltac:(lia)).
  - exact (convert_whole_domain 1000000000 ltac:(lia)).
Defined.

(** X8. [number_to_words_fr] of [generate_role.py] on a negative
    whole part: the words are those of the remainder modulo 100 (floor
    division), the empty text when that remainder is 0. *)
Theorem convert_whole_negative_wraps n :
  n < 0 ->
  GenerateRole.convert_whole n
  = if n mod 100 =? 0 then Ok "" else GenerateRole.convert_whole (n mod 100).
Proof.
  intros Hn.
  assert (Hr : 0 <= n mod 100 < 100) by (apply Z.mod_pos_bound; lia).
  unfold GenerateRole.convert_whole, GenerateRole.convert,
    GenerateRole.convert_below_million.
  replace (n =? 0) with false by (symmetry; apply Z.eqb_neq; lia).
  replace (n <? 1000000) with true by (symmetry; apply Z.ltb_lt; lia).
  replace (n <? 1000) with true by (symmetry; apply Z.ltb_lt; lia).
  unfold GenerateRole.convert_below_thousand.
  assert (HM : n / 100 < 0) by (apply Z.div_lt_upper_bound; lia).
  replace (0 <? n / 100) with false by (symmetry; apply Z.ltb_ge; lia).
  destruct (n mod 100 =? 0) eqn:E.
  - apply Z.eqb_eq in E. rewrite E. reflexivity.
  - apply Z.eqb_neq in E.
    replace (n mod 100 <? 1000000) with true by (symmetry; apply Z.ltb_lt; lia).
    replace (n mod 100 <? 1000) with true by (symmetry; apply Z.ltb_lt; lia).
    replace (n mod 100 / 100) with 0 by (symmetry; apply Z.div_small; lia).
    replace ((n mod 100) mod 100) with (n mod 100) by (symmetry; apply Z.mod_small; lia).
    reflexivity.
Qed.

(** For -1 the words are those of 99. *)
Lemma convert_whole_negative_wraps_witness :
  -1 < 0 /\ GenerateRole.convert_whole (-1) = Ok "Quatre Vingt Dix Neuf".
Proof.
  split; [lia|].
  rewrite (convert_whole_negative_wraps (-1)) by lia. vm_compute. reflexivity.
Defined.

(** ** Dates as the documents print them *)

Lemma split_nonempty sep s : PyStr.split sep s <> [].
Proof.
  destruct s as [|c r]; simpl; [discriminate|].
  destruct (PyStr.split sep r); [discriminate|].
  destruct (Ascii.eqb c sep); discriminate.
Qed.

Lemma split_no_sep sep s :
  PyStr.contains sep s = false -> PyStr.split sep s = [s].
Proof.
  induction s as [|c r IH]; simpl; [reflexivity|].
  intros H. apply orb_false_iff in H as [Hc Hr].
  rewrite (IH Hr). rewrite Ascii.eqb_sym, Hc. reflexivity.
Qed.

Lemma split_app sep a b :
  PyStr.contains sep a = false ->
  PyStr.split sep (a ++ String sep b) = a :: PyStr.split sep b.
Proof.
  induction a as [|c r IH]; simpl.
  - intros _. destruct (PyStr.split sep b) eqn:E; [now apply split_nonempty in E|].
    now rewrite Ascii.eqb_refl.
  - intros H. apply orb_false_iff in H as [Hc Hr].
    rewrite (IH Hr). rewrite Ascii.eqb_sym, Hc. reflexivity.
Qed.

Lemma contains_app_sep sep a b : PyStr.contains sep (a ++ String sep b) = true.
Proof.
  induction a as [|c r IH]; simpl; [now rewrite Ascii.eqb_refl|].
  rewrite IH. apply orb_true_r.
Qed.

Lemma days_read_back :
  forallb (fun k => reads_as k (PyStr.zfill2 k)) (map Z.of_nat (seq 1 31)) = true.
Proof. vm_compute. reflexivity. Qed.

Lemma years_read_back :
  forallb (fun k => reads_as k (PyStr.of_Z k)) (map Z.of_nat (seq 1 (Z.to_nat 9999))) = true.
Proof. vm_compute. reflexivity. Qed.

Lemma zfill2_reads_as k : 1 <= k <= 31 -> reads_as k (PyStr.zfill2 k) = true.
Proof.
  intros Hk. pose proof days_read_back as H. rewrite forallb_forall in H.
  apply H, in_map_iff. exists (Z.to_nat k). split; [lia|]. apply in_seq. lia.
Qed.

Lemma of_Z_reads_as k : 1 <= k <= 9999 -> reads_as k (PyStr.of_Z k) = true.
Proof.
  intros Hk. pose proof years_read_back as H. rewrite forallb_forall in H.
  apply H, in_map_iff. exists (Z.to_nat k). split; [lia|]. apply in_seq. lia.
Qed.

Lemma reads_as_spec k s :
  reads_as k s = true ->
  PyStr.contains "/" s = false /\ first_ok s = true /\ last_ok s = true
  /\ PyStr.to_int s = Some k.
Proof.
  unfold reads_as. intros H.
  apply andb_true_iff in H as [H Hi]. apply andb_true_iff in H as [H Hl].
  apply andb_true_iff in H as [Hc Hf]. apply negb_true_iff in Hc.
  destruct (PyStr.to_int s) as [z|]; [|discriminate].
  apply Z.eqb_eq in Hi. subst z. auto.
Qed.

Lemma make_date_ok y m d b :
  make_date y m d = Ok b ->
  1 <= y <= 9999 /\ 1 <= m <= 12 /\ 1 <= d <= days_in_month y m /\ b = mkdate y m d.
Proof.
  unfold make_date.
  destruct ((1 <=? y) && (y <=? 9999)) eqn:Ey; simpl; [|discriminate].
  destruct ((1 <=? m) && (m <=? 12)) eqn:Em; simpl; [|discriminate].
  destruct ((1 <=? d) && (d <=? days_in_month y m)) eqn:Ed; simpl; [|discriminate].
  intros H. inversion H.
  apply andb_true_iff in Ey as [? ?], Em as [? ?], Ed as [? ?].
  repeat split; try apply Z.leb_le; assumption.
Qed.

(** X9. [parse_date] reads back every date in the form in which the
    documents print one, [dd/mm/yyyy] with two-digit day and month:
    for each date of the calendar it returns that date, whatever
    [datetime.fromisoformat] does. *)
Theorem parse_date_reads_printed_dates iso y m d b :
  make_date y m d = Ok b ->
  parse_date iso (Some (format_dmy b)) = Some b.
Proof.
  intros Hb0. apply make_date_ok in Hb0 as (Hy & Hm & Hd & ->).
  pose proof (days_in_month_bounds y m) as Hb.
  destruct (reads_as_spec _ _ (zfill2_reads_as d ltac:(lia))) as (Cd & Fd & Ld & Id).
  destruct (reads_as_spec _ _ (zfill2_reads_as m ltac:(lia))) as (Cm & Fm & Lm & Im).
  destruct (reads_as_spec _ _ (of_Z_reads_as y Hy)) as (Cy & Fy & Ly & Iy).
  unfold format_dmy. cbn [day month year].
  set (sd := PyStr.zfill2 d) in *. set (sm := PyStr.zfill2 m) in *.
  set (sy := PyStr.of_Z y) in *.
  change (sd ++ "/" ++ sm ++ "/" ++ sy)
    with (sd ++ String "/" (sm ++ String "/" sy)).
  set (text := sd ++ String "/" (sm ++ String "/" sy)).
  assert (Ht : PyStr.strip text = text).
  { apply strip_clean; [now apply first_ok_app|].
    apply last_ok_app. change (last_ok (String "/" (sm ++ String "/" sy)))
      with (last_ok (("/" ++ sm) ++ String "/" sy)).
    apply last_ok_app. change (String "/" sy) with ("/" ++ sy). now apply last_ok_app. }
  assert (Hne : exists c r, text = String c r).
  { subst text. destruct sd as [|c r]; [discriminate Fd|]. simpl. eauto. }
  unfold parse_date.
  destruct Hne as (c & r & Etext).
  rewrite Etext at 1. rewrite Ht. rewrite Etext at 1.
  subst text.
  rewrite contains_app_sep.
  rewrite split_app by assumption. rewrite split_app by assumption.
  rewrite split_no_sep by assumption.
  cbn [map List.length Nat.eqb andb].
  rewrite !strip_clean by assumption.
  unfold parse_dmy. rewrite Id, Im, Iy.
  rewrite make_date_valid by lia. reflexivity.
Qed.

(** The last day of February 2024. *)
Lemma parse_date_reads_printed_dates_witness :
  make_date 2024 2 29 = Ok (mkdate 2024 2 29)
  /\ format_dmy (mkdate 2024 2 29) = "29/02/2024"
  /\ parse_date iso_calendar (Some "29/02/2024") = Some (mkdate 2024 2 29).
Proof.
  split; [reflexivity|]. split; [reflexivity|].
  exact (parse_date_reads_printed_dates iso_calendar 2024 2 29 (mkdate 2024 2 29)
           eq_refl).
Defined.

(** ** The dispatcher and the guards of the renderers *)

Lemma accepted_bind {A B : Type} (r : result A) (k : A -> result B) :
  type_accepted r = true -> (forall a, type_accepted (k a) = true) ->
  type_accepted (bind r k) = true.
Proof. destruct r; simpl; auto. Qed.

Lemma accepted_index l i : type_accepted (index l i) = true.
Proof.
  unfold index. destruct (_ <? 0); [reflexivity|].
  destruct (nth_error l _); reflexivity.
Qed.

Lemma accepted_two_digits_rec fuel :
  forall n, type_accepted (two_digits_rec fuel n) = true.
Proof.
  induction fuel as [|fuel IH]; intros n; simpl.
  - destruct (n <? 20); [apply accepted_index|].
    destruct (n <? 70); [|reflexivity].
    destruct (n mod 10 =? 0); [apply accepted_index|].
    apply accepted_bind; [apply accepted_index|]. intros t.
    apply accepted_bind; [apply accepted_index|]. reflexivity.
  - destruct (n <? 20); [apply accepted_index|].
    destruct (n <? 70).
    + destruct (n mod 10 =? 0); [apply accepted_index|].
      apply accepted_bind; [apply accepted_index|]. intros t.
      apply accepted_bind; [apply accepted_index|]. reflexivity.
    + destruct (n <? 80); [apply accepted_bind; [apply IH | reflexivity]|].
      destruct (n =? 80); [reflexivity|].
      apply accepted_bind; [apply IH | reflexivity].
Qed.

Lemma accepted_three_digits n : type_accepted (three_digits n) = true.
Proof.
  unfold three_digits. apply accepted_bind.
  - destruct (n / 100 =? 0); [reflexivity|].
    destruct (n / 100 =? 1); [reflexivity|].
    apply accepted_bind; [apply accepted_index | reflexivity].
  - intros h. destruct (n mod 100 =? 0); [reflexivity|].
    destruct h; [apply accepted_two_digits_rec|].
    apply accepted_bind; [apply accepted_two_digits_rec | reflexivity].
Qed.

Lemma accepted_to_words n : type_accepted (to_words n) = true.
Proof.
  unfold to_words. destruct (n =? 0); [reflexivity|].
  apply accepted_bind.
  { destruct (0 <? _); [|reflexivity].
    apply accepted_bind; [apply accepted_three_digits | reflexivity]. }
  intros p1. apply accepted_bind.
  { destruct (0 <? _); [|reflexivity]. destruct (_ =? 1); [reflexivity|].
    apply accepted_bind; [apply accepted_three_digits | reflexivity]. }
  intros p2. apply accepted_bind; [|reflexivity].
  destruct (0 <? _); [|reflexivity].
  apply accepted_bind; [apply accepted_three_digits | reflexivity].
Qed.

Lemma accepted_floor x : type_accepted (PyFloat.floor x) = true.
Proof.
  unfold PyFloat.floor. destruct (PyFloat.exact x) as [[m e]|]; [reflexivity|].
  unfold PyFloat.not_an_integer. destruct (PrimFloat.is_nan x); reflexivity.
Qed.

Lemma accepted_round x : type_accepted (PyFloat.round x) = true.
Proof.
  unfold PyFloat.round. destruct (PyFloat.exact x) as [[m e]|]; [reflexivity|].
  unfold PyFloat.not_an_integer. destruct (PrimFloat.is_nan x); reflexivity.
Qed.

Lemma accepted_of_Z_checked n : type_accepted (PyFloat.of_Z_checked n) = true.
Proof. unfold PyFloat.of_Z_checked. destruct (binary_normalize _ _ _ _ _); reflexivity. Qed.

Lemma accepted_number_to_words_fr x : type_accepted (number_to_words_fr x) = true.
Proof.
  unfold number_to_words_fr.
  apply accepted_bind; [apply accepted_floor | intros; apply accepted_to_words].
Qed.

Lemma accepted_make_date y m d : type_accepted (make_date y m d) = true.
Proof.
  unfold make_date.
  destruct (negb _); [reflexivity|].
  destruct (negb _); [reflexivity|].
  destruct (negb _); reflexivity.
Qed.

Lemma accepted_monthrange y m : type_accepted (monthrange y m) = true.
Proof. unfold monthrange. destruct (_ && _); reflexivity. Qed.

Lemma accepted_month_start_end y m : type_accepted (month_start_end y m) = true.
Proof.
  unfold month_start_end.
  apply accepted_bind; [apply accepted_monthrange | intros e].
  apply accepted_bind; [apply accepted_make_date | intros a].
  apply accepted_bind; [apply accepted_make_date | reflexivity].
Qed.

Lemma accepted_month_figures iso label payload :
  type_accepted (month_figures iso label payload) = true.
Proof.
  unfold month_figures. destruct (_ || _); [reflexivity|].
  apply accepted_bind; [apply accepted_month_start_end | intros se].
  destruct (build_workers_financial_rows _ _ _ _) as [rows totals].
  apply accepted_bind; [apply accepted_number_to_words_fr | intros w].
  apply accepted_bind; [apply accepted_floor | intros fl].
  apply accepted_bind; [apply accepted_round | reflexivity].
Qed.

Lemma accepted_amount_to_words x :
  type_accepted (amount_to_words_dhs_cents x) = true.
Proof.
  unfold amount_to_words_dhs_cents.
  apply accepted_bind; [apply accepted_floor | intros fl].
  apply accepted_bind; [apply accepted_round | intros c].
  apply accepted_bind; [apply accepted_number_to_words_fr | reflexivity].
Qed.

Lemma accepted_range_loop iso ref s e age rows :
  forall total, type_accepted (range_loop iso ref s e age rows total) = true.
Proof.
  induction rows as [|w rows IH]; intros total; simpl; [reflexivity|].
  destruct (range_net_cents iso ref s e age w) as [r|] eqn:E; [|apply IH].
  apply accepted_bind; [|intros c; apply IH].
  unfold range_net_cents in E.
  destruct (_ <=? 0)%float; [discriminate|].
  destruct (_ <=? 0); [discriminate|].
  inversion E. apply accepted_round.
Qed.

Lemma accepted_range_total iso rows y m s e age :
  type_accepted (calculate_range_net_total iso rows y m s e age) = true.
Proof.
  unfold calculate_range_net_total.
  apply accepted_bind; [apply accepted_make_date | intros ref].
  apply accepted_bind; [apply accepted_range_loop | intros c].
  apply accepted_bind; [apply accepted_of_Z_checked | reflexivity].
Qed.

Lemma accepted_month_doc r :
  type_accepted r = true -> type_accepted (month_doc r) = true.
Proof. intros H. unfold month_doc. apply accepted_bind; [exact H | reflexivity]. Qed.

(** X10. [generate_generic_docx] never fails with the error
    [Unsupported document type ...]: each renderer it calls is called
    with a document type that passes the renderer's own test, so the
    dispatcher returns or fails for another reason. *)
Theorem dispatcher_never_reports_unsupported_type iso today payload :
  type_accepted (generate_generic_docx iso today payload) = true.
Proof.
  unfold generate_generic_docx.
  destruct (document_type_of payload =? "recu-combined")%string eqn:E1.
  { apply accepted_month_doc. unfold generate_recu_docx. rewrite E1.
    apply accepted_month_figures. }
  destruct (document_type_of payload =? "demande-autorisation")%string eqn:E2.
  { apply accepted_month_doc. unfold generate_demande_autorisation_docx. rewrite E2.
    apply accepted_month_figures. }
  destruct ((document_type_of payload =? "certificat-paiement")%string
            || (document_type_of payload =? "certificat-paiement-combined")%string) eqn:E3.
  { apply accepted_month_doc. unfold generate_certificat_paiement_docx. rewrite E3.
    apply accepted_bind; [apply accepted_month_figures | intros f].
    cbv zeta.
    match goal with |- context [if ?b then Raise _ else Ok f] => destruct b end;
      reflexivity. }
  destruct (document_type_of payload =? "ordre-paiement")%string eqn:E4.
  { apply accepted_month_doc. unfold generate_ordre_paiement_docx. rewrite E4.
    apply accepted_month_figures. }
  destruct (document_type_of payload =? "mandat-paiement")%string eqn:E5.
  { apply accepted_month_doc. unfold generate_mandat_paiement_docx. rewrite E5.
    apply accepted_month_figures. }
  destruct (document_type_of payload =? "bordereau")%string eqn:E6.
  { apply accepted_bind; [|reflexivity].
    unfold generate_bordereau_docx. rewrite E6. simpl negb. cbv iota zeta.
    match goal with |- context [if ?b then Raise (ValueError _) else _] => destruct b end;
      [reflexivity|].
    apply accepted_bind; [apply accepted_monthrange | intros ld].
    apply accepted_bind; [apply accepted_range_total | intros c].
    destruct (c <=? 0)%float; [reflexivity|].
    apply accepted_bind; [apply accepted_range_total | intros r].
    apply accepted_bind; [apply accepted_amount_to_words | intros w].
    apply accepted_bind; [apply accepted_amount_to_words | reflexivity]. }
  destruct (document_type_of payload =? "rcar-salariale")%string eqn:E7.
  { unfold generate_rcar_salariale_docx, _generate_rcar_docx. rewrite E7. reflexivity. }
  destruct (document_type_of payload =? "rcar-patronale")%string eqn:E8.
  { unfold generate_rcar_patronale_docx, _generate_rcar_docx. rewrite E8. reflexivity. }
  destruct (report_rows payload) as [|w rows]; [reflexivity|].
  apply accepted_bind; [|reflexivity].
  match goal with |- context [if ?b then bind _ _ else _] => destruct b end.
  - apply accepted_bind; [apply accepted_month_start_end | reflexivity].
  - destruct (parse_date _ _); reflexivity.
Qed.

(** ** Row numbers of the role tables *)

Lemma count_from_app a n m :
  count_from a (n + m) = (count_from a n ++ count_from (a + Z.of_nat n) m)%list.
Proof.
  revert a. induction n as [|n IH]; intros a.
  - simpl. now rewrite Z.add_0_r.
  - cbn [Nat.add count_from app]. rewrite IH. do 3 f_equal. lia.
Qed.

Lemma count_from_length a n : List.length (count_from a n) = n.
Proof. revert a. induction n; intros a; simpl; auto. Qed.

Lemma prepare_from_numbers i ws :
  map GenerateRole.row_no (GenerateRole.prepare_from i ws) = count_from (i + 1) (List.length ws).
Proof. revert i. induction ws as [|w ws IH]; intros i; simpl; [reflexivity|]. now rewrite IH. Qed.

Lemma prepare_from_listed i ws : listed_workers (GenerateRole.prepare_from i ws) = ws.
Proof. revert i. induction ws as [|w ws IH]; intros i; simpl; [reflexivity|]. now rewrite IH. Qed.

Lemma prepare_from_length i ws : List.length (GenerateRole.prepare_from i ws) = List.length ws.
Proof. revert i. induction ws as [|w ws IH]; intros i; simpl; auto. Qed.

Lemma prepare_from_firstn k i ws :
  firstn k (GenerateRole.prepare_from i ws) = GenerateRole.prepare_from i (firstn k ws).
Proof.
  revert i ws. induction k as [|k IH]; intros i [|w ws]; simpl; try reflexivity.
  now rewrite IH.
Qed.

Lemma prepare_from_skipn k i ws :
  (k <= List.length ws)%nat ->
  skipn k (GenerateRole.prepare_from i ws) = GenerateRole.prepare_from (i + Z.of_nat k) (skipn k ws).
Proof.
  revert i ws. induction k as [|k IH]; intros i ws Hk.
  - simpl. now rewrite Z.add_0_r.
  - destruct ws as [|w ws]; [simpl in Hk; lia|].
    cbn [GenerateRole.prepare_from skipn]. rewrite IH by (simpl in Hk; lia).
    f_equal. lia.
Qed.

Lemma listed_app a b : listed_workers (a ++ b) = (listed_workers a ++ listed_workers b)%list.
Proof.
  induction a as [|[n w|n] a IH]; simpl; [reflexivity| |]; now rewrite IH.
Qed.

Lemma listed_blank l : listed_workers (map GenerateRole.BlankRow l) = [].
Proof. induction l; simpl; auto. Qed.

Lemma pad_blank_spec fuel b slot :
  forall rows,
    slot - Z.of_nat (List.length rows) <= Z.of_nat fuel ->
    GenerateRole.pad_blank fuel b slot rows
    = (rows ++ map GenerateRole.BlankRow
                (count_from (b + Z.of_nat (List.length rows))
                   (Z.to_nat (slot - Z.of_nat (List.length rows)))))%list.
Proof.
  induction fuel as [|fuel IH]; intros rows Hf.
  - simpl. match goal with |- context [Z.to_nat ?x] => replace (Z.to_nat x) with O by lia end. simpl. now rewrite app_nil_r.
  - cbn [GenerateRole.pad_blank].
    destruct (Z.of_nat (List.length rows) <? slot) eqn:E.
    + apply Z.ltb_lt in E.
      rewrite IH by (rewrite length_app; simpl; lia).
      rewrite length_app. cbn [List.length].
      replace (Z.to_nat (slot - Z.of_nat (List.length rows)))
        with (S (Z.to_nat (slot - Z.of_nat (List.length rows + 1)))) by lia.
      cbn [count_from map]. rewrite <- app_assoc. cbn [app].
      do 4 f_equal. lia.
    + apply Z.ltb_ge in E. match goal with |- context [Z.to_nat ?x] => replace (Z.to_nat x) with O by lia end.
      simpl. now rewrite app_nil_r.
Qed.

Lemma rendered_rows_spec (k c : Z) (cont : bool) (b : Z) rows :
  map GenerateRole.row_no rows = count_from b (List.length rows) ->
  (rows = [] -> b = if cont then k + 1 else 1) ->
  b <> 0 ->
  let slot := Z.max (if cont then c else k) (Z.of_nat (List.length rows)) in
  map GenerateRole.row_no (GenerateRole.rendered_rows k c cont rows) = count_from b (Z.to_nat slot)
  /\ listed_workers (GenerateRole.rendered_rows k c cont rows) = listed_workers rows.
Proof.
  intros Hnum Hempty Hb slot.
  unfold GenerateRole.rendered_rows. fold slot.
  set (base := match rows with
               | [] => if cont then k + 1 else 1
               | r :: _ => if GenerateRole.row_no r =? 0 then if cont then k + 1 else 1
                           else GenerateRole.row_no r
               end).
  assert (Hbase : base = b).
  { subst base. destruct rows as [|r rows]; [symmetry; now apply Hempty|].
    simpl in Hnum. injection Hnum as Hr _. rewrite Hr.
    replace (b =? 0) with false by (symmetry; now apply Z.eqb_neq). reflexivity. }
  rewrite Hbase.
  rewrite pad_blank_spec by lia.
  split.
  - rewrite map_app, Hnum, map_map. cbn [GenerateRole.row_no]. rewrite map_id.
    replace (Z.to_nat slot)
      with (List.length rows + Z.to_nat (slot - Z.of_nat (List.length rows)))%nat
      by lia.
    now rewrite count_from_app.
  - now rewrite listed_app, listed_blank, app_nil_r.
Qed.

(** X11. The two tables of a section of the role document, with [k]
    rows on page 1, at least [c] on the continuation table and [n]
    listed workers: the numbers of the first column run 1, 2, 3, ...
    over the page-1 table and on over the continuation table, up to
    [k + max c (n - k)], without a gap or a repeat; the page-1 table
    has exactly [k] rows; and the workers are listed once each, in the
    order of the payload, the other rows being blank. *)
Theorem role_tables_number_rows_consecutively payload cr sec :
  let k := GenerateRole.page1_worker_rows payload in
  let c := GenerateRole.continuation_worker_rows cr in
  let n := Z.of_nat (List.length (GenerateRole.workers sec)) in
  let t1 := fst (GenerateRole.section_tables payload cr sec) in
  let t2 := snd (GenerateRole.section_tables payload cr sec) in
  map GenerateRole.row_no (t1 ++ t2) = count_from 1 (Z.to_nat (k + Z.max c (n - k)))
  /\ Z.of_nat (List.length t1) = k
  /\ (listed_workers t1 ++ listed_workers t2)%list = GenerateRole.workers sec.
Proof.
  intros k c n. unfold GenerateRole.section_tables. fold k c. cbn [fst snd].
  set (ws := GenerateRole.workers sec) in *.
  assert (Hk : 1 <= k) by (subst k; unfold GenerateRole.page1_worker_rows; lia).
  assert (Hc : 1 <= c) by (subst c; unfold GenerateRole.continuation_worker_rows; lia).
  unfold GenerateRole.prepared_rows.
  rewrite prepare_from_firstn.
  set (K := Z.to_nat k).
  assert (Hskip : skipn K (GenerateRole.prepare_from 0 ws)
                  = GenerateRole.prepare_from (Z.of_nat (Nat.min K (List.length ws))) (skipn K ws)).
  { destruct (Nat.le_gt_cases K (List.length ws)) as [Hle|Hgt].
    - rewrite prepare_from_skipn by assumption. f_equal. lia.
    - rewrite !skipn_all2 by (rewrite ?prepare_from_length; lia). reflexivity. }
  rewrite Hskip.
  destruct (rendered_rows_spec k c false 1 (GenerateRole.prepare_from 0 (firstn K ws)))
    as [N1 L1].
  { rewrite prepare_from_numbers, prepare_from_length. reflexivity. }
  { reflexivity. }
  { lia. }
  destruct (rendered_rows_spec k c true (k + 1)
              (GenerateRole.prepare_from (Z.of_nat (Nat.min K (List.length ws))) (skipn K ws)))
    as [N2 L2].
  { rewrite prepare_from_numbers, prepare_from_length.
    destruct (Nat.le_gt_cases (List.length ws) K) as [Hle|Hgt].
    - rewrite skipn_all2 by assumption. reflexivity.
    - f_equal. lia. }
  { reflexivity. }
  { lia. }
  rewrite prepare_from_length in N1, N2.
  rewrite length_firstn in N1. rewrite length_skipn in N2.
  split; [|split].
  - rewrite map_app, N1, N2.
    replace (Z.to_nat (Z.max k (Z.of_nat (Nat.min K (List.length ws))))) with K by lia.
    replace (k + 1) with (1 + Z.of_nat K) by lia.
    rewrite <- count_from_app. f_equal. subst n. lia.
  - apply (f_equal (@List.length Z)) in N1.
    rewrite length_map, count_from_length in N1. rewrite N1. lia.
  - rewrite L1, L2, !prepare_from_listed. apply firstn_skipn.
Qed.

(** ** Quarter and period of the RCAR statements *)

Lemma filter_months_valid raw :
  forallb month_in_year (filter (fun m => (1 <=? m) && (m <=? 12)) raw) = true.
Proof.
  induction raw as [|m raw IH]; simpl; [reflexivity|].
  destruct ((1 <=? m) && (m <=? 12)) eqn:E; [|exact IH].
  simpl. unfold month_in_year at 1. now rewrite E, IH.
Qed.

Lemma quarter_months_valid q : forallb month_in_year (quarter_months q) = true.
Proof.
  unfold quarter_months.
  destruct (q =? 1); [reflexivity|]. destruct (q =? 2); [reflexivity|].
  destruct (q =? 3); [reflexivity|]. destruct (q =? 4); reflexivity.
Qed.

Lemma quarter_months_spec q :
  is_quarter q = true -> quarter_months q = [3 * q - 2; 3 * q - 1; 3 * q].
Proof.
  unfold is_quarter. intros H. apply andb_true_iff in H as [H1 H2].
  apply Z.leb_le in H1, H2.
  assert (Hq : q = 1 \/ q = 2 \/ q = 3 \/ q = 4) by lia.
  destruct Hq as [->|[->|[->| ->]]]; reflexivity.
Qed.

Lemma month_quarter m :
  month_in_year m = true -> is_quarter ((m - 1) / 3 + 1) = true.
Proof.
  unfold month_in_year, is_quarter. intros H. apply andb_true_iff in H as [H1 H2].
  apply Z.leb_le in H1, H2.
  apply andb_true_iff. split; apply Z.leb_le.
  - assert (0 <= (m - 1) / 3) by (apply Z.div_pos; lia). lia.
  - assert ((m - 1) / 3 < 4) by (apply Z.div_lt_upper_bound; lia). lia.
Qed.

(** X12. The quarter and the months an RCAR statement prints agree in
    being there: after [_generate_rcar_docx] has settled them, the
    quarter is one of 1 to 4 exactly when the list of months is not
    empty, and every month of the list is a month.  A quarter given as
    1 to 4 is kept; without one, the months are the months of the
    payload that are months. *)
Theorem rcar_period_quarter_and_months_consistent year quarter raw :
  let p := rcar_period year quarter raw in
  is_quarter (rp_quarter p) = negb (is_empty (rp_months p))
  /\ forallb month_in_year (rp_months p) = true
  /\ (if is_quarter quarter then rp_quarter p = quarter
      else rp_months p = filter month_in_year raw).
Proof.
  unfold rcar_period. cbn [rp_quarter rp_months].
  change (fun m => (1 <=? m) && (m <=? 12)) with month_in_year.
  pose proof (filter_months_valid raw) as Hf.
  change (fun m => (1 <=? m) && (m <=? 12)) with month_in_year in Hf.
  destruct (filter month_in_year raw) as [|m0 rest] eqn:E.
  - destruct (is_quarter quarter) eqn:Q.
    + rewrite (quarter_months_spec _ Q). cbn [is_empty negb]. rewrite ?Q.
      split; [reflexivity|]. split; [|reflexivity].
      rewrite <- (quarter_months_spec _ Q). apply quarter_months_valid.
    + simpl. rewrite ?Q. repeat split.
  - cbn [is_empty negb]. destruct (is_quarter quarter) eqn:Q.
    + rewrite ?Q. repeat split; first [exact Hf | exact Q].
    + pose proof Hf as Hf'. simpl in Hf'. apply andb_true_iff in Hf' as [H0 Hr].
      rewrite (month_quarter _ H0). repeat split. exact Hf.
Qed.

(** X13. An RCAR statement for a quarter [q] of 1 to 4 of a year of
    the calendar, the payload naming no month: the months are [3q - 2],
    [3q - 1] and [3q], and the period printed runs from the first day
    of month [3q - 2] to the last day of month [3q]. *)
Theorem rcar_period_of_a_quarter year q raw :
  1 <= year <= 9999 -> is_quarter q = true -> filter month_in_year raw = [] ->
  rcar_period year q raw
  = {| rp_quarter := q;
       rp_months := [3 * q - 2; 3 * q - 1; 3 * q];
       period_from_s := format_dmy (mkdate year (3 * q - 2) 1);
       period_to_s :=
         format_dmy (mkdate year (3 * q) (days_in_month year (3 * q))) |}.
Proof.
  intros Hy Hq Hraw. unfold rcar_period.
  change (fun m => (1 <=? m) && (m <=? 12)) with month_in_year.
  rewrite Hraw, Hq, (quarter_months_spec _ Hq).
  cbn [last]. cbv iota.
  replace (0 <? year) with true by (symmetry; apply Z.ltb_lt; lia).
  unfold is_quarter in Hq. apply andb_true_iff in Hq as [H1 H2].
  apply Z.leb_le in H1, H2.
  pose proof (days_in_month_bounds year (3 * q)) as Hb.
  pose proof (days_in_month_bounds year (3 * q - 2)) as Hb'.
  rewrite make_date_valid by lia.
  cbv beta iota delta [bind].
  rewrite monthrange_valid by lia.
  rewrite make_date_valid by lia.
  reflexivity.
Qed.

(** The second quarter of 2024 runs from 01/04/2024 to 30/06/2024. *)
Lemma rcar_period_of_a_quarter_witness :
  1 <= 2024 <= 9999
  /\ is_quarter 2 = true
  /\ rcar_period 2024 2 []
     = {| rp_quarter := 2; rp_months := [4; 5; 6];
          period_from_s := "01/04/2024"; period_to_s := "30/06/2024" |}.
Proof.
  split; [lia|]. split; [reflexivity|].
  exact (rcar_period_of_a_quarter 2024 2 [] ltac:(lia) eq_refl eq_refl).
Defined.

(** ** Deduction above the age threshold on the month paths *)

(** X14. On the paths that go through [calculate_igr_deduction] (the month
    aggregation and the bordereau range total), the row of a worker
    whose age at the reference date is strictly above the threshold
    shows a deduction of 0.00 and a net that is the gross less zero,
    rounded, whoever else is listed. *)
Theorem month_row_above_threshold iso rows ref age_limit w age :
  In w rows -> kept w = true ->
  calculate_age_at iso (date_naissance w) ref = Some age ->
  age_limit < age ->
  In (financial_row iso ref age_limit w)
     (fst (build_workers_financial_rows iso rows ref age_limit))
  /\ row_deduction (financial_row iso ref age_limit w) = 0%float
  /\ row_net (financial_row iso ref age_limit w)
     = round2 (round2 (worker_gross w - 0))
  /\ forall s e,
       range_net_cents iso ref s e age_limit w
       = if (worker_daily_salary w <=? 0)%float then None
         else if days_in_range s e w <=? 0 then None
         else
           let gross :=
             round2 (PyFloat.of_Z (days_in_range s e w) * worker_daily_salary w) in
           Some (PyFloat.round (round2 (gross - 0) * 100)%float).
Proof.
  intros Hin Hk Ha Hlt.
  assert (Hded : forall g,
            calculate_igr_deduction iso (date_naissance w) ref g age_limit = 0%float)
    by (intros g; eapply deduction_above_threshold; eassumption).
  split; [|split; [|split]].
  - rewrite build_rows_spec. apply in_map. apply filter_In. auto.
  - simpl. unfold worker_deduction. rewrite Hded. reflexivity.
  - simpl. unfold worker_net, worker_deduction. rewrite Hded. reflexivity.
  - intros s e. unfold range_net_cents. now rewrite Hded.
Qed.

(** The worker born on 01/01/1950, 74 at the end of March 2024. *)
Lemma month_row_above_threshold_witness :
  kept worker_aged_74 = true
  /\ calculate_age_at iso_calendar (date_naissance worker_aged_74)
       end_of_march_2024 = Some 74
  /\ row_deduction (financial_row iso_calendar end_of_march_2024 60 worker_aged_74)
     = 0%float.
Proof.
  split; [reflexivity|]. split; [vm_compute; reflexivity|].
  exact (proj1 (proj2
           (month_row_above_threshold iso_calendar [worker_aged_74]
              end_of_march_2024 60 worker_aged_74 74
              (or_introl eq_refl) eq_refl eq_refl ltac:(lia)))).
Defined.
